(** * DMS-Toolbox: main frame store handling

    A shallow embedding of the parts of [gui/mainframe.cc] that load
    cartridge files, set up MIDI devices, write a store to a device and
    report progress, together with the properties the design document
    states about them.

    C++ objects live in an explicit heap ([World]); a function body is a
    computation in a state-and-exception monad over its local variables
    and that heap.  Classes whose implementation is outside the translated
    sources (the cartridge and device store constructors, the SysEx
    senders) are parameters of the sections that use them. *)

From stdpp Require Import gmap strings list pretty sorting.
From Stdlib Require Import ZArith Lia Sorted Ascii.

Open Scope Z_scope.

(** ** C++ scalars *)

Module Cxx.

(** Conversion to [uint8_t]. *)
Definition uint8 (z : Z) : Z := z mod 256.

End Cxx.

(** ** Exceptions ([exceptions.hh]) *)

Inductive Exception : Type :=
| SystemException (what : string)
| DataFormatException (what : string)
| ConfigurationException (what : string)
| ForeignException (what : string).
  (* anything not derived from DMSToolbox::Exception *)

Definition isDataFormat (e : Exception) : bool :=
  match e with DataFormatException _ => true | _ => false end.

(** [catch (Exception& e)] *)
Definition isException (e : Exception) : bool :=
  match e with ForeignException _ => false | _ => true end.

(** [catch (...)] *)
Definition isAny (e : Exception) : bool := true.

Definition what (e : Exception) : string :=
  match e with
  | SystemException w | DataFormatException w
  | ConfigurationException w | ForeignException w => w
  end.

(** The exception of the RtMidi library; it is not derived from
    [DMSToolbox::Exception]. *)
Definition RtMidiError : Exception := ForeignException "RtMidiError".

(** [catch (RtMidiError&)] *)
Definition isRtMidiError (e : Exception) : bool :=
  match e with
  | ForeignException t => bool_decide (t = "RtMidiError"%string)
  | _ => false
  end.

(** ** Pointers and heap objects *)

Definition addr := nat.

(** A pointer is [None] for [nullptr]. *)
Definition ptr := option addr.

(** Block payloads are kept as raw bytes. *)
Definition Block := list Z.

Record Icb : Type := mkIcb {
  getName : string;
  getAmplBlock : Z;
  getFreqBlock : Z;
  getWaveBlock : Z
}.

(** What a store holds, independent of where its buffer lives:
    the ICBs in iteration order and the four block tables. *)
Record StoreData : Type := mkStoreData {
  icbs : list (Z * Icb);
  vcfs : gmap Z Block;
  ampls : gmap Z Block;
  freqs : gmap Z Block;
  waves : gmap Z Block
}.

Record InstrumentStore : Type := mkInstrumentStore {
  contents : StoreData;
  getBuffer : addr
}.

Definition getVcf (s : InstrumentStore) (a : Z) : option Block := vcfs (contents s) !! a.
Definition getAmpl (s : InstrumentStore) (a : Z) : option Block := ampls (contents s) !! a.
Definition getFreq (s : InstrumentStore) (a : Z) : option Block := freqs (contents s) !! a.
Definition getWave (s : InstrumentStore) (a : Z) : option Block := waves (contents s) !! a.

(** [MainFrame::InstStore] *)
Record InstStore : Type := mkInstStore {
  m_store : ptr;
  m_midiIn : ptr;
  m_midiOut : ptr;
  m_channel : Z;
  m_type : Z
}.

(** Tree nodes: the two fixed folders and appended items (by index). *)
Inductive TreeId : Type :=
| m_devices
| m_cartridges
| Item (n : nat).

(** An appended tree item with its [InstrumentHelper] payload. *)
Record TreeItem : Type := mkTreeItem {
  ti_parent : TreeId;
  ti_label : string;
  ti_store : InstStore;
  ti_icb : Z
}.

Record wxProgressDialog : Type := mkProgressDialog {
  pd_value : Z;
  pd_aborted : bool
}.

(** A file as the wx file classes show it. *)
Record File : Type := mkFile {
  file_length : Z;        (* wxFile::Length *)
  file_stream_ok : bool;  (* wxFileInputStream::IsOk *)
  file_bytes : list Z     (* what Read can deliver *)
}.

Inductive BlockKind : Type := KVcf | KAmpl | KFreq | KWave.

#[global] Instance BlockKind_eq_dec : EqDecision BlockKind.
Proof. solve_decision. Defined.

(** One call of a [SysEx::send...] function: the device type, the
    address and the ICB or block handed over. *)
Inductive SysExMessage : Type :=
| MsgIcb (type : Z) (address : Z) (icb : Icb)
| MsgBlock (kind : BlockKind) (type : Z) (address : Z) (block : Block).

Inductive Event : Type :=
| EvGet (store : addr) (kind : BlockKind) (address : Z)
| EvSysEx (midiOut : ptr) (msg : SysExMessage)
| EvNewBuffer (a : addr) (size : Z)
| EvDeleteBuffer (a : addr)
| EvMk1Cartridge (buf : addr)
| EvDx10Cartridge (buf : addr) (size : Z)
| EvDx10Device (buf : addr) (size : Z)
| EvDeleteStore (a : addr)
| EvNewMidi (a : addr)
| EvDeleteMidi (a : addr)
| EvDialogUpdate (a : addr) (value : Z).

(** Everything a member function of the main frame can see or change. *)
Record World : Type := mkWorld {
  m_instrumentStores : gmap string InstStore;
  m_instTree : list TreeItem;
  files : gmap string File;
  buffers : gmap addr (list Z);
  stores : gmap addr InstrumentStore;
  midis : gmap addr (option nat);
  dialogs : gmap addr wxProgressDialog;
  messages : list string;
  next : addr;
  trace : list Event
}.

Definition set_instrumentStores (f : gmap string InstStore -> gmap string InstStore) (w : World) : World :=
  mkWorld (f (m_instrumentStores w)) (m_instTree w) (files w) (buffers w) (stores w)
          (midis w) (dialogs w) (messages w) (next w) (trace w).
Definition set_instTree (f : list TreeItem -> list TreeItem) (w : World) : World :=
  mkWorld (m_instrumentStores w) (f (m_instTree w)) (files w) (buffers w) (stores w)
          (midis w) (dialogs w) (messages w) (next w) (trace w).
Definition set_buffers (f : gmap addr (list Z) -> gmap addr (list Z)) (w : World) : World :=
  mkWorld (m_instrumentStores w) (m_instTree w) (files w) (f (buffers w)) (stores w)
          (midis w) (dialogs w) (messages w) (next w) (trace w).
Definition set_stores (f : gmap addr InstrumentStore -> gmap addr InstrumentStore) (w : World) : World :=
  mkWorld (m_instrumentStores w) (m_instTree w) (files w) (buffers w) (f (stores w))
          (midis w) (dialogs w) (messages w) (next w) (trace w).
Definition set_midis (f : gmap addr (option nat) -> gmap addr (option nat)) (w : World) : World :=
  mkWorld (m_instrumentStores w) (m_instTree w) (files w) (buffers w) (stores w)
          (f (midis w)) (dialogs w) (messages w) (next w) (trace w).
Definition set_dialogs (f : gmap addr wxProgressDialog -> gmap addr wxProgressDialog) (w : World) : World :=
  mkWorld (m_instrumentStores w) (m_instTree w) (files w) (buffers w) (stores w)
          (midis w) (f (dialogs w)) (messages w) (next w) (trace w).
Definition set_messages (f : list string -> list string) (w : World) : World :=
  mkWorld (m_instrumentStores w) (m_instTree w) (files w) (buffers w) (stores w)
          (midis w) (dialogs w) (f (messages w)) (next w) (trace w).
Definition set_next (f : addr -> addr) (w : World) : World :=
  mkWorld (m_instrumentStores w) (m_instTree w) (files w) (buffers w) (stores w)
          (midis w) (dialogs w) (messages w) (f (next w)) (trace w).
Definition log (e : Event) (w : World) : World :=
  mkWorld (m_instrumentStores w) (m_instTree w) (files w) (buffers w) (stores w)
          (midis w) (dialogs w) (messages w) (next w) (trace w ++ [e]).

(** ** The monad of function bodies

    [M L A]: a computation over local variables [L] and the world that
    returns an [A], throws, or is undefined (a wild pointer). *)

Inductive outcome (A : Type) : Type :=
| Returns (a : A)
| Throws (e : Exception)
| Undefined.
Arguments Returns {A} a.
Arguments Throws {A} e.
Arguments Undefined {A}.

Definition M (L A : Type) : Type := L -> World -> outcome A * L * World.

Definition ret {L A} (a : A) : M L A := fun l w => (Returns a, l, w).

Definition bind {L A B} (m : M L A) (k : A -> M L B) : M L B :=
  fun l w =>
    match m l w with
    | (Returns a, l', w') => k a l' w'
    | (Throws e, l', w') => (Throws e, l', w')
    | (Undefined, l', w') => (Undefined, l', w')
    end.

Definition throw {L A} (e : Exception) : M L A := fun l w => (Throws e, l, w).
Definition undefined {L A} : M L A := fun l w => (Undefined, l, w).

(** [try { body } catch (filter& e) { handler }] *)
Definition try_catch {L A} (body : M L A) (filter : Exception -> bool)
    (handler : Exception -> M L A) : M L A :=
  fun l w =>
    match body l w with
    | (Throws e, l', w') =>
        if filter e then handler e l' w' else (Throws e, l', w')
    | r => r
    end.

Definition local {L} : M L L := fun l w => (Returns l, l, w).
Definition assign {L} (f : L -> L) : M L unit := fun l w => (Returns tt, f l, w).
Definition world {L} : M L World := fun l w => (Returns w, l, w).
Definition modify {L} (f : World -> World) : M L unit := fun l w => (Returns tt, l, f w).

(** Calling a function: it runs on locals of its own. *)
Definition call {L L' A} (init : L') (f : M L' A) : M L A :=
  fun l w => let '(r, _, w') := f init w in (r, l, w').

Declare Scope cxx_scope.
Delimit Scope cxx_scope with cxx.
Notation "'let*' x := m 'in' k" := (bind m (fun x => k))
  (at level 10, x name, m at level 100, k at level 200) : cxx_scope.
Notation "m ;; k" := (bind m (fun _ => k))
  (at level 100, k at level 200, right associativity) : cxx_scope.

Open Scope cxx_scope.

(** A range-based [for] over a list, and a counted [for]. *)
Fixpoint for_each {L A} (xs : list A) (body : A -> M L unit) : M L unit :=
  match xs with
  | [] => ret tt
  | x :: xs' => body x ;; for_each xs' body
  end.

Definition for_upto {L} (n : nat) (body : Z -> M L unit) : M L unit :=
  for_each (seqZ 0 (Z.of_nat n)) body.

(** ** Heap primitives *)

(** [new T[size]]: contents are indeterminate, shown as zeros. *)
Definition new_array {L} (size : Z) : M L addr :=
  let* w := world in
  let a := next w in
  modify (fun w => log (EvNewBuffer a size)
                     (set_next S (set_buffers <[a := replicate (Z.to_nat size) 0]> w))) ;;
  ret a.

Definition delete_array {L} (a : addr) : M L unit :=
  modify (fun w => log (EvDeleteBuffer a) (set_buffers (delete a) w)).

(** [delete store]: the store does not own its buffer. *)
Definition delete_store {L} (a : addr) : M L unit :=
  modify (fun w => log (EvDeleteStore a) (set_stores (delete a) w)).

Definition new_store {L} (s : InstrumentStore) : M L addr :=
  let* w := world in
  let a := next w in
  modify (fun w => set_next S (set_stores <[a := s]> w)) ;;
  ret a.

(** ** Progress dialog *)

(** [wxProgressDialog::Update]: stores the value and reports whether the
    user has not asked to abort. *)
Definition wxProgressDialog_Update {L} (p : addr) (value : Z) : M L bool :=
  let* w := world in
  match dialogs w !! p with
  | None => undefined
  | Some d =>
      modify (fun w => log (EvDialogUpdate p value)
                (set_dialogs <[p := mkProgressDialog value (pd_aborted d)]> w)) ;;
      ret (negb (pd_aborted d))
  end.

(** [MainFrame::updateProgress] *)
Definition updateProgress {L} (object : ptr) (current : Z) (max : Z) : M L bool :=
  let progDlg := object in
  match progDlg with
  | Some p => wxProgressDialog_Update p current
  | None => ret false
  end.

(** ** Tree and store collection *)

(** [wxTreeCtrl::AppendItem] with an [InstrumentHelper] as item data. *)
Definition AppendItem {L} (parent : TreeId) (label : string)
    (ist : InstStore) (icb : Z) : M L TreeId :=
  let* w := world in
  let id := Item (length (m_instTree w)) in
  modify (set_instTree (fun t => t ++ [mkTreeItem parent label ist icb])) ;;
  ret id.

(** ["(" << uint16_t(slot) << ") " << name] *)
Definition instName (slot : Z) (icb : Icb) : string :=
  ("(" +:+ pretty slot +:+ ") " +:+ getName icb)%string.

(** [std::map::insert]: an existing key keeps its value. *)
Definition map_insert_new (k : string) (v : InstStore)
    (m : gmap string InstStore) : gmap string InstStore :=
  match m !! k with
  | Some _ => m
  | None => <[k := v]> m
  end.

(** Iterating [*store]: the ICBs of the object a pointer refers to. *)
Definition store_icbs {L} (p : ptr) : M L (list (Z * Icb)) :=
  let* w := world in
  match p with
  | None => undefined
  | Some a =>
      match stores w !! a with
      | None => undefined
      | Some s => ret (icbs (contents s))
      end
  end.

(** The loop that hangs one tree item per ICB below [id]. *)
Definition append_instruments {L} (id : TreeId) (ist : InstStore) : M L unit :=
  let* is_icbs := store_icbs (m_store ist) in
  for_each is_icbs (fun i =>
    let* _ := AppendItem id (instName i.1 i.2) ist i.1 in ret tt).

(** ** Reading a cartridge file *)

Section ReadCartridge.

(** The two cartridge constructors, as functions of the buffer
    contents: they build the store data or throw. *)
Variable Mk1Cartridge : list Z -> Exception + StoreData.
Variable Dx10Cartridge : list Z -> Z -> Exception + StoreData.

Record rcf_locals : Type := mkRcfLocals {
  l_store : ptr;
  l_buffer : ptr
}.

Definition set_l_store (p : ptr) (l : rcf_locals) : rcf_locals :=
  mkRcfLocals p (l_buffer l).

Definition buffer_bytes {L} (buffer : ptr) : M L (addr * list Z) :=
  let* w := world in
  match buffer with
  | None => undefined
  | Some b =>
      match buffers w !! b with
      | None => undefined
      | Some bytes => ret (b, bytes)
      end
  end.

(** [new Mk1Cartridge(buffer)] *)
Definition new_Mk1Cartridge {L} (buffer : ptr) : M L addr :=
  let* bb := buffer_bytes buffer in
  modify (log (EvMk1Cartridge bb.1)) ;;
  match Mk1Cartridge bb.2 with
  | inl e => throw e
  | inr d => new_store (mkInstrumentStore d bb.1)
  end.

(** [new Dx10Cartridge(buffer, size)] *)
Definition new_Dx10Cartridge {L} (buffer : ptr) (size : Z) : M L addr :=
  let* bb := buffer_bytes buffer in
  modify (log (EvDx10Cartridge bb.1 size)) ;;
  match Dx10Cartridge bb.2 size with
  | inl e => throw e
  | inr d => new_store (mkInstrumentStore d bb.1)
  end.

(** [fileStream.Read(buffer, size)] followed by [LastRead()]. *)
Definition stream_Read {L} (f : File) (buffer : ptr) (size : Z) : M L Z :=
  let* bb := buffer_bytes buffer in
  let got := take (Z.to_nat size) (file_bytes f) in
  modify (set_buffers <[bb.1 := got ++ drop (length got) bb.2]>) ;;
  ret (Z.of_nat (length got)).

Definition ptr_is_null (p : ptr) : bool :=
  match p with None => true | Some _ => false end.

(** The body of the [try] block. *)
Definition readCartridgeFile_try (f : File) (size : Z) (cartName : string)
    : M rcf_locals unit :=
  let* l := local in
  let* lastRead := stream_Read f (l_buffer l) size in
  (if negb (lastRead =? size)
   then throw (DataFormatException "Could not read whole cartridge data")
   else ret tt) ;;
  let* l := local in
  (if ptr_is_null (l_store l)
   then try_catch
          (let* a := new_Mk1Cartridge (l_buffer l) in
           assign (set_l_store (Some a)))
          isDataFormat (fun _ => ret tt)
   else ret tt) ;;
  let* l := local in
  (if ptr_is_null (l_store l)
   then try_catch
          (let* a := new_Dx10Cartridge (l_buffer l) size in
           assign (set_l_store (Some a)))
          isDataFormat (fun _ => ret tt)
   else ret tt) ;;
  let* l := local in
  (if ptr_is_null (l_store l)
   then throw (DataFormatException "Unknown cartridge format")
   else ret tt) ;;
  let ist := mkInstStore (l_store l) None None 0 0 in
  let* id := AppendItem m_cartridges cartName ist 0 in
  append_instruments id ist ;;
  modify (set_instrumentStores (map_insert_new cartName ist)).

(** The [catch (...)] handler. *)
Definition readCartridgeFile_catch (e : Exception) : M rcf_locals unit :=
  let* l := local in
  match l_store l with
  | Some s => delete_store s
  | None => ret tt
  end ;;
  match l_buffer l with
  | Some b => delete_array b
  | None => ret tt
  end ;;
  throw e.

(** [MainFrame::readCartridgeFile] *)
Definition readCartridgeFile {L} (filePath cartName : string) : M L unit :=
  call tt (
    let* w := world in
    match files w !! filePath with
    | None => throw (SystemException "File does not exist")
    | Some file =>
        let size := file_length file in
        if negb (size =? 8192) && negb (size =? 16384)
        then throw (DataFormatException "Invalid file size (must be 8 or 16 KB)")
        else if file_stream_ok file
        then
          let* buffer := new_array size in
          call (mkRcfLocals None (Some buffer))
            (try_catch (readCartridgeFile_try file size cartName)
                       isAny readCartridgeFile_catch)
        else throw (SystemException "Unable to open file")
    end).

(** *** Failures while the tree is filled

    After the store is built the [try] block makes a helper object and
    a tree node for every item and, last, a node of the collection.
    Each of these steps allocates and may throw.  [alloc_fails k] is
    what step [k] throws, if anything: step 0 is the node of the
    cartridge, steps 1, 2, ... are the nodes of its instruments in
    order, and the step after those is the [insert].  A step that throws
    has done nothing.  [readCartridgeFile] above is the function when no
    step fails. *)
Variable alloc_fails : nat -> option Exception.

Definition allocating {L A} (k : nat) (step : M L A) : M L A :=
  match alloc_fails k with
  | Some e => throw e
  | None => step
  end.

(** The loop over the ICBs; it returns the number of the next step. *)
Definition append_instruments_with {L} (id : TreeId) (ist : InstStore) : M L nat :=
  let* is_icbs := store_icbs (m_store ist) in
  for_each (zip (seq 1 (length is_icbs)) is_icbs) (fun ki =>
    allocating ki.1
      (let* _ := AppendItem id (instName ki.2.1 ki.2.2) ist ki.2.1 in ret tt)) ;;
  ret (S (length is_icbs)).

(** The end of the [try] block: the tree is filled and the store
    entered in the collection. *)
Definition readCartridgeFile_register_with {L} (cartName : string) (ist : InstStore)
    : M L unit :=
  let* id := allocating 0 (AppendItem m_cartridges cartName ist 0) in
  let* k := append_instruments_with id ist in
  allocating k (modify (set_instrumentStores (map_insert_new cartName ist))).

(** The body of the [try] block. *)
Definition readCartridgeFile_try_with (f : File) (size : Z) (cartName : string)
    : M rcf_locals unit :=
  let* l := local in
  let* lastRead := stream_Read f (l_buffer l) size in
  (if negb (lastRead =? size)
   then throw (DataFormatException "Could not read whole cartridge data")
   else ret tt) ;;
  let* l := local in
  (if ptr_is_null (l_store l)
   then try_catch
          (let* a := new_Mk1Cartridge (l_buffer l) in
           assign (set_l_store (Some a)))
          isDataFormat (fun _ => ret tt)
   else ret tt) ;;
  let* l := local in
  (if ptr_is_null (l_store l)
   then try_catch
          (let* a := new_Dx10Cartridge (l_buffer l) size in
           assign (set_l_store (Some a)))
          isDataFormat (fun _ => ret tt)
   else ret tt) ;;
  let* l := local in
  (if ptr_is_null (l_store l)
   then throw (DataFormatException "Unknown cartridge format")
   else ret tt) ;;
  let ist := mkInstStore (l_store l) None None 0 0 in
  readCartridgeFile_register_with cartName ist.

(** [MainFrame::readCartridgeFile], with the handler above. *)
Definition readCartridgeFile_with {L} (filePath cartName : string) : M L unit :=
  call tt (
    let* w := world in
    match files w !! filePath with
    | None => throw (SystemException "File does not exist")
    | Some file =>
        let size := file_length file in
        if negb (size =? 8192) && negb (size =? 16384)
        then throw (DataFormatException "Invalid file size (must be 8 or 16 KB)")
        else if file_stream_ok file
        then
          let* buffer := new_array size in
          call (mkRcfLocals None (Some buffer))
            (try_catch (readCartridgeFile_try_with file size cartName)
                       isAny readCartridgeFile_catch)
        else throw (SystemException "Unable to open file")
    end).

End ReadCartridge.

(** ** Writing a store to a device *)

(** The getter that goes with a kind of block. *)
Definition get_block (s : InstrumentStore) (kind : BlockKind) (address : Z) : option Block :=
  match kind with
  | KVcf => getVcf s address
  | KAmpl => getAmpl s address
  | KFreq => getFreq s address
  | KWave => getWave s address
  end.

(** [store.m_store->getVcf(addr)] and its siblings, through the pointer. *)
Definition store_get {L} (p : ptr) (kind : BlockKind) (address : Z) : M L (option Block) :=
  let* w := world in
  match p with
  | None => undefined
  | Some a =>
      match stores w !! a with
      | None => undefined
      | Some s =>
          modify (log (EvGet a kind address)) ;;
          ret (get_block s kind address)
      end
  end.

(** [SysEx::sendIcb(midiOut, type, address, icb)] *)
Definition SysEx_sendIcb {L} (midiOut : ptr) (type address : Z) (icb : Icb) : M L unit :=
  modify (log (EvSysEx midiOut (MsgIcb type address icb))).

(** [SysEx::sendVcf], [sendAmpl], [sendFreq], [sendWave] *)
Definition SysEx_sendBlock {L} (kind : BlockKind) (midiOut : ptr) (type address : Z)
    (block : Block) : M L unit :=
  modify (log (EvSysEx midiOut (MsgBlock kind type address block))).

(** The local [uint8_t offset] is the whole local state of [writeDevice]. *)
Definition writeDevice_icbs (store : InstStore) : M Z unit :=
  let* store_icbs := store_icbs (m_store store) in
  for_each store_icbs (fun i =>
    SysEx_sendIcb (m_midiOut store) (m_type store) i.1 i.2 ;;
    let* offset := local in
    if offset =? 0
    then assign (fun _ => Cxx.uint8 (i.1 - 1))
    else ret tt).

Definition writeDevice_vcfs (store : InstStore) : M Z unit :=
  for_upto 10 (fun i =>
    let* offset := local in
    let addr := Cxx.uint8 (i + offset) in
    let* vcf := store_get (m_store store) KVcf addr in
    match vcf with
    | Some b => SysEx_sendBlock KVcf (m_midiOut store) (m_type store) addr b
    | None => ret tt
    end).

(** The three loops over AMPL, FREQ and WAVE blocks have one shape. *)
Definition writeDevice_blocks (kind : BlockKind) (store : InstStore) : M Z unit :=
  for_upto 20 (fun i =>
    let* offset := local in
    let addr := Cxx.uint8 (i + offset) in
    let addr := if 10 <=? i then Cxx.uint8 (addr + 1) else addr in
    let* blk := store_get (m_store store) kind addr in
    match blk with
    | Some b => SysEx_sendBlock kind (m_midiOut store) (m_type store) addr b
    | None => ret tt
    end).

Definition writeDevice_body (store : InstStore) : M Z unit :=
  writeDevice_icbs store ;;
  writeDevice_vcfs store ;;
  writeDevice_blocks KAmpl store ;;
  writeDevice_blocks KFreq store ;;
  writeDevice_blocks KWave store.

(** [MainFrame::writeDevice] *)
Definition writeDevice {L} (store : InstStore) : M L unit :=
  call 0 (writeDevice_body store).

(** The address a loop index is turned into. *)
Definition vcf_address (offset i : Z) : Z := Cxx.uint8 (i + offset).

Definition block_address (offset i : Z) : Z :=
  if 10 <=? i then Cxx.uint8 (Cxx.uint8 (i + offset) + 1) else Cxx.uint8 (i + offset).

(** The offset the ICB loop leaves behind when it starts from [offset]. *)
Fixpoint icb_offset (offset : Z) (slots : list (Z * Icb)) : Z :=
  match slots with
  | [] => offset
  | i :: rest =>
      icb_offset (if offset =? 0 then Cxx.uint8 (i.1 - 1) else offset) rest
  end.

(** The slot the offset comes from: the first one in iteration order
    whose predecessor is not zero as a [uint8_t]. *)
Definition offset_slot (slots : list (Z * Icb)) : option Z :=
  (λ r, r.2.1) <$> list_find (λ i, Cxx.uint8 (i.1 - 1) ≠ 0) slots.

Definition offset_of_slot (k : option Z) : Z :=
  match k with
  | Some k => Cxx.uint8 (k - 1)
  | None => 0
  end.

(** The design document's wording: the lowest slot that is not zero. *)
Definition lowest_nonzero_slot (slots : list (Z * Icb)) : option Z :=
  foldr (λ i acc,
           if i.1 =? 0 then acc
           else match acc with
                | Some m => Some (Z.min i.1 m)
                | None => Some i.1
                end) None slots.

(** What one probed address contributes to the trace. *)
Definition probe_events (a : addr) (s : InstrumentStore) (store : InstStore)
    (kind : BlockKind) (address : Z) : list Event :=
  EvGet a kind address ::
  match get_block s kind address with
  | Some b => [EvSysEx (m_midiOut store) (MsgBlock kind (m_type store) address b)]
  | None => []
  end.

Definition add_trace (evs : list Event) (w : World) : World :=
  mkWorld (m_instrumentStores w) (m_instTree w) (files w) (buffers w) (stores w)
          (midis w) (dialogs w) (messages w) (next w) (trace w ++ evs).

(** The messages a trace holds, in order, and the addresses one kind of
    block was asked for. *)
Definition sent (evs : list Event) : list SysExMessage :=
  omap (λ e, match e with EvSysEx _ m => Some m | _ => None end) evs.

Definition probed (kind : BlockKind) (evs : list Event) : list Z :=
  omap (λ e, match e with
             | EvGet _ k a => if decide (k = kind) then Some a else None
             | _ => None
             end) evs.

(** ** Creating the configured devices *)

(** One group below [/Devices] of the configuration. *)
Record DeviceGroup : Type := mkDeviceGroup {
  cfg_InPort : string;
  cfg_OutPort : string;
  cfg_Channel : option Z;
  cfg_Type : option Z
}.

(** [m_config.Read(key, &tmp)]: whether the key exists, and [tmp] after. *)
Definition config_Read (entry : option Z) (tmp : Z) : bool * Z :=
  match entry with
  | Some v => (true, v)
  | None => (false, tmp)
  end.

Definition set_m_store (p : ptr) (ist : InstStore) : InstStore :=
  mkInstStore p (m_midiIn ist) (m_midiOut ist) (m_channel ist) (m_type ist).
Definition set_m_midiIn (p : ptr) (ist : InstStore) : InstStore :=
  mkInstStore (m_store ist) p (m_midiOut ist) (m_channel ist) (m_type ist).
Definition set_m_midiOut (p : ptr) (ist : InstStore) : InstStore :=
  mkInstStore (m_store ist) (m_midiIn ist) p (m_channel ist) (m_type ist).
Definition set_m_channel (c : Z) (ist : InstStore) : InstStore :=
  mkInstStore (m_store ist) (m_midiIn ist) (m_midiOut ist) c (m_type ist).
Definition set_m_type (t : Z) (ist : InstStore) : InstStore :=
  mkInstStore (m_store ist) (m_midiIn ist) (m_midiOut ist) (m_channel ist) t.

(** [new RtMidiIn] and [new RtMidiOut]: a MIDI object with no open port. *)
Definition new_RtMidi {L} : M L addr :=
  let* w := world in
  let a := next w in
  modify (fun w => log (EvNewMidi a) (set_next S (set_midis <[a := None]> w))) ;;
  ret a.

Definition RtMidi_openPort {L} (p : ptr) (idx : nat) : M L unit :=
  let* w := world in
  match p with
  | None => undefined
  | Some a =>
      match midis w !! a with
      | None => undefined
      | Some _ => modify (set_midis <[a := Some idx]>)
      end
  end.

Definition delete_midi {L} (a : addr) : M L unit :=
  modify (fun w => log (EvDeleteMidi a) (set_midis (delete a) w)).

(** The port search loop: the index of the first port with this name. *)
Definition find_port (ports : list string) (name : string) : option nat :=
  fst <$> list_find (λ n, n = name) ports.

(** [store->getBuffer()] *)
Definition store_getBuffer {L} (a : addr) : M L addr :=
  let* w := world in
  match stores w !! a with
  | None => undefined
  | Some s => ret (getBuffer s)
  end.

Definition show_message {L} (msg : string) : M L unit :=
  modify (set_messages (fun ms => ms ++ [msg])).

Section CreateDevices.

(** The device store constructor, and what the MIDI system and the
    configuration hold. *)
Variable Dx10Device : list Z -> Z -> Exception + StoreData.
Variable inPorts outPorts : list string.

(** Whether [new RtMidiIn] and [new RtMidiOut] go through in the round
    for the group of this name; when not, they throw [RtMidiError]. *)
Variable RtMidiIn_ok RtMidiOut_ok : string -> bool.

Variable m_config_Devices : list (string * DeviceGroup).

(** [new Dx10Device(buffer, size)] *)
Definition new_Dx10Device {L} (buffer : addr) (size : Z) : M L addr :=
  let* bb := buffer_bytes (Some buffer) in
  modify (log (EvDx10Device bb.1 size)) ;;
  match Dx10Device bb.2 size with
  | inl e => throw e
  | inr d => new_store (mkInstrumentStore d bb.1)
  end.

(** The [try] block for one device; the local is [InstStore is].
    [setCallback] and [ignoreTypes] change nothing that is kept here, and
    the port name [pname] only labels the opened port.  An [RtMidiError]
    of a constructor is not caught by the handler below: it leaves the
    loop and the function. *)
Definition createDevices_try (name : string) (g : DeviceGroup) : M InstStore unit :=
  let* mi := (if RtMidiIn_ok name then new_RtMidi else throw RtMidiError) in
  assign (set_m_midiIn (Some mi)) ;;
  let* mo := (if RtMidiOut_ok name then new_RtMidi else throw RtMidiError) in
  assign (set_m_midiOut (Some mo)) ;;
  let* buffer := new_array 6180 in
  let* st := new_Dx10Device buffer 6180 in
  assign (set_m_store (Some st)) ;;
  let* ist := local in
  match find_port inPorts (cfg_InPort g) with
  | Some idx => RtMidi_openPort (m_midiIn ist) idx
  | None => throw (ConfigurationException "MIDI input port not found")
  end ;;
  match find_port outPorts (cfg_OutPort g) with
  | Some idx => RtMidi_openPort (m_midiOut ist) idx
  | None => throw (ConfigurationException "MIDI output port not found")
  end ;;
  let tmp := 0 in
  let channel := config_Read (cfg_Channel g) tmp in
  let tmp := channel.2 in
  (if negb channel.1 || (tmp <? 1) || (tmp >? 16)
   then throw (ConfigurationException "Invalid value for MIDI channel")
   else ret tt) ;;
  assign (set_m_channel (Cxx.uint8 tmp)) ;;
  let type := config_Read (cfg_Type g) tmp in
  let tmp := type.2 in
  (if negb type.1 || (tmp <? 1) || (tmp >? 2)
   then throw (ConfigurationException "Invalid value for device type")
   else ret tt) ;;
  assign (set_m_type (Cxx.uint8 tmp)) ;;
  (* Create instrument store *)
  let* ist := local in
  let* id := AppendItem m_devices name ist 0 in
  append_instruments id ist ;;
  modify (set_instrumentStores (map_insert_new name ist)).

(** The [catch (Exception& e)] handler. *)
Definition createDevices_catch (name : string) (e : Exception) : M InstStore unit :=
  let* ist := local in
  match m_store ist with
  | Some s =>
      let* buffer := store_getBuffer s in
      delete_store s ;;
      assign (set_m_store None) ;;
      delete_array buffer
  | None => ret tt
  end ;;
  match m_midiOut ist with
  | Some m => delete_midi m ;; assign (set_m_midiOut None)
  | None => ret tt
  end ;;
  match m_midiIn ist with
  | Some m => delete_midi m ;; assign (set_m_midiIn None)
  | None => ret tt
  end ;;
  show_message ("Device '" +:+ name +:+ "' could not be created, reason: " +:+ what e).

(** One round of the loop over the configured groups. *)
Definition createDevices_one {L} (name : string) (g : DeviceGroup) : M L unit :=
  call (mkInstStore None None None 0 0)
    (try_catch (createDevices_try name g) isException (createDevices_catch name)).

(** [MainFrame::createDevices] *)
Definition createDevices {L} : M L unit :=
  for_each m_config_Devices (fun ng => createDevices_one ng.1 ng.2).

(** Whether the two numbers of a group pass the checks. *)
Definition channel_in_range (g : DeviceGroup) : bool :=
  match cfg_Channel g with
  | Some c => (1 <=? c) && (c <=? 16)
  | None => false
  end.

Definition type_in_range (g : DeviceGroup) : bool :=
  match cfg_Type g with
  | Some t => (1 <=? t) && (t <=? 2)
  | None => false
  end.

(** The reason the handler gets when the constructor went through and a
    check fails. *)
Definition setup_failure (g : DeviceGroup) : string :=
  match find_port inPorts (cfg_InPort g) with
  | None => "MIDI input port not found"
  | Some _ =>
      match find_port outPorts (cfg_OutPort g) with
      | None => "MIDI output port not found"
      | Some _ =>
          if channel_in_range g
          then "Invalid value for device type"
          else "Invalid value for MIDI channel"
      end
  end.

End CreateDevices.

(** ** The device read transaction *)

Module ReadTransaction.

Inductive FrameKind : Type := FIcb | FBlock (kind : BlockKind).

Definition kind_code (k : FrameKind) : Z :=
  match k with
  | FIcb => 0
  | FBlock KVcf => 1
  | FBlock KAmpl => 2
  | FBlock KFreq => 3
  | FBlock KWave => 4
  end.

(** A frame of the wire protocol: block type tag, address, payload and
    trailing checksum. *)
Record Frame : Type := mkFrame {
  fr_kind : FrameKind;
  fr_address : Z;
  fr_payload : list Z;
  fr_checksum : Z
}.

Definition frame_key (f : Frame) : Z * Z := (kind_code (fr_kind f), fr_address f).

(** The read path's states as the design document names them. *)
Inductive ReadState : Type :=
| Idle
| AwaitingBlock (expectedCount receivedCount : Z)
| Complete
| Cancelled.

Section Transaction.

(** The progress callback over its opaque context, and the checksum of a
    payload, which the design document leaves to the device. *)
Context {C : Type}.
Variable progressCallback : C -> Z -> Z -> bool * C.
Variable checksum : list Z -> Z.

Definition frame_valid (f : Frame) : bool := checksum (fr_payload f) =? fr_checksum f.

(** ApplyBlock: the whole payload goes in at once. *)
Definition applyBlock (store : gmap (Z * Z) Block) (f : Frame) : gmap (Z * Z) Block :=
  <[frame_key f := fr_payload f]> store.

(** Modelled from the spec: [Dx10Device::readFromDevice] is not among the
    translated sources (only its call in [MainFrame::onInstSelect] is).
    The loop below follows section 4.4 of the design document: one unit
    is one arriving frame; its checksum is verified before the block is
    applied, a mismatch aborts with a data format error; after each unit
    the callback gets (context, unitsCompleted, unitsTotal) and [false]
    cancels; the transaction completes when all expected units are in.
    Running out of frames leaves it suspended in [AwaitingBlock]. *)
Fixpoint awaitBlocks (frames : list Frame) (expected received : Z)
    (store : gmap (Z * Z) Block) (ctx : C)
    : (Exception + ReadState) * gmap (Z * Z) Block * C :=
  match frames with
  | [] => (inr (AwaitingBlock expected received), store, ctx)
  | f :: rest =>
      if frame_valid f then
        let store' := applyBlock store f in
        let received' := received + 1 in
        let '(go_on, ctx') := progressCallback ctx received' expected in
        if go_on then
          if received' <? expected
          then awaitBlocks rest expected received' store' ctx'
          else (inr Complete, store', ctx')
        else (inr Cancelled, store', ctx')
      else (inl (DataFormatException "Checksum mismatch"), store, ctx)
  end.

Definition readFromDevice (unitsTotal : Z) (frames : list Frame)
    (store : gmap (Z * Z) Block) (ctx : C)
    : (Exception + ReadState) * gmap (Z * Z) Block * C :=
  awaitBlocks frames unitsTotal 0 store ctx.

(** The answers of [n] successive invocations of the callback, the first
    of them after unit [done + 1], and the context they leave. *)
Fixpoint invocations (n : nat) (unitsTotal done : Z) (ctx : C) : list bool * C :=
  match n with
  | O => ([], ctx)
  | S n' =>
      let '(b, ctx') := progressCallback ctx (done + 1) unitsTotal in
      let '(bs, ctx'') := invocations n' unitsTotal (done + 1) ctx' in
      (b :: bs, ctx'')
  end.

(** The block a sequence of frames leaves at a key: the last one sent there. *)
Definition received_block (frames : list Frame) (key : Z * Z) : option Block :=
  (λ r, fr_payload r.2) <$> list_find (λ f, frame_key f = key) (reverse frames).

End Transaction.

End ReadTransaction.

(** ** Vocabulary of the statements *)

(** The bytes a full read puts into the buffer. *)
Definition delivered (f : File) : list Z :=
  take (Z.to_nat (file_length f)) (file_bytes f).

(** The call went through with store data [d]: the store object sits
    behind the buffer, the tree shows it with one child per ICB, the
    collection has it under the cartridge name unless that name was
    taken, and the constructors were tried as [attempts] says. *)
Definition cartridge_loaded (w : World) (cartName : string) (f : File)
    (d : StoreData) (attempts : list Event) (r : outcome unit * World) : Prop :=
  let b := next w in
  let a := S b in
  let ist := mkInstStore (Some a) None None 0 0 in
  r.1 = Returns tt ∧
  stores r.2 = <[a := mkInstrumentStore d b]> (stores w) ∧
  buffers r.2 = <[b := delivered f]> (buffers w) ∧
  m_instrumentStores r.2 = map_insert_new cartName ist (m_instrumentStores w) ∧
  m_instTree r.2 =
    m_instTree w ++
    mkTreeItem m_cartridges cartName ist 0 ::
    map (λ i, mkTreeItem (Item (length (m_instTree w))) (instName i.1 i.2) ist i.1) (icbs d) ∧
  trace r.2 = trace w ++ EvNewBuffer b (file_length f) :: attempts.

(** The call threw [e] after the buffer had been allocated: collection,
    tree and store objects are as before, the buffer is gone again. *)
Definition cartridge_rejected (w : World) (f : File) (e : Exception)
    (attempts : list Event) (r : outcome unit * World) : Prop :=
  let b := next w in
  r.1 = Throws e ∧
  m_instrumentStores r.2 = m_instrumentStores w ∧
  m_instTree r.2 = m_instTree w ∧
  stores r.2 = stores w ∧
  buffers r.2 = delete b (buffers w) ∧
  trace r.2 = trace w ++ EvNewBuffer b (file_length f) :: attempts ++ [EvDeleteBuffer b].



(** The messages for the populated blocks among some addresses. *)
Definition block_messages (s : InstrumentStore) (kind : BlockKind) (type : Z)
    (addresses : list Z) : list SysExMessage :=
  omap (λ a, MsgBlock kind type a <$> get_block s kind a) addresses.

(** The whole trace of a write transaction for a store [s] at [a]. *)
Definition write_trace (a : addr) (s : InstrumentStore) (store : InstStore) : list Event :=
  let offset := icb_offset 0 (icbs (contents s)) in
  map (λ i, EvSysEx (m_midiOut store) (MsgIcb (m_type store) i.1 i.2)) (icbs (contents s)) ++
  flat_map (λ i, probe_events a s store KVcf (vcf_address offset i)) (seqZ 0 10) ++
  flat_map (λ i, probe_events a s store KAmpl (block_address offset i)) (seqZ 0 20) ++
  flat_map (λ i, probe_events a s store KFreq (block_address offset i)) (seqZ 0 20) ++
  flat_map (λ i, probe_events a s store KWave (block_address offset i)) (seqZ 0 20).

(** ** Sample data

    Stand-ins for the constructors and a small world, used to run the
    model on concrete inputs. *)

Module Sample.

Definition piano : Icb := mkIcb "PIANO" 65 65 65.
Definition organ : Icb := mkIcb "ORGAN" 66 66 66.

Definition bank : StoreData :=
  mkStoreData [(66, piano); (67, organ)]
    {[ 65 := [1; 2] ]} {[ 65 := [3]; 76 := [4] ]} {[ 66 := [5] ]} ∅.

(** Takes a buffer that starts with 1, fails outside the data format
    family on 2, and refuses everything else. *)
Definition Mk1Cartridge (bytes : list Z) : Exception + StoreData :=
  match bytes with
  | 1 :: _ => inr bank
  | 2 :: _ => inl (SystemException "Out of memory")
  | _ => inl (DataFormatException "Not a MK1 cartridge")
  end.

(** Takes a buffer that starts with 3. *)
Definition Dx10Cartridge (bytes : list Z) (size : Z) : Exception + StoreData :=
  match bytes with
  | 3 :: _ => inr bank
  | _ => inl (DataFormatException "Not a DX10 cartridge")
  end.

Definition Dx10Device (bytes : list Z) (size : Z) : Exception + StoreData :=
  inr (mkStoreData [] ∅ ∅ ∅ ∅).

Definition image (first : Z) (size : Z) : File :=
  mkFile size true (first :: replicate (Z.to_nat (size - 1)) 0).

Definition disk : gmap string File :=
  {[ "mk1.bin" := image 1 8192;
     "dx10.bin" := image 3 16384;
     "zero.bin" := image 0 8192;
     "broken.bin" := image 2 8192;
     "cut.bin" := mkFile 8192 true [1; 0; 0];
     "small.bin" := image 1 100 ]}.

Definition world0 : World :=
  mkWorld ∅ [] disk ∅ ∅ ∅ ∅ [] 0%nat [].

(** A world with a store object at address 1 behind a buffer at 0. *)
Definition stored (d : StoreData) : World :=
  mkWorld ∅ [] disk {[ 0%nat := [] ]} {[ 1%nat := mkInstrumentStore d 0%nat ]}
          ∅ ∅ [] 2%nat [].

Definition device : InstStore := mkInstStore (Some 1%nat) None (Some 7%nat) 1 2.

(** A checksum, three sound frames and a callback that gives up once
    [limit] units are done. *)
Definition checksum (payload : list Z) : Z := foldr Z.add 0 payload mod 128.

Definition frame (kind : ReadTransaction.FrameKind) (address : Z) (payload : list Z)
    : ReadTransaction.Frame :=
  ReadTransaction.mkFrame kind address payload (checksum payload).

Definition frames : list ReadTransaction.Frame :=
  [frame ReadTransaction.FIcb 66 [1; 2; 3];
   frame (ReadTransaction.FBlock KAmpl) 65 [4; 5];
   frame (ReadTransaction.FBlock KWave) 65 [6]].

Definition cancel_after (limit : Z) (calls : nat) (unitsCompleted unitsTotal : Z)
    : bool * nat :=
  (unitsCompleted <? limit, S calls).


(** A MIDI system whose constructors always go through. *)
Definition midi_ok (name : string) : bool := true.

Definition slots_1_2 : StoreData := mkStoreData [(1, piano); (2, organ)] ∅ ∅ ∅ ∅.
Definition slots_1_3 : StoreData := mkStoreData [(1, piano); (3, organ)] ∅ ∅ ∅ ∅.

End Sample.

(** ** More vocabulary *)

(** Whether a group passes every check of [createDevices]. *)
Definition device_valid (inPorts outPorts : list string) (g : DeviceGroup) : bool :=
  bool_decide (is_Some (find_port inPorts (cfg_InPort g))) &&
  bool_decide (is_Some (find_port outPorts (cfg_OutPort g))) &&
  channel_in_range g && type_in_range g.

(** The line the handler of [createDevices] shows. *)
Definition device_message (name reason : string) : string :=
  ("Device '" +:+ name +:+ "' could not be created, reason: " +:+ reason)%string.

(** Every address from [next] on is unused. *)
Definition heap_fresh (w : World) : Prop :=
  forall a : addr, (next w <= a)%nat ->
    buffers w !! a = None /\ stores w !! a = None /\ midis w !! a = None.

Section CartridgeOutcome.

Variable Mk1Cartridge : list Z -> Exception + StoreData.
Variable Dx10Cartridge : list Z -> Z -> Exception + StoreData.

(** How a call of [readCartridgeFile] ends, read off the file alone: the
    checks in the order the function makes them. *)
Definition cartridge_outcome (file : option File) : outcome unit :=
  match file with
  | None => Throws (SystemException "File does not exist")
  | Some f =>
      let size := file_length f in
      if negb (size =? 8192) && negb (size =? 16384)
      then Throws (DataFormatException "Invalid file size (must be 8 or 16 KB)")
      else if negb (file_stream_ok f)
      then Throws (SystemException "Unable to open file")
      else if negb (Z.of_nat (length (delivered f)) =? size)
      then Throws (DataFormatException "Could not read whole cartridge data")
      else
        match Mk1Cartridge (delivered f) with
        | inr _ => Returns tt
        | inl e1 =>
            if isDataFormat e1 then
              match Dx10Cartridge (delivered f) size with
              | inr _ => Returns tt
              | inl e2 =>
                  if isDataFormat e2
                  then Throws (DataFormatException "Unknown cartridge format")
                  else Throws e2
              end
            else Throws e1
        end
  end.

(** The store data the constructors build from the bytes of a file: that
    of the first constructor that returns, tried as the function tries
    them. *)
Definition cartridge_data (f : File) : option StoreData :=
  match Mk1Cartridge (delivered f) with
  | inr d => Some d
  | inl e1 =>
      if isDataFormat e1 then
        match Dx10Cartridge (delivered f) (file_length f) with
        | inr d => Some d
        | inl _ => None
        end
      else None
  end.

End CartridgeOutcome.

(** The collection has a cartridge under [name]: an entry without MIDI
    objects and of type 0, whose store object is live, at an address
    handed out before, and holds [d]. *)
Definition has_cartridge (w : World) (name : string) (d : StoreData) : Prop :=
  exists a b,
    m_instrumentStores w !! name = Some (mkInstStore (Some a) None None 0 0) /\
    stores w !! a = Some (mkInstrumentStore d b) /\
    (a < next w)%nat.

(** ** Iterating a map with string keys

    [std::map] is walked in key order; the entries of a configuration
    group are taken in the same order. *)

Definition key_le {V} (x y : string * V) : Prop := String.leb x.1 y.1 = true.

#[global] Instance key_le_dec {V} : RelDecision (@key_le V).
Proof. intros x y. unfold key_le. apply _. Defined.

Definition in_key_order {V} (m : gmap string V) : list (string * V) :=
  merge_sort key_le (map_to_list m).

(** ** Destroying the main frame *)

(** [delete] and member calls through a pointer: the object has to be
    there. *)
Definition delete_live_store {L} (a : addr) : M L unit :=
  let* w := world in
  match stores w !! a with
  | Some _ => delete_store a
  | None => undefined
  end.

Definition delete_live_array {L} (b : addr) : M L unit :=
  let* w := world in
  match buffers w !! b with
  | Some _ => delete_array b
  | None => undefined
  end.

Definition RtMidi_closePort {L} (m : addr) : M L unit :=
  let* w := world in
  match midis w !! m with
  | Some _ => modify (set_midis <[m := None]>)
  | None => undefined
  end.

Definition delete_live_midi {L} (m : addr) : M L unit :=
  let* w := world in
  match midis w !! m with
  | Some _ => delete_midi m
  | None => undefined
  end.

(** The body of the destructor's loop for one entry of the collection. *)
Definition destroy_entry {L} (i : string * InstStore) : M L unit :=
  match m_store i.2 with
  | Some st =>
      let* buffer := store_getBuffer st in
      delete_live_store st ;;
      delete_live_array buffer
  | None => ret tt
  end ;;
  if negb (m_type i.2 =? 0)
  then
    match m_midiIn i.2 with
    | Some m => RtMidi_closePort m ;; delete_live_midi m
    | None => ret tt
    end ;;
    match m_midiOut i.2 with
    | Some m => RtMidi_closePort m ;; delete_live_midi m
    | None => ret tt
    end
  else ret tt.

(** [MainFrame::~MainFrame] *)
Definition destroy_MainFrame {L} : M L unit :=
  let* w := world in
  for_each (in_key_order (m_instrumentStores w)) destroy_entry.

(** *** What the entries of the collection own *)

Definition entry_stores (ist : InstStore) : list addr := option_list (m_store ist).

Definition entry_midis (ist : InstStore) : list addr :=
  if m_type ist =? 0 then []
  else option_list (m_midiIn ist) ++ option_list (m_midiOut ist).

Definition entry_buffers (w : World) (ist : InstStore) : list addr :=
  match m_store ist with
  | Some a =>
      match stores w !! a with
      | Some s => [getBuffer s]
      | None => []
      end
  | None => []
  end.

(** [m'] is [m] without the keys [ks]. *)
Definition removed {V} (ks : list addr) (m m' : gmap addr V) : Prop :=
  forall a, m' !! a = if decide (a ∈ ks) then None else m !! a.

(** [m'] is [m] with the keys [ks], unused in [m], now in use. *)
Definition added {V} (ks : list addr) (m m' : gmap addr V) : Prop :=
  (forall a, a ∈ ks -> m !! a = None /\ is_Some (m' !! a)) /\
  (forall a, a ∉ ks -> m' !! a = m !! a).

(** Every store, buffer and MIDI object the entries refer to is live,
    and none is referred to twice. *)
Definition owned (w : World) (entries : list InstStore) : Prop :=
  NoDup (flat_map entry_stores entries) /\
  Forall (λ a, is_Some (stores w !! a)) (flat_map entry_stores entries) /\
  NoDup (flat_map (entry_buffers w) entries) /\
  Forall (λ b, is_Some (buffers w !! b)) (flat_map (entry_buffers w) entries) /\
  NoDup (flat_map entry_midis entries) /\
  Forall (λ m, is_Some (midis w !! m)) (flat_map entry_midis entries).

(** Nothing is live that the entries do not refer to. *)
Definition nothing_else (w : World) (entries : list InstStore) : Prop :=
  (forall a, is_Some (stores w !! a) -> a ∈ flat_map entry_stores entries) /\
  (forall b, is_Some (buffers w !! b) -> b ∈ flat_map (entry_buffers w) entries) /\
  (forall m, is_Some (midis w !! m) -> m ∈ flat_map entry_midis entries).

Definition entries_of (w : World) : list InstStore :=
  (map_to_list (m_instrumentStores w)).*2.

(** The heap holds what the collection owns and nothing else. *)
Definition tidy (w : World) : Prop :=
  heap_fresh w /\ owned w (entries_of w) /\ nothing_else w (entries_of w).

(** ** The configuration and the handlers that use it *)

(** What [m_config] holds: the entries of [/Cartridges] (name to path)
    and the groups of [/Devices]. *)
Record Members : Type := mkMembers {
  config_Cartridges : gmap string string;
  config_Devices : gmap string DeviceGroup
}.

Definition set_config_Cartridges (f : gmap string string -> gmap string string)
    (m : Members) : Members :=
  mkMembers (f (config_Cartridges m)) (config_Devices m).

Definition set_config_Devices (f : gmap string DeviceGroup -> gmap string DeviceGroup)
    (m : Members) : Members :=
  mkMembers (config_Cartridges m) (f (config_Devices m)).

(** The line [applyConfiguration] shows for a cartridge that fails. *)
Definition cartridge_message (path reason : string) : string :=
  ("Cartridge file '" +:+ path +:+ "' could not be read, reason: " +:+ reason)%string.

Section Configuration.

Variable Mk1Cartridge : list Z -> Exception + StoreData.
Variable Dx10Cartridge : list Z -> Z -> Exception + StoreData.
Variable Dx10Device : list Z -> Z -> Exception + StoreData.
Variable inPorts outPorts : list string.
Variable RtMidiIn_ok RtMidiOut_ok : string -> bool.

(** [wxFileName::GetFullName]: the name part of a path. *)
Variable GetFullName : string -> string.

(** [MainFrame::onFileOpen]; [dlg] is the path the file dialog gave, or
    [None] when it was cancelled. *)
Definition onFileOpen (dlg : option string) : M Members unit :=
  match dlg with
  | None => ret tt
  | Some path =>
      let fn := GetFullName path in
      try_catch
        (readCartridgeFile Mk1Cartridge Dx10Cartridge path fn ;;
         assign (set_config_Cartridges <[fn := path]>))
        isException
        (fun e => show_message (what e))
  end.

(** The loop of [applyConfiguration] over the entries of [/Cartridges]. *)
Definition load_cartridges {L} (entries : list (string * string)) : M L unit :=
  for_each entries (fun np =>
    let name := np.1 in
    let path := np.2 in
    try_catch (readCartridgeFile Mk1Cartridge Dx10Cartridge path name)
      isException
      (fun e => show_message (cartridge_message path (what e)))).

(** [MainFrame::applyConfiguration] *)
Definition applyConfiguration : M Members unit :=
  let* m := local in
  createDevices Dx10Device inPorts outPorts RtMidiIn_ok RtMidiOut_ok
    (in_key_order (config_Devices m)) ;;
  load_cartridges (in_key_order (config_Cartridges m)).

(** Whether the cartridge behind a path loads, and the exception if not. *)
Definition cartridge_loads (w : World) (path : string) : bool :=
  match cartridge_outcome Mk1Cartridge Dx10Cartridge (files w !! path) with
  | Returns _ => true
  | _ => false
  end.

Definition cartridge_failure (w : World) (path : string) : string :=
  match cartridge_outcome Mk1Cartridge Dx10Cartridge (files w !! path) with
  | Throws e => what e
  | _ => EmptyString
  end.

(** No constructor throws anything from outside the program's family on
    this file. *)
Definition cartridge_tame (w : World) (path : string) : Prop :=
  match cartridge_outcome Mk1Cartridge Dx10Cartridge (files w !! path) with
  | Throws e => isException e = true
  | _ => True
  end.

End Configuration.

(** ** Renaming a store *)

(** [wxTreeCtrl::GetItemData]: the two folders carry no data; an id that
    was never handed out is a wild pointer. *)
Definition GetItemData {L} (id : TreeId) : M L (option (InstStore * Z)) :=
  let* w := world in
  match id with
  | Item n =>
      match m_instTree w !! n with
      | Some item => ret (Some (ti_store item, ti_icb item))
      | None => undefined
      end
  | _ => ret None
  end.

(** [wxConfigBase::RenameEntry]: fails when the old name is missing or
    the new one exists. *)
Definition RenameEntry (oldName newName : string) (group : gmap string string)
    : bool * gmap string string :=
  match group !! oldName, group !! newName with
  | Some value, None => (true, <[newName := value]> (delete oldName group))
  | _, _ => (false, group)
  end.

(** What the handler reads from a tree event. *)
Record TreeEvent : Type := mkTreeEvent {
  GetItem : TreeId;
  GetLabel : string;
  IsEditCancelled : bool
}.

(** The scan of [onInstRename] over the collection, with its [break]:
    the name last seen with this store pointer, and whether the new
    label was met. *)
Fixpoint rename_scan (entries : list (string * InstStore)) (store : ptr)
    (newLabel oldLabel : string) : string * bool :=
  match entries with
  | [] => (oldLabel, false)
  | i :: rest =>
      let oldLabel := if decide (m_store i.2 = store) then i.1 else oldLabel in
      if decide (i.1 = newLabel) then (oldLabel, true)
      else rename_scan rest store newLabel oldLabel
  end.

Definition rename_refused : string :=
  "Device or cartridge with this name already exists".

(** [MainFrame::onInstRename]; the result says whether the event was
    vetoed. *)
Definition onInstRename (event : TreeEvent) : M Members bool :=
  if IsEditCancelled event then ret false
  else
    let id := GetItem event in
    let* ren := GetItemData id in
    match ren with
    | None => ret false
    | Some (store, icbNum) =>
        if negb (ptr_is_null (m_store store)) && (icbNum =? 0) then
          let newLabel := GetLabel event in
          let* w := world in
          let scan := rename_scan (in_key_order (m_instrumentStores w))
                        (m_store store) newLabel EmptyString in
          let oldLabel := scan.1 in
          let* veto :=
            (if scan.2 then ret true
             else
               let* m := local in
               let renamed := RenameEntry oldLabel newLabel (config_Cartridges m) in
               assign (set_config_Cartridges (fun _ => renamed.2)) ;;
               ret (negb renamed.1)) in
          if veto then
            show_message rename_refused ;;
            ret true
          else
            modify (set_instrumentStores
                      (fun stores => map_insert_new newLabel store (delete oldLabel stores))) ;;
            ret false
        else ret false
    end.

(** ** Adding a device *)

(** What [AddDeviceDialog] returns when it is closed with OK. *)
Record DeviceDialog : Type := mkDeviceDialog {
  getName_dlg : string;
  getInPort : nat;
  getOutPort : nat;
  getChannel : Z;
  getType : Z
}.

(** [catch (ConfigurationException& e)] *)
Definition isConfiguration (e : Exception) : bool :=
  match e with ConfigurationException _ => true | _ => false end.

(** [RtMidi::getPortName]: empty for a port that is not there. *)
Definition getPortName (ports : list string) (idx : nat) : string :=
  default EmptyString (ports !! idx).

Definition no_midi : string :=
  "The MIDI subsystem reported an error, so MIDI is not available".

Definition no_ports : string :=
  "There are no MIDI ports available to add a new device".

Definition name_taken : string :=
  "Device or cartridge with this name already exists".

(** [m_config.SetPath(name)] reads the name as a path: "/" separates
    groups and ".." is the parent group.  A name of one component,
    neither empty nor "." nor "..", leads from [/Devices] into the group
    of that name. *)
Fixpoint has_separator (s : string) : bool :=
  match s with
  | EmptyString => false
  | String c rest => bool_decide (c = "/"%char) || has_separator rest
  end.

Definition group_name (name : string) : bool :=
  negb (bool_decide (name = EmptyString)) &&
  negb (bool_decide (name = "."%string)) &&
  negb (bool_decide (name = ".."%string)) &&
  negb (has_separator name).

(** The locals of [addDevice]: the two MIDI objects before they are
    handed over, and [InstStore is]. *)
Record ad_locals : Type := mkAdLocals {
  midiIn : ptr;
  midiOut : ptr;
  ad_is : InstStore
}.

Definition set_midiIn (p : ptr) (l : ad_locals) : ad_locals :=
  mkAdLocals p (midiOut l) (ad_is l).
Definition set_midiOut (p : ptr) (l : ad_locals) : ad_locals :=
  mkAdLocals (midiIn l) p (ad_is l).
Definition set_ad_is (f : InstStore -> InstStore) (l : ad_locals) : ad_locals :=
  mkAdLocals (midiIn l) (midiOut l) (f (ad_is l)).

(** A member function with locals of its own on top of the members. *)
Definition call_member {A Loc} (init : Loc) (f : M (Members * Loc) A) : M Members A :=
  fun m w => let '(r, ml, w') := f (m, init) w in (r, ml.1, w').

Definition locals {Loc} : M (Members * Loc) Loc :=
  fun l w => (Returns l.2, l, w).
Definition assign_local {Loc} (f : Loc -> Loc) : M (Members * Loc) unit :=
  fun l w => (Returns tt, (l.1, f l.2), w).
Definition assign_member {Loc} (f : Members -> Members) : M (Members * Loc) unit :=
  fun l w => (Returns tt, (f l.1, l.2), w).

Section AddDevice.

Variable Dx10Device : list Z -> Z -> Exception + StoreData.
Variable inPorts outPorts : list string.

(** Whether the constructors of [RtMidiIn] and [RtMidiOut] go through. *)
Variable RtMidiIn_ok RtMidiOut_ok : bool.

(** What writing the four entries leaves of the configuration when the
    name is not the name of a group: where the path leads then is up to
    [wxConfig], which is not part of the program. *)
Variable config_Write_elsewhere : string -> DeviceGroup -> Members -> Members.

(** [SetPath("/Devices")], [SetPath(name)] and the four calls of
    [Write]. *)
Definition config_Write_device (name : string) (g : DeviceGroup) (m : Members) : Members :=
  if group_name name
  then set_config_Devices <[name := g]> m
  else config_Write_elsewhere name g m.

(** [delete p; p = nullptr] for a pointer that is not null. *)
Definition delete_and_clear_midiIn : M (Members * ad_locals) unit :=
  let* l := locals in
  match midiIn l with
  | Some a => delete_midi a ;; assign_local (set_midiIn None)
  | None => ret tt
  end.

Definition delete_and_clear_midiOut : M (Members * ad_locals) unit :=
  let* l := locals in
  match midiOut l with
  | Some a => delete_midi a ;; assign_local (set_midiOut None)
  | None => ret tt
  end.

(** The first [try] block with its handler. *)
Definition addDevice_init : M (Members * ad_locals) unit :=
  try_catch
    ((if RtMidiIn_ok
      then let* a := new_RtMidi in assign_local (set_midiIn (Some a))
      else throw RtMidiError) ;;
     (if RtMidiOut_ok
      then let* a := new_RtMidi in assign_local (set_midiOut (Some a))
      else throw RtMidiError))
    isRtMidiError
    (fun _ => delete_and_clear_midiIn ;; delete_and_clear_midiOut).

(** The [try] block after the dialog was closed with OK. *)
Definition addDevice_try (dlg : DeviceDialog) : M (Members * ad_locals) unit :=
  let name := getName_dlg dlg in
  let* w := world in
  (if bool_decide (is_Some (m_instrumentStores w !! name))
   then throw (ConfigurationException name_taken)
   else ret tt) ;;
  (* This moves pointer ownership to InstStore object *)
  let* l := locals in
  assign_local (set_ad_is (set_m_midiIn (midiIn l))) ;;
  assign_local (set_midiIn None) ;;
  let inPort := getInPort dlg in
  let* l := locals in
  RtMidi_openPort (m_midiIn (ad_is l)) inPort ;;
  assign_local (set_ad_is (set_m_midiOut (midiOut l))) ;;
  assign_local (set_midiOut None) ;;
  let outPort := getOutPort dlg in
  let* l := locals in
  RtMidi_openPort (m_midiOut (ad_is l)) outPort ;;
  assign_local (set_ad_is (set_m_channel (Cxx.uint8 (getChannel dlg)))) ;;
  assign_local (set_ad_is (set_m_type (Cxx.uint8 (getType dlg)))) ;;
  (* Create instrument store *)
  let* buffer := new_array 6180 in
  let* st := new_Dx10Device Dx10Device buffer 6180 in
  assign_local (set_ad_is (set_m_store (Some st))) ;;
  let* l := locals in
  let ist := ad_is l in
  let* id := AppendItem m_devices name ist 0 in
  append_instruments id ist ;;
  modify (set_instrumentStores (map_insert_new name ist)) ;;
  assign_member (config_Write_device name
    (mkDeviceGroup (getPortName inPorts inPort) (getPortName outPorts outPort)
       (Some (m_channel ist)) (Some (m_type ist)))).

(** The handler of that block. *)
Definition addDevice_catch (e : Exception) : M (Members * ad_locals) unit :=
  let* l := locals in
  let ist := ad_is l in
  match m_store ist with
  | Some s =>
      let* buffer := store_getBuffer s in
      delete_store s ;;
      assign_local (set_ad_is (set_m_store None)) ;;
      delete_array buffer
  | None => ret tt
  end ;;
  match m_midiIn ist with
  | Some a => delete_midi a
  | None => ret tt
  end ;;
  match m_midiOut ist with
  | Some a => delete_midi a
  | None => ret tt
  end ;;
  show_message ("Could not add device: " +:+ what e).

(** [MainFrame::addDevice]; [dlg] is what the dialog returned, [None]
    when it was cancelled. *)
Definition addDevice (dlg : option DeviceDialog) : M Members unit :=
  call_member (mkAdLocals None None (mkInstStore None None None 0 0)) (
    addDevice_init ;;
    let* l := locals in
    if negb (ptr_is_null (midiIn l)) && negb (ptr_is_null (midiOut l)) then
      if (length outPorts =? 0)%nat || (length inPorts =? 0)%nat then
        show_message no_ports ;;
        delete_and_clear_midiOut ;;
        delete_and_clear_midiIn
      else
        match dlg with
        | Some d => try_catch (addDevice_try d) isConfiguration addDevice_catch
        | None => ret tt
        end ;;
        (* If pointer ownership was not moved, delete original objects *)
        delete_and_clear_midiOut ;;
        delete_and_clear_midiIn
    else
      show_message no_midi).

(** Why a call adds nothing, with the messages it then shows; [None]
    when it goes on to build the device. *)
Definition addDevice_refusal (w : World) (dlg : option DeviceDialog) : option (list string) :=
  if negb (RtMidiIn_ok && RtMidiOut_ok) then Some [no_midi]
  else if (length outPorts =? 0)%nat || (length inPorts =? 0)%nat then Some [no_ports]
  else
    match dlg with
    | None => Some []
    | Some d =>
        if bool_decide (is_Some (m_instrumentStores w !! getName_dlg d))
        then Some [("Could not add device: " +:+ name_taken)%string]
        else None
    end.

End AddDevice.

(** ** A sample session *)

Module Studio.

(** The sample paths have no directory part. *)
Definition GetFullName (path : string) : string := path.

(** A device constructor that takes no buffer. *)
Definition Dx10Device_refuses (bytes : list Z) (size : Z) : Exception + StoreData :=
  inl (ConfigurationException "No device data").

Definition inPorts : list string := ["USB in"; "DIN in"]%string.
Definition outPorts : list string := ["USB out"; "DIN out"]%string.

Definition dx10 : DeviceGroup := mkDeviceGroup "DIN in" "USB out" (Some 3) (Some 2).
Definition unplugged : DeviceGroup := mkDeviceGroup "Other in" "USB out" (Some 3) (Some 2).
Definition channel_17 : DeviceGroup := mkDeviceGroup "DIN in" "USB out" (Some 17) (Some 2).

(** The session after the first sample cartridge was loaded. *)
Definition shelf : World :=
  (readCartridgeFile Sample.Mk1Cartridge Sample.Dx10Cartridge "mk1.bin" "mk1.bin" tt
     Sample.world0).2.

(** The same with a device set up next to the cartridge. *)
Definition rig : World :=
  (createDevices_one Sample.Dx10Device inPorts outPorts Sample.midi_ok Sample.midi_ok
     "DX10" dx10 tt shelf).2.


(** A configuration that drops what is written off the groups. *)
Definition write_dropped (name : string) (g : DeviceGroup) (m : Members) : Members := m.

Definition config : Members :=
  mkMembers {[ "mk1.bin"%string := "mk1.bin"%string; "zero"%string := "zero.bin"%string ]}
            {[ "DX10"%string := dx10; "Spare"%string := channel_17 ]}.

(** The dialog closed with the second input port, the first output
    port, channel 3 and type 2. *)
Definition dialog (name : string) : DeviceDialog := mkDeviceDialog name 1 0 3 2.

End Studio.

(** * Properties *)

(** Unfolds the monad and the heap primitives, then computes. *)
Ltac run :=
  unfold new_array, new_store, delete_array, delete_store, buffer_bytes,
    store_icbs, store_get, store_getBuffer, AppendItem, show_message,
    new_RtMidi, RtMidi_openPort, delete_midi, SysEx_sendIcb, SysEx_sendBlock,
    try_catch, call, bind, world, local, assign, modify, throw, ret, undefined;
  cbn.

Lemma set_instTree_nil w : set_instTree (λ t, t ++ []) w = w.
Proof. destruct w. unfold set_instTree. cbn. rewrite app_nil_r. reflexivity. Qed.

Lemma set_instTree_app xs ys w :
  set_instTree (λ t, t ++ ys) (set_instTree (λ t, t ++ xs) w) =
  set_instTree (λ t, t ++ xs ++ ys) w.
Proof. destruct w. unfold set_instTree. cbn. rewrite <- app_assoc. reflexivity. Qed.

(** The loop over the ICBs appends one item per ICB and changes nothing else. *)
Lemma for_each_AppendItem {L} id ist (xs : list (Z * Icb)) (l : L) w :
  for_each xs (λ i, let* _ := AppendItem id (instName i.1 i.2) ist i.1 in ret tt) l w =
  (Returns tt, l,
   set_instTree (λ t, t ++ map (λ i, mkTreeItem id (instName i.1 i.2) ist i.1) xs) w).
Proof.
  revert w. induction xs as [|x xs IH]; intros w.
  - cbn. rewrite set_instTree_nil. reflexivity.
  - cbn [for_each]. unfold bind at 1. unfold bind at 1. unfold AppendItem at 1.
    unfold bind at 1. unfold world at 1. unfold bind at 1. unfold modify at 1.
    unfold ret at 1. unfold ret at 1.
    rewrite IH. rewrite set_instTree_app. reflexivity.
Qed.

Lemma append_instruments_run {L} id ist a s (l : L) w :
  m_store ist = Some a -> stores w !! a = Some s ->
  append_instruments id ist l w =
  (Returns tt, l,
   set_instTree (λ t, t ++ map (λ i, mkTreeItem id (instName i.1 i.2) ist i.1)
                                (icbs (contents s))) w).
Proof.
  intros Hp Hs. unfold append_instruments, store_icbs, bind at 1, bind at 1, world at 1.
  rewrite Hp, Hs. unfold ret at 1. apply for_each_AppendItem.
Qed.

Lemma full_read_buffer (got : list Z) (size : Z) :
  Z.of_nat (length got) = size ->
  got ++ drop (length got) (replicate (Z.to_nat size) 0) = got.
Proof.
  intros H. rewrite drop_ge; [apply app_nil_r|].
  rewrite length_replicate. lia.
Qed.

(** ** Reading a cartridge file *)

Ltac run_rcf :=
  unfold readCartridgeFile, readCartridgeFile_try, readCartridgeFile_catch,
    new_Mk1Cartridge, new_Dx10Cartridge, stream_Read;
  run.

Section ReadCartridgeFacts.

Variable Mk1Cartridge : list Z -> Exception + StoreData.
Variable Dx10Cartridge : list Z -> Z -> Exception + StoreData.

Abbreviation readCartridgeFile := (readCartridgeFile Mk1Cartridge Dx10Cartridge).

Lemma size_check_passes (size : Z) :
  size = 8192 \/ size = 16384 ->
  negb (size =? 8192) && negb (size =? 16384) = false.
Proof. intros [-> | ->]; reflexivity. Qed.

Lemma readCartridgeFile_size_rejected_run {L} (l : L) (w : World)
    (filePath cartName : string) (f : File) :
  files w !! filePath = Some f ->
  file_length f <> 8192 ->
  file_length f <> 16384 ->
  readCartridgeFile filePath cartName l w =
  (Throws (DataFormatException "Invalid file size (must be 8 or 16 KB)"), l, w).
Proof.
  intros Hf H8 H16. run_rcf. rewrite Hf.
  destruct (Z.eqb_spec (file_length f) 8192) as [|_]; [contradiction|].
  destruct (Z.eqb_spec (file_length f) 16384) as [|_]; [contradiction|].
  reflexivity.
Qed.

(** C2: a file whose length is neither 8192 nor 16384 is refused with a
    data format error, and the world is left exactly as it was: no buffer
    is allocated, no constructor is tried, no store comes to be. *)
Theorem readCartridgeFile_size_rejected {L} (l : L) (w : World)
    (filePath cartName : string) (f : File) :
  files w !! filePath = Some f ->
  file_length f <> 8192 ->
  file_length f <> 16384 ->
  readCartridgeFile filePath cartName l w =
  (Throws (DataFormatException "Invalid file size (must be 8 or 16 KB)"), l, w).
Proof. apply readCartridgeFile_size_rejected_run. Qed.

(** What a call does once the file has a valid size and is read in full. *)
Lemma readCartridgeFile_full_read {L} (l : L) (w : World)
    (filePath cartName : string) (f : File) :
  files w !! filePath = Some f ->
  file_length f = 8192 \/ file_length f = 16384 ->
  file_stream_ok f = true ->
  Z.of_nat (length (delivered f)) = file_length f ->
  let r := readCartridgeFile filePath cartName l w in
  let b := next w in
  r.1.2 = l /\
  match Mk1Cartridge (delivered f) with
  | inr d => cartridge_loaded w cartName f d [EvMk1Cartridge b] (r.1.1, r.2)
  | inl e1 =>
      if isDataFormat e1 then
        match Dx10Cartridge (delivered f) (file_length f) with
        | inr d =>
            cartridge_loaded w cartName f d
              [EvMk1Cartridge b; EvDx10Cartridge b (file_length f)] (r.1.1, r.2)
        | inl e2 =>
            cartridge_rejected w f
              (if isDataFormat e2
               then DataFormatException "Unknown cartridge format"
               else e2)
              [EvMk1Cartridge b; EvDx10Cartridge b (file_length f)] (r.1.1, r.2)
        end
      else cartridge_rejected w f e1 [EvMk1Cartridge b] (r.1.1, r.2)
  end.
Proof.
  intros Hf Hsize Hok Hfull. unfold delivered in *.
  run_rcf. rewrite Hf, (size_check_passes _ Hsize), Hok. cbn.
  rewrite lookup_insert_eq. cbn. rewrite Hfull, Z.eqb_refl. cbn.
  rewrite lookup_insert_eq. cbn.
  rewrite (full_read_buffer _ _ Hfull).
  destruct (Mk1Cartridge _) as [e1|d1]; cbn.
  - destruct (isDataFormat e1); cbn.
    + rewrite lookup_insert_eq. cbn.
      destruct (Dx10Cartridge _ _) as [e2|d2]; cbn.
      * destruct (isDataFormat e2); cbn.
        all: split; [reflexivity|].
        all: unfold cartridge_rejected; cbn.
        all: rewrite insert_insert_eq, delete_insert_eq.
        all: rewrite <- !app_assoc; cbn.
        all: repeat split; reflexivity.
      * erewrite (append_instruments_run _ _ (S (next w)));
          [ | reflexivity | cbn; apply lookup_insert_eq ].
        cbn. split; [reflexivity|]. unfold cartridge_loaded; cbn.
        rewrite insert_insert_eq, <- !app_assoc. cbn.
        repeat split; reflexivity.
    + split; [reflexivity|]. unfold cartridge_rejected; cbn.
      rewrite insert_insert_eq, delete_insert_eq, <- !app_assoc. cbn.
      repeat split; reflexivity.
  - erewrite (append_instruments_run _ _ (S (next w)));
      [ | reflexivity | cbn; apply lookup_insert_eq ].
    cbn. split; [reflexivity|]. unfold cartridge_loaded; cbn.
    rewrite insert_insert_eq, <- !app_assoc. cbn.
    repeat split; reflexivity.
Qed.

(** C1: with a file of valid size that is read in full, the Mk1 layout is
    tried first and the Dx10 layout only after a data format error of the
    first; the first constructor that returns gives the store; any other
    exception of a constructor ends the call with that exception; two
    data format errors end it with "Unknown cartridge format" and no
    store. *)
Theorem readCartridgeFile_sniffs {L} (l : L) (w : World)
    (filePath cartName : string) (f : File) :
  files w !! filePath = Some f ->
  file_length f = 8192 \/ file_length f = 16384 ->
  file_stream_ok f = true ->
  Z.of_nat (length (delivered f)) = file_length f ->
  let r := readCartridgeFile filePath cartName l w in
  let b := next w in
  r.1.2 = l /\
  match Mk1Cartridge (delivered f) with
  | inr d => cartridge_loaded w cartName f d [EvMk1Cartridge b] (r.1.1, r.2)
  | inl e1 =>
      if isDataFormat e1 then
        match Dx10Cartridge (delivered f) (file_length f) with
        | inr d =>
            cartridge_loaded w cartName f d
              [EvMk1Cartridge b; EvDx10Cartridge b (file_length f)] (r.1.1, r.2)
        | inl e2 =>
            cartridge_rejected w f
              (if isDataFormat e2
               then DataFormatException "Unknown cartridge format"
               else e2)
              [EvMk1Cartridge b; EvDx10Cartridge b (file_length f)] (r.1.1, r.2)
        end
      else cartridge_rejected w f e1 [EvMk1Cartridge b] (r.1.1, r.2)
  end.
Proof. apply readCartridgeFile_full_read. Qed.

(** A read that delivers fewer bytes than the file is long. *)
Lemma readCartridgeFile_short_read {L} (l : L) (w : World)
    (filePath cartName : string) (f : File) :
  files w !! filePath = Some f ->
  file_length f = 8192 \/ file_length f = 16384 ->
  file_stream_ok f = true ->
  Z.of_nat (length (delivered f)) <> file_length f ->
  let r := readCartridgeFile filePath cartName l w in
  r.1.2 = l /\
  cartridge_rejected w f (DataFormatException "Could not read whole cartridge data")
    [] (r.1.1, r.2).
Proof.
  intros Hf Hsize Hok Hshort. unfold delivered in *.
  run_rcf. rewrite Hf, (size_check_passes _ Hsize), Hok. cbn.
  rewrite lookup_insert_eq. cbn.
  destruct (Z.eqb_spec (Z.of_nat (length (take (Z.to_nat (file_length f)) (file_bytes f))))
              (file_length f)) as [|_]; [contradiction|].
  cbn. split; [reflexivity|]. unfold cartridge_rejected; cbn.
  rewrite insert_insert_eq, delete_insert_eq, <- !app_assoc. cbn.
  repeat split; reflexivity.
Qed.

(** The handler destroys whatever the two locals hold, store first, and
    throws the exception on. *)
Lemma readCartridgeFile_catch_destroys (e : Exception) (s b : addr) (w : World) :
  readCartridgeFile_catch e (mkRcfLocals (Some s) (Some b)) w =
  (Throws e, mkRcfLocals (Some s) (Some b),
   log (EvDeleteBuffer b) (set_buffers (delete b)
     (log (EvDeleteStore s) (set_stores (delete s) w)))).
Proof. reflexivity. Qed.

End ReadCartridgeFacts.

(** The sample DX10 image is refused by the first constructor and taken
    by the second. *)
Lemma readCartridgeFile_sniffs_witness :
  let f := Sample.image 3 16384 in
  let r := readCartridgeFile Sample.Mk1Cartridge Sample.Dx10Cartridge
             "dx10.bin" "B" tt Sample.world0 in
  (files Sample.world0 !! "dx10.bin" = Some f /\
   (file_length f = 8192 \/ file_length f = 16384) /\
   file_stream_ok f = true /\
   Z.of_nat (length (delivered f)) = file_length f) /\
  cartridge_loaded Sample.world0 "B" f Sample.bank
    [EvMk1Cartridge 0%nat; EvDx10Cartridge 0%nat 16384] (r.1.1, r.2).
Proof.
  assert (H1 : files Sample.world0 !! "dx10.bin" = Some (Sample.image 3 16384))
    by (vm_compute; reflexivity).
  assert (H2 : file_length (Sample.image 3 16384) = 8192 \/
               file_length (Sample.image 3 16384) = 16384)
    by (right; reflexivity).
  assert (H3 : file_stream_ok (Sample.image 3 16384) = true) by reflexivity.
  assert (H4 : Z.of_nat (length (delivered (Sample.image 3 16384))) =
               file_length (Sample.image 3 16384))
    by (vm_compute; reflexivity).
  split; [auto|].
  exact (proj2 (readCartridgeFile_sniffs Sample.Mk1Cartridge Sample.Dx10Cartridge
                  tt Sample.world0 "dx10.bin" "B" _ H1 H2 H3 H4)).
Defined.

Lemma readCartridgeFile_size_rejected_witness :
  let f := Sample.image 1 100 in
  (files Sample.world0 !! "small.bin" = Some f /\
   file_length f <> 8192 /\ file_length f <> 16384) /\
  readCartridgeFile Sample.Mk1Cartridge Sample.Dx10Cartridge
    "small.bin" "S" tt Sample.world0 =
  (Throws (DataFormatException "Invalid file size (must be 8 or 16 KB)"), tt,
   Sample.world0).
Proof.
  assert (H1 : files Sample.world0 !! "small.bin" = Some (Sample.image 1 100))
    by (vm_compute; reflexivity).
  assert (H2 : file_length (Sample.image 1 100) <> 8192) by (cbn; lia).
  assert (H3 : file_length (Sample.image 1 100) <> 16384) by (cbn; lia).
  split; [auto|].
  exact (readCartridgeFile_size_rejected Sample.Mk1Cartridge Sample.Dx10Cartridge
           tt Sample.world0 "small.bin" "S" _ H1 H2 H3).
Defined.

(** *** Failures while the tree is filled *)

(** Two computations that agree step by step agree. *)
Lemma bind_ext {L A B} (m : M L A) (k1 k2 : A -> M L B) (l : L) (w : World) :
  (forall a l' w', k1 a l' w' = k2 a l' w') -> bind m k1 l w = bind m k2 l w.
Proof.
  intros H. unfold bind. destruct (m l w) as [[[a| |] l'] w']; [apply H|reflexivity..].
Qed.

Lemma bind_congr {L A B} (m1 m2 : M L A) (k1 k2 : A -> M L B) (l : L) (w : World) :
  m1 l w = m2 l w ->
  (forall a l' w', k1 a l' w' = k2 a l' w') -> bind m1 k1 l w = bind m2 k2 l w.
Proof. intros Hm H. unfold bind at 1 2. rewrite Hm. apply (bind_ext m2 k1 k2 l w H). Qed.

Lemma bind_assoc {L A B C} (m : M L A) (f : A -> M L B) (g : B -> M L C)
    (l : L) (w : World) :
  bind (bind m f) g l w = bind m (fun x => bind (f x) g) l w.
Proof.
  unfold bind. destruct (m l w) as [[[a|e|] l'] w']; reflexivity.
Qed.

Lemma call_ext {L L' A} (init : L') (f1 f2 : M L' A) (l : L) (w : World) :
  (forall l' w', f1 l' w' = f2 l' w') -> call init f1 l w = call init f2 l w.
Proof. intros H. unfold call. rewrite H. reflexivity. Qed.

Lemma try_catch_ext {L A} (b1 b2 : M L A) (filter : Exception -> bool)
    (handler : Exception -> M L A) (l : L) (w : World) :
  (forall l' w', b1 l' w' = b2 l' w') ->
  try_catch b1 filter handler l w = try_catch b2 filter handler l w.
Proof. intros H. unfold try_catch. rewrite H. reflexivity. Qed.


Section RegisterFacts.

Variable alloc_fails : nat -> option Exception.



(** With no failing step the end of the [try] block is that of
    [readCartridgeFile]. *)
Lemma append_loop_none {L} (id : TreeId) (ist : InstStore) (xs : list (Z * Icb)) :
  (forall k, alloc_fails k = None) ->
  forall (k : nat) (l : L) (w : World),
  for_each (zip (seq k (length xs)) xs) (fun ki =>
    allocating alloc_fails ki.1
      (let* _ := AppendItem id (instName ki.2.1 ki.2.2) ist ki.2.1 in ret tt)) l w =
  for_each xs (fun i =>
    let* _ := AppendItem id (instName i.1 i.2) ist i.1 in ret tt) l w.
Proof.
  intros Hnone. induction xs as [|x xs IH]; intros k l w; [reflexivity|].
  cbn [length seq zip zip_with for_each]. unfold allocating at 1. cbn [fst snd].
  rewrite Hnone. apply bind_ext. intros _ l1 w1. apply IH.
Qed.

Lemma register_with_none {L} (cartName : string) (ist : InstStore) (l : L) (w : World) :
  (forall k, alloc_fails k = None) ->
  readCartridgeFile_register_with alloc_fails cartName ist l w =
  (let* id := AppendItem m_cartridges cartName ist 0 in
   append_instruments id ist ;;
   modify (set_instrumentStores (map_insert_new cartName ist))) l w.
Proof.
  intros Hnone. unfold readCartridgeFile_register_with, allocating. rewrite Hnone.
  apply bind_ext. intros id l1 w1.
  unfold append_instruments_with, append_instruments.
  rewrite !bind_assoc. apply bind_ext. intros xs l2 w2.
  rewrite bind_assoc. apply bind_congr; [apply (append_loop_none id ist xs Hnone)|].
  intros [] l3 w3. unfold bind, ret. rewrite Hnone. reflexivity.
Qed.

End RegisterFacts.



Ltac unfold_readCartridgeFile_with := unfold readCartridgeFile_with, readCartridgeFile.

Section FailureFacts.

Variable Mk1Cartridge : list Z -> Exception + StoreData.
Variable Dx10Cartridge : list Z -> Z -> Exception + StoreData.
Variable alloc_fails : nat -> option Exception.

Abbreviation readCartridgeFile_with :=
  (readCartridgeFile_with Mk1Cartridge Dx10Cartridge alloc_fails).


(** With no failing step the function is [readCartridgeFile]. *)
Lemma readCartridgeFile_with_none {L} (l : L) (w : World) (filePath cartName : string) :
  (forall k, alloc_fails k = None) ->
  readCartridgeFile_with filePath cartName l w =
  readCartridgeFile Mk1Cartridge Dx10Cartridge filePath cartName l w.
Proof.
  intros Hnone.
  unfold_readCartridgeFile_with. apply call_ext. intros l0 w0.
  apply bind_ext. intros w1 l1 w2.
  destruct (files w1 !! filePath) as [f|]; [|reflexivity].
  cbv zeta.
  destruct (negb (file_length f =? 8192) && negb (file_length f =? 16384)); [reflexivity|].
  destruct (file_stream_ok f); [|reflexivity].
  apply bind_ext. intros buffer l3 w3. apply call_ext. intros l4 w4.
  apply try_catch_ext. intros l5 w5.
  unfold readCartridgeFile_try_with, readCartridgeFile_try.
  repeat (apply bind_ext; intros ? ? ?).
  apply register_with_none. exact Hnone.
Qed.


End FailureFacts.


(** C10: called with a null context pointer, the progress callback
    returns [false] whatever the two counters are; it touches no dialog
    (the world, its trace included, is unchanged) and is defined even
    when there is no dialog at all. *)
Theorem updateProgress_null {L} (l : L) (w : World) (current max : Z) :
  updateProgress None current max l w = (Returns false, l, w).
Proof. reflexivity. Qed.

(** With a dialog behind the pointer the answer is the dialog's. *)
Lemma updateProgress_dialog {L} (l : L) (w : World) (p : addr) (d : wxProgressDialog)
    (current max : Z) :
  dialogs w !! p = Some d ->
  updateProgress (Some p) current max l w =
  (Returns (negb (pd_aborted d)), l,
   log (EvDialogUpdate p current)
     (set_dialogs <[p := mkProgressDialog current (pd_aborted d)]> w)).
Proof. intros H. unfold updateProgress, wxProgressDialog_Update. run. rewrite H. reflexivity. Qed.

(** ** Facts about [uint8_t] *)

Lemma uint8_range z : 0 <= Cxx.uint8 z < 256.
Proof. unfold Cxx.uint8. apply Z.mod_pos_bound. lia. Qed.

Lemma uint8_small z : 0 <= z < 256 -> Cxx.uint8 z = z.
Proof. intros H. unfold Cxx.uint8. apply Z.mod_small. exact H. Qed.

Lemma uint8_succ z : Cxx.uint8 (Cxx.uint8 z + 1) = Cxx.uint8 (z + 1).
Proof. unfold Cxx.uint8. rewrite Zplus_mod_idemp_l. reflexivity. Qed.

Lemma uint8_inj_near x y :
  Cxx.uint8 x = Cxx.uint8 y -> -256 < x - y < 256 -> x = y.
Proof.
  unfold Cxx.uint8. intros H Hd.
  pose proof (Z.div_mod x 256 ltac:(lia)) as Hx.
  pose proof (Z.div_mod y 256 ltac:(lia)) as Hy.
  rewrite H in Hx. lia.
Qed.

(** ** Traces *)

Lemma add_trace_nil w : add_trace [] w = w.
Proof. destruct w. unfold add_trace. cbn. rewrite app_nil_r. reflexivity. Qed.

Lemma add_trace_app xs ys w :
  add_trace ys (add_trace xs w) = add_trace (xs ++ ys) w.
Proof. destruct w. unfold add_trace. cbn. rewrite <- app_assoc. reflexivity. Qed.

Lemma log_add_trace e w : log e w = add_trace [e] w.
Proof. reflexivity. Qed.

Lemma sent_app xs ys : sent (xs ++ ys) = sent xs ++ sent ys.
Proof. apply omap_app. Qed.

Lemma probed_app kind xs ys : probed kind (xs ++ ys) = probed kind xs ++ probed kind ys.
Proof. apply omap_app. Qed.

(** ** The write transaction *)

Section WriteDeviceFacts.

Variable store : InstStore.
Variable a : addr.
Variable s : InstrumentStore.
Hypothesis store_at : m_store store = Some a.

(** One probe: the getter is called and a populated block is sent. *)
Lemma probe_run (kind : BlockKind) (address : Z) (offset : Z) (w : World) :
  stores w !! a = Some s ->
  (let* blk := store_get (m_store store) kind address in
   match blk with
   | Some b => SysEx_sendBlock kind (m_midiOut store) (m_type store) address b
   | None => ret tt
   end) offset w =
  (Returns tt, offset, add_trace (probe_events a s store kind address) w).
Proof.
  intros Hs. unfold probe_events. run. rewrite store_at, Hs. cbn.
  destruct (get_block s kind address); [|reflexivity].
  rewrite !log_add_trace, add_trace_app. reflexivity.
Qed.

Lemma probe_loop (kind : BlockKind) (address : Z -> Z -> Z) (indices : list Z)
    (offset : Z) (w : World) :
  stores w !! a = Some s ->
  for_each indices (λ i,
    let* offset := local in
    let addr := address offset i in
    let* blk := store_get (m_store store) kind addr in
    match blk with
    | Some b => SysEx_sendBlock kind (m_midiOut store) (m_type store) addr b
    | None => ret tt
    end) offset w =
  (Returns tt, offset,
   add_trace (flat_map (λ i, probe_events a s store kind (address offset i)) indices) w).
Proof.
  revert w. induction indices as [|i indices IH]; intros w Hs.
  - cbn. rewrite add_trace_nil. reflexivity.
  - cbn [for_each flat_map]. unfold bind at 1. unfold bind at 1. unfold local at 1.
    rewrite (probe_run kind (address offset i) offset w Hs).
    rewrite IH by exact Hs. rewrite add_trace_app. reflexivity.
Qed.

Lemma writeDevice_vcfs_run (offset : Z) (w : World) :
  stores w !! a = Some s ->
  writeDevice_vcfs store offset w =
  (Returns tt, offset,
   add_trace (flat_map (λ i, probe_events a s store KVcf (vcf_address offset i))
                       (seqZ 0 10)) w).
Proof.
  intros Hs. unfold writeDevice_vcfs, for_upto.
  exact (probe_loop KVcf vcf_address (seqZ 0 10) offset w Hs).
Qed.

Lemma writeDevice_blocks_run (kind : BlockKind) (offset : Z) (w : World) :
  stores w !! a = Some s ->
  writeDevice_blocks kind store offset w =
  (Returns tt, offset,
   add_trace (flat_map (λ i, probe_events a s store kind (block_address offset i))
                       (seqZ 0 20)) w).
Proof.
  intros Hs. unfold writeDevice_blocks, for_upto.
  exact (probe_loop kind block_address (seqZ 0 20) offset w Hs).
Qed.

Lemma icb_loop (slots : list (Z * Icb)) (offset : Z) (w : World) :
  for_each slots (λ i,
    SysEx_sendIcb (m_midiOut store) (m_type store) i.1 i.2 ;;
    let* offset := local in
    if offset =? 0
    then assign (λ _, Cxx.uint8 (i.1 - 1))
    else ret tt) offset w =
  (Returns tt, icb_offset offset slots,
   add_trace (map (λ i, EvSysEx (m_midiOut store) (MsgIcb (m_type store) i.1 i.2)) slots) w).
Proof.
  revert offset w. induction slots as [|i slots IH]; intros offset w.
  - cbn. rewrite add_trace_nil. reflexivity.
  - cbn [for_each map icb_offset]. unfold bind at 1. unfold bind at 1.
    unfold SysEx_sendIcb at 1, modify at 1. unfold bind at 1, local at 1.
    destruct (offset =? 0).
    + unfold assign at 1. rewrite IH, log_add_trace, add_trace_app. reflexivity.
    + unfold ret at 1. rewrite IH, log_add_trace, add_trace_app. reflexivity.
Qed.

Lemma writeDevice_icbs_run (offset : Z) (w : World) :
  stores w !! a = Some s ->
  writeDevice_icbs store offset w =
  (Returns tt, icb_offset offset (icbs (contents s)),
   add_trace (map (λ i, EvSysEx (m_midiOut store) (MsgIcb (m_type store) i.1 i.2))
                  (icbs (contents s))) w).
Proof.
  intros Hs. unfold writeDevice_icbs, store_icbs. unfold bind at 1, bind at 1, world at 1.
  rewrite store_at, Hs. unfold ret at 1. apply icb_loop.
Qed.

Lemma writeDevice_run {L} (l : L) (w : World) :
  stores w !! a = Some s ->
  writeDevice store l w = (Returns tt, l, add_trace (write_trace a s store) w).
Proof.
  intros Hs. unfold writeDevice, call, writeDevice_body, write_trace.
  unfold bind at 1. rewrite (writeDevice_icbs_run 0 w Hs).
  unfold bind at 1. rewrite writeDevice_vcfs_run by exact Hs.
  unfold bind at 1. rewrite writeDevice_blocks_run by exact Hs.
  unfold bind at 1. rewrite writeDevice_blocks_run by exact Hs.
  rewrite writeDevice_blocks_run by exact Hs.
  rewrite !add_trace_app, <- ?app_assoc. reflexivity.
Qed.

(** *** What the trace holds *)

Lemma sent_icbs (slots : list (Z * Icb)) :
  sent (map (λ i, EvSysEx (m_midiOut store) (MsgIcb (m_type store) i.1 i.2)) slots) =
  map (λ i, MsgIcb (m_type store) i.1 i.2) slots.
Proof. induction slots as [|i slots IH]; [reflexivity|]. cbn. f_equal. exact IH. Qed.

Lemma sent_probes (kind : BlockKind) (address : Z -> Z) (indices : list Z) :
  sent (flat_map (λ i, probe_events a s store kind (address i)) indices) =
  block_messages s kind (m_type store) (map address indices).
Proof.
  induction indices as [|i indices IH]; [reflexivity|].
  cbn [flat_map map]. rewrite sent_app, IH. unfold block_messages, probe_events. cbn.
  destruct (get_block s kind (address i)); reflexivity.
Qed.

Lemma probed_icbs (kind : BlockKind) (slots : list (Z * Icb)) :
  probed kind (map (λ i, EvSysEx (m_midiOut store) (MsgIcb (m_type store) i.1 i.2)) slots) = [].
Proof. induction slots as [|i slots IH]; [reflexivity|]. cbn. exact IH. Qed.

Lemma probed_probes (kind kind' : BlockKind) (address : Z -> Z) (indices : list Z) :
  probed kind (flat_map (λ i, probe_events a s store kind' (address i)) indices) =
  if decide (kind' = kind) then map address indices else [].
Proof.
  induction indices as [|i indices IH].
  - cbn. destruct (decide (kind' = kind)); reflexivity.
  - cbn [flat_map map]. rewrite probed_app, IH. unfold probe_events, probed at 1. cbn.
    destruct (decide (kind' = kind)); destruct (get_block s kind' (address i)); reflexivity.
Qed.

Lemma probed_write_trace (kind : BlockKind) :
  probed kind (write_trace a s store) =
  let offset := icb_offset 0 (icbs (contents s)) in
  match kind with
  | KVcf => map (vcf_address offset) (seqZ 0 10)
  | _ => map (block_address offset) (seqZ 0 20)
  end.
Proof.
  unfold write_trace. rewrite !probed_app, probed_icbs.
  rewrite (probed_probes kind KVcf), !(probed_probes kind KAmpl),
    !(probed_probes kind KFreq), !(probed_probes kind KWave).
  destruct kind; repeat case_decide; try discriminate; try congruence;
    cbn; rewrite ?app_nil_r; reflexivity.
Qed.

End WriteDeviceFacts.

(** *** The offset *)

Lemma icb_offset_set (offset : Z) (slots : list (Z * Icb)) :
  offset <> 0 -> icb_offset offset slots = offset.
Proof.
  intros H. induction slots as [|i slots IH]; [reflexivity|].
  cbn. destruct (Z.eqb_spec offset 0); [contradiction|exact IH].
Qed.

Lemma icb_offset_slot (slots : list (Z * Icb)) :
  icb_offset 0 slots = offset_of_slot (offset_slot slots).
Proof.
  unfold offset_slot. induction slots as [|i slots IH]; [reflexivity|].
  cbn. case_decide as Hi.
  - cbn. apply icb_offset_set. exact Hi.
  - rewrite Hi, IH.
    destruct (list_find _ slots) as [[n j]|]; reflexivity.
Qed.

Lemma icb_offset_range (slots : list (Z * Icb)) :
  0 <= icb_offset 0 slots < 256.
Proof.
  rewrite icb_offset_slot. destruct (offset_slot slots) as [k|]; cbn.
  - apply uint8_range.
  - lia.
Qed.

(** When the ICBs come in slot order, the slot the offset is taken from
    is the lowest one whose predecessor is not zero. *)
Lemma offset_slot_lowest (slots : list (Z * Icb)) (k : Z) :
  StronglySorted (λ x y : Z * Icb, x.1 < y.1) slots ->
  offset_slot slots = Some k ->
  forall j, j ∈ slots -> Cxx.uint8 (j.1 - 1) <> 0 -> k <= j.1.
Proof.
  unfold offset_slot. induction slots as [|i slots IH]; intros Hsorted Hk j Hj Hnz.
  - discriminate Hk.
  - apply StronglySorted_inv in Hsorted as [Hrest Hall].
    cbn in Hk. case_decide as Hi.
    + cbn in Hk. injection Hk as <-.
      apply elem_of_cons in Hj as [-> | Hj]; [lia|].
      rewrite Forall_forall in Hall. specialize (Hall j Hj). lia.
    + apply elem_of_cons in Hj as [-> | Hj]; [contradiction|].
      apply IH; try assumption.
      destruct (list_find _ slots) as [[n x]|]; [exact Hk|discriminate Hk].
Qed.

(** A store whose first ICB sits at slot 2 or above gets that slot less one. *)
Lemma icb_offset_first (k : Z) (icb : Icb) (slots : list (Z * Icb)) :
  2 <= k < 256 -> icb_offset 0 ((k, icb) :: slots) = k - 1.
Proof.
  intros Hk. cbn. rewrite (uint8_small (k - 1)) by lia.
  apply icb_offset_set. lia.
Qed.

(** *** The addresses *)

Lemma vcf_addresses (offset : Z) :
  map (vcf_address offset) (seqZ 0 10) = map (λ i, Cxx.uint8 (i + offset)) (seqZ 0 10).
Proof. reflexivity. Qed.

Lemma block_addresses (offset : Z) :
  map (block_address offset) (seqZ 0 20) =
  map (λ i, Cxx.uint8 (i + offset)) (seqZ 0 10) ++
  map (λ i, Cxx.uint8 (i + offset + 1)) (seqZ 10 10).
Proof.
  change (seqZ 0 20) with (seqZ 0 10 ++ seqZ 10 10). rewrite map_app.
  f_equal; apply map_ext_in; intros i Hi;
    apply list_elem_of_In, elem_of_seqZ in Hi; unfold block_address;
    destruct (Z.leb_spec 10 i); first [lia | reflexivity | apply uint8_succ].
Qed.

(** The address between the two groups of ten is not among them. *)
Lemma block_addresses_skip (offset : Z) :
  Cxx.uint8 (10 + offset) ∉ map (block_address offset) (seqZ 0 20).
Proof.
  rewrite block_addresses, list_elem_of_In, in_app_iff, !in_map_iff.
  intros [(i & Hi & Hin) | (i & Hi & Hin)];
    apply list_elem_of_In, elem_of_seqZ in Hin;
    apply uint8_inj_near in Hi; lia.
Qed.

Lemma block_addresses_plain (offset : Z) :
  0 <= offset -> offset + 20 < 256 ->
  map (block_address offset) (seqZ 0 20) =
  map (λ i, i + offset) (seqZ 0 10) ++ map (λ i, i + offset + 1) (seqZ 10 10).
Proof.
  intros H0 H. rewrite block_addresses.
  f_equal; apply map_ext_in; intros i Hi;
    apply list_elem_of_In, elem_of_seqZ in Hi; apply uint8_small; lia.
Qed.

Lemma vcf_addresses_plain (offset : Z) :
  0 <= offset -> offset + 20 < 256 ->
  map (vcf_address offset) (seqZ 0 10) = map (λ i, i + offset) (seqZ 0 10).
Proof.
  intros H0 H. rewrite vcf_addresses.
  apply map_ext_in; intros i Hi;
    apply list_elem_of_In, elem_of_seqZ in Hi; apply uint8_small; lia.
Qed.

(** *** The claims about the write transaction *)

(** C4 (as amended): the offset the ICB loop leaves behind, which every
    later loop adds to its index, is the slot less one (as a [uint8_t])
    of the first ICB in iteration order for which that value is not
    zero, and zero when there is no such ICB. *)
Theorem writeDevice_offset {L} (l : L) (w : World) (store : InstStore)
    (a : addr) (s : InstrumentStore) :
  m_store store = Some a ->
  stores w !! a = Some s ->
  let offset := offset_of_slot (offset_slot (icbs (contents s))) in
  (writeDevice_icbs store 0 w).1.2 = offset /\
  exists evs,
    writeDevice store l w = (Returns tt, l, add_trace evs w) /\
    probed KVcf evs = map (vcf_address offset) (seqZ 0 10) /\
    probed KAmpl evs = map (block_address offset) (seqZ 0 20) /\
    probed KFreq evs = map (block_address offset) (seqZ 0 20) /\
    probed KWave evs = map (block_address offset) (seqZ 0 20).
Proof.
  intros Hp Hs offset. subst offset. rewrite <- icb_offset_slot. split.
  - rewrite (writeDevice_icbs_run store a s Hp 0 w Hs). reflexivity.
  - exists (write_trace a s store). split.
    + apply writeDevice_run; assumption.
    + rewrite !(probed_write_trace store a s). auto.
Qed.

Lemma writeDevice_offset_witness :
  let w := Sample.stored Sample.bank in
  (m_store Sample.device = Some 1%nat /\
   stores w !! 1%nat = Some (mkInstrumentStore Sample.bank 0%nat)) /\
  (writeDevice_icbs Sample.device 0 w).1.2 = 65.
Proof.
  intros w.
  assert (H1 : m_store Sample.device = Some 1%nat) by reflexivity.
  assert (H2 : stores w !! 1%nat = Some (mkInstrumentStore Sample.bank 0%nat))
    by (vm_compute; reflexivity).
  split; [auto|].
  exact (proj1 (writeDevice_offset tt w Sample.device 1%nat _ H1 H2)).
Defined.

(** C4 as the design document has it fails: two stores whose lowest
    non-zero slot is 1 in both get the offsets 1 and 2, and neither gets
    what slot 1 would give, which is 0. *)
Lemma writeDevice_offset_not_lowest_slot :
  let offset d := (writeDevice_icbs Sample.device 0 (Sample.stored d)).1.2 in
  lowest_nonzero_slot (icbs Sample.slots_1_2) = Some 1 /\
  lowest_nonzero_slot (icbs Sample.slots_1_3) = Some 1 /\
  offset_of_slot (Some 1) = 0 /\
  offset Sample.slots_1_2 = 1 /\
  offset Sample.slots_1_3 = 2.
Proof. vm_compute. auto. Qed.

(** C5: a write transaction sends all ICBs first, in iteration order,
    then asks for 10 filter addresses, then for 20 amplitude, 20
    frequency and 20 waveform addresses; each address is asked for once,
    and a message follows exactly when the store has a block there. *)
Theorem writeDevice_order {L} (l : L) (w : World) (store : InstStore)
    (a : addr) (s : InstrumentStore) :
  m_store store = Some a ->
  stores w !! a = Some s ->
  let evs := write_trace a s store in
  let type := m_type store in
  writeDevice store l w = (Returns tt, l, add_trace evs w) /\
  sent evs =
    map (λ i, MsgIcb type i.1 i.2) (icbs (contents s)) ++
    block_messages s KVcf type (probed KVcf evs) ++
    block_messages s KAmpl type (probed KAmpl evs) ++
    block_messages s KFreq type (probed KFreq evs) ++
    block_messages s KWave type (probed KWave evs) /\
  length (probed KVcf evs) = 10%nat /\
  length (probed KAmpl evs) = 20%nat /\
  length (probed KFreq evs) = 20%nat /\
  length (probed KWave evs) = 20%nat.
Proof.
  intros Hp Hs evs type. subst evs type. split; [apply writeDevice_run; assumption|].
  rewrite !(probed_write_trace store a s). cbn zeta.
  split; [|rewrite !length_map; auto].
  unfold write_trace. rewrite !sent_app, sent_icbs.
  rewrite !(sent_probes store a s). reflexivity.
Qed.

Lemma writeDevice_order_witness :
  let w := Sample.stored Sample.bank in
  (m_store Sample.device = Some 1%nat /\
   stores w !! 1%nat = Some (mkInstrumentStore Sample.bank 0%nat)) /\
  sent (trace (writeDevice Sample.device tt w).2) =
    [MsgIcb 2 66 Sample.piano; MsgIcb 2 67 Sample.organ;
     MsgBlock KVcf 2 65 [1; 2];
     MsgBlock KAmpl 2 65 [3]; MsgBlock KAmpl 2 76 [4];
     MsgBlock KFreq 2 66 [5]].
Proof.
  intros w.
  assert (H1 : m_store Sample.device = Some 1%nat) by reflexivity.
  assert (H2 : stores w !! 1%nat = Some (mkInstrumentStore Sample.bank 0%nat))
    by (vm_compute; reflexivity).
  split; [auto|].
  rewrite (proj1 (writeDevice_order tt w Sample.device 1%nat _ H1 H2)).
  vm_compute. reflexivity.
Defined.

(** C9: with [offset] the offset of C4, the filter loop asks for
    [index + offset] for the indices 0 to 9; the amplitude, frequency and
    waveform loops ask for [index + offset] for the indices 0 to 9 and
    for [index + offset + 1] for the indices 10 to 19, so that
    [10 + offset] is left out.  Addresses are [uint8_t] values; below the
    wrap-around they are the plain sums. *)
Theorem writeDevice_addresses {L} (l : L) (w : World) (store : InstStore)
    (a : addr) (s : InstrumentStore) :
  m_store store = Some a ->
  stores w !! a = Some s ->
  let offset := (writeDevice_icbs store 0 w).1.2 in
  exists evs,
    writeDevice store l w = (Returns tt, l, add_trace evs w) /\
    probed KVcf evs = map (λ i, Cxx.uint8 (i + offset)) (seqZ 0 10) /\
    (offset + 20 < 256 ->
     probed KVcf evs = map (λ i, i + offset) (seqZ 0 10)) /\
    forall kind, kind <> KVcf ->
      probed kind evs =
        map (λ i, Cxx.uint8 (i + offset)) (seqZ 0 10) ++
        map (λ i, Cxx.uint8 (i + offset + 1)) (seqZ 10 10) /\
      (Cxx.uint8 (10 + offset) ∉ probed kind evs) /\
      (offset + 20 < 256 ->
       probed kind evs =
         map (λ i, i + offset) (seqZ 0 10) ++ map (λ i, i + offset + 1) (seqZ 10 10)).
Proof.
  intros Hp Hs offset. subst offset.
  rewrite (writeDevice_icbs_run store a s Hp 0 w Hs). cbn [fst snd].
  pose proof (icb_offset_range (icbs (contents s))) as Hr.
  exists (write_trace a s store). split; [apply writeDevice_run; assumption|].
  rewrite (probed_write_trace store a s KVcf). cbn zeta.
  split; [apply vcf_addresses|].
  split; [intros H; apply vcf_addresses_plain; lia|].
  intros kind Hk.
  assert (Hb : probed kind (write_trace a s store) =
               map (block_address (icb_offset 0 (icbs (contents s)))) (seqZ 0 20)).
  { rewrite (probed_write_trace store a s kind). destruct kind; [contradiction|..]; reflexivity. }
  rewrite Hb. split; [apply block_addresses|].
  split; [apply block_addresses_skip|].
  intros H. apply block_addresses_plain; lia.
Qed.

Lemma writeDevice_addresses_witness :
  let w := Sample.stored Sample.bank in
  (m_store Sample.device = Some 1%nat /\
   stores w !! 1%nat = Some (mkInstrumentStore Sample.bank 0%nat)) /\
  probed KAmpl (trace (writeDevice Sample.device tt w).2) =
    [65; 66; 67; 68; 69; 70; 71; 72; 73; 74;
     76; 77; 78; 79; 80; 81; 82; 83; 84; 85].
Proof.
  intros w.
  assert (H1 : m_store Sample.device = Some 1%nat) by reflexivity.
  assert (H2 : stores w !! 1%nat = Some (mkInstrumentStore Sample.bank 0%nat))
    by (vm_compute; reflexivity).
  split; [auto|].
  destruct (writeDevice_addresses tt w Sample.device 1%nat _ H1 H2)
    as (evs & Hrun & _ & _ & Hk).
  rewrite Hrun. cbn [snd]. 
  destruct (Hk KAmpl ltac:(discriminate)) as (_ & _ & Hplain).
  change (trace (add_trace evs w)) with (evs). rewrite Hplain; [reflexivity|].
  vm_compute. reflexivity.
Defined.

(** ** Device setup *)

(** Equality of heaps after inserts and deletes, key by key. *)
Ltac heap_eq :=
  apply map_eq; intros ?k;
  repeat first [rewrite lookup_delete | rewrite lookup_insert];
  repeat case_decide; subst; first [reflexivity | lia | congruence].

Section CreateDevicesFacts.

Variable Dx10Device : list Z -> Z -> Exception + StoreData.
Variable inPorts outPorts : list string.
Variable RtMidiIn_ok RtMidiOut_ok : string -> bool.

Lemma channel_check (g : DeviceGroup) (tmp0 : Z) :
  negb (config_Read (cfg_Channel g) tmp0).1
  || ((config_Read (cfg_Channel g) tmp0).2 <? 1)
  || ((config_Read (cfg_Channel g) tmp0).2 >? 16) = negb (channel_in_range g).
Proof.
  unfold channel_in_range, config_Read. destruct (cfg_Channel g) as [c|]; [|reflexivity].
  cbn. rewrite Z.gtb_ltb.
  destruct (Z.ltb_spec c 1), (Z.leb_spec 1 c), (Z.leb_spec c 16), (Z.ltb_spec 16 c);
    cbn; try reflexivity; lia.
Qed.

Lemma type_check (g : DeviceGroup) (tmp0 : Z) :
  negb (config_Read (cfg_Type g) tmp0).1
  || ((config_Read (cfg_Type g) tmp0).2 <? 1)
  || ((config_Read (cfg_Type g) tmp0).2 >? 2) = negb (type_in_range g).
Proof.
  unfold type_in_range, config_Read. destruct (cfg_Type g) as [c|]; [|reflexivity].
  cbn. rewrite Z.gtb_ltb.
  destruct (Z.ltb_spec c 1), (Z.leb_spec 1 c), (Z.leb_spec c 2), (Z.ltb_spec 2 c);
    cbn; try reflexivity; lia.
Qed.

Lemma createDevices_one_invalid {L} (l : L) (w : World) (name : string) (g : DeviceGroup) (d : StoreData) :
  RtMidiIn_ok name = true -> RtMidiOut_ok name = true ->
  Dx10Device (replicate (Z.to_nat 6180) 0) 6180 = inr d ->
  channel_in_range g && type_in_range g = false ->
  let n := next w in
  let reason := setup_failure inPorts outPorts g in
  let t := createDevices_try Dx10Device inPorts outPorts RtMidiIn_ok RtMidiOut_ok name g
             (mkInstStore None None None 0 0) w in
  let r := createDevices_one Dx10Device inPorts outPorts RtMidiIn_ok RtMidiOut_ok
             name g l w in
  t.1.1 = Throws (ConfigurationException reason) /\
  r.1 = (Returns tt, l) /\
  m_instrumentStores r.2 = m_instrumentStores w /\
  m_instTree r.2 = m_instTree w /\
  stores r.2 = delete (S (S (S n))) (stores w) /\
  buffers r.2 = delete (S (S n)) (buffers w) /\
  midis r.2 = delete n (delete (S n) (midis w)) /\
  messages r.2 =
    messages w ++ [("Device '" +:+ name +:+ "' could not be created, reason: " +:+ reason)%string].
Proof.
  intros Hmi Hmo Hd Hbad.
  unfold createDevices_one, createDevices_try, createDevices_catch, new_Dx10Device,
    setup_failure.
  rewrite Hmi, Hmo. run.
  rewrite lookup_insert_eq. cbn. rewrite Hd. cbn.
  destruct (find_port inPorts _) as [i|]; cbn.
  - rewrite lookup_insert_ne by lia. rewrite lookup_insert_eq. cbn.
    destruct (find_port outPorts _) as [o|]; cbn.
    + rewrite lookup_insert_ne by lia. rewrite lookup_insert_eq. cbn.
      rewrite channel_check. destruct (channel_in_range g); cbn.
      * rewrite type_check. cbn in Hbad. rewrite Hbad. cbn.
        rewrite lookup_insert_eq. cbn.
        repeat split; try reflexivity; heap_eq.
      * rewrite lookup_insert_eq. cbn.
        repeat split; try reflexivity; heap_eq.
    + rewrite lookup_insert_eq. cbn.
      repeat split; try reflexivity; heap_eq.
  - rewrite lookup_insert_eq. cbn.
    repeat split; try reflexivity; heap_eq.
Qed.

(** With both ports present and both numbers in range the device is
    shown in the tree and entered in the collection. *)
Lemma createDevices_one_valid {L} (l : L) (w : World) (name : string) (g : DeviceGroup)
    (d : StoreData) (i o : nat) (c t : Z) :
  RtMidiIn_ok name = true -> RtMidiOut_ok name = true ->
  Dx10Device (replicate (Z.to_nat 6180) 0) 6180 = inr d ->
  find_port inPorts (cfg_InPort g) = Some i ->
  find_port outPorts (cfg_OutPort g) = Some o ->
  cfg_Channel g = Some c -> 1 <= c <= 16 ->
  cfg_Type g = Some t -> 1 <= t <= 2 ->
  let n := next w in
  let ist := mkInstStore (Some (S (S (S n)))) (Some n) (Some (S n)) c t in
  let r := createDevices_one Dx10Device inPorts outPorts RtMidiIn_ok RtMidiOut_ok
             name g l w in
  r.1 = (Returns tt, l) /\
  m_instrumentStores r.2 = map_insert_new name ist (m_instrumentStores w) /\
  m_instTree r.2 =
    m_instTree w ++
    mkTreeItem m_devices name ist 0 ::
    map (λ j, mkTreeItem (Item (length (m_instTree w))) (instName j.1 j.2) ist j.1) (icbs d) /\
  stores r.2 = <[S (S (S n)) := mkInstrumentStore d (S (S n))]> (stores w) /\
  messages r.2 = messages w.
Proof.
  intros Hmi Hmo Hd Hi Ho Hc Hcr Ht Htr.
  assert (Hcok : channel_in_range g = true).
  { unfold channel_in_range. rewrite Hc. apply andb_true_intro; split; apply Z.leb_le; lia. }
  assert (Htok : type_in_range g = true).
  { unfold type_in_range. rewrite Ht. apply andb_true_intro; split; apply Z.leb_le; lia. }
  unfold createDevices_one, createDevices_try, createDevices_catch, new_Dx10Device.
  rewrite Hmi, Hmo. run.
  rewrite lookup_insert_eq. cbn. rewrite Hd. cbn. rewrite Hi. cbn.
  rewrite lookup_insert_ne by lia. rewrite lookup_insert_eq. cbn. rewrite Ho. cbn.
  rewrite lookup_insert_ne by lia. rewrite lookup_insert_eq. cbn.
  rewrite channel_check, Hcok. cbn. rewrite type_check, Htok. cbn.
  erewrite (append_instruments_run _ _ (S (S (S (next w)))));
    [ | reflexivity | cbn; apply lookup_insert_eq ].
  cbn. rewrite Hc, Ht. cbn. rewrite !uint8_small by lia. rewrite <- !app_assoc.
  repeat split; reflexivity.
Qed.

(** C8: when the configured channel is missing or outside 1..16, or the
    device type is missing or outside 1..2, the [try] block for that
    device throws a configuration error; the handler deletes the store
    and the MIDI objects the block had made and reports the reason, and
    the round ends with the tree and the collection of stores as they
    were.  So the step the source calls "create instrument store", the
    entry in tree and collection, is reached only with both numbers in
    range.  The checks come after the two MIDI objects and the device
    store were made, so the round gets to them only if those three
    constructors returned. *)
Theorem createDevices_rejects_bad_config {L} (l : L) (w : World) (name : string)
    (g : DeviceGroup) (d : StoreData) :
  RtMidiIn_ok name = true -> RtMidiOut_ok name = true ->
  Dx10Device (replicate (Z.to_nat 6180) 0) 6180 = inr d ->
  channel_in_range g && type_in_range g = false ->
  let n := next w in
  let reason := setup_failure inPorts outPorts g in
  let t := createDevices_try Dx10Device inPorts outPorts RtMidiIn_ok RtMidiOut_ok name g
             (mkInstStore None None None 0 0) w in
  let r := createDevices_one Dx10Device inPorts outPorts RtMidiIn_ok RtMidiOut_ok
             name g l w in
  t.1.1 = Throws (ConfigurationException reason) /\
  r.1 = (Returns tt, l) /\
  m_instrumentStores r.2 = m_instrumentStores w /\
  m_instTree r.2 = m_instTree w /\
  stores r.2 = delete (S (S (S n))) (stores w) /\
  buffers r.2 = delete (S (S n)) (buffers w) /\
  midis r.2 = delete n (delete (S n) (midis w)) /\
  messages r.2 =
    messages w ++ [("Device '" +:+ name +:+ "' could not be created, reason: " +:+ reason)%string].
Proof. apply createDevices_one_invalid. Qed.

End CreateDevicesFacts.

Lemma createDevices_rejects_bad_config_witness :
  let g := mkDeviceGroup "in" "out" (Some 17) (Some 1) in
  let r := createDevices_one Sample.Dx10Device ["in"%string] ["out"%string]
             Sample.midi_ok Sample.midi_ok "DX10" g tt Sample.world0 in
  (Sample.midi_ok "DX10" = true /\
   Sample.Dx10Device (replicate (Z.to_nat 6180) 0) 6180 = inr (mkStoreData [] ∅ ∅ ∅ ∅) /\
   channel_in_range g && type_in_range g = false) /\
  m_instrumentStores r.2 = ∅ /\
  messages r.2 =
    ["Device 'DX10' could not be created, reason: Invalid value for MIDI channel"%string].
Proof.
  intros g r.
  assert (H1 : Sample.Dx10Device (replicate (Z.to_nat 6180) 0) 6180 =
               inr (mkStoreData [] ∅ ∅ ∅ ∅)) by reflexivity.
  assert (H2 : channel_in_range g && type_in_range g = false) by reflexivity.
  assert (H0 : Sample.midi_ok "DX10" = true) by reflexivity.
  split; [auto|].
  destruct (createDevices_rejects_bad_config Sample.Dx10Device ["in"%string] ["out"%string]
              Sample.midi_ok Sample.midi_ok tt Sample.world0 "DX10" g _ H0 H0 H1 H2)
    as (_ & _ & H3 & _ & _ & _ & _ & H4).
  split; [exact H3|exact H4].
Defined.

(** ** The read transaction *)

Section ReadTransactionFacts.

Import ReadTransaction.

Context {C : Type}.
Variable progressCallback : C -> Z -> Z -> bool * C.
Variable checksum : list Z -> Z.

Abbreviation awaitBlocks := (awaitBlocks progressCallback checksum).
Abbreviation invocations := (invocations progressCallback).

(** Cancelling at the [k]-th unit, counted from any point of the
    transaction. *)
Lemma awaitBlocks_cancelled (k : nat) :
  forall (frames : list Frame) (expected received : Z)
         (store : gmap (Z * Z) Block) (ctx : C),
  (0 < k <= length frames)%nat ->
  Forall (λ f, frame_valid checksum f = true) (take k frames) ->
  (invocations k expected received ctx).1 = replicate (k - 1) true ++ [false] ->
  received + Z.of_nat k <= expected ->
  awaitBlocks frames expected received store ctx =
  (inr Cancelled, foldl applyBlock store (take k frames),
   (invocations k expected received ctx).2).
Proof.
  induction k as [|k IH]; intros frames expected received store ctx Hk Hvalid Hcb Hroom;
    [lia|].
  destruct frames as [|f rest]; [cbn in Hk; lia|].
  cbn [take] in Hvalid. apply Forall_cons in Hvalid as [Hf Hvalid].
  cbn [ReadTransaction.awaitBlocks ReadTransaction.invocations take foldl] in *.
  rewrite Hf.
  destruct (progressCallback ctx (received + 1) expected) as [b ctx'] eqn:Hstep.
  destruct (ReadTransaction.invocations progressCallback k expected (received + 1) ctx')
    as [bs ctx''] eqn:Hrest.
  cbn [fst snd] in *.
  destruct k as [|k].
  - cbn in Hcb, Hrest. injection Hrest as <- <-. injection Hcb as ->.
    cbn. reflexivity.
  - cbn [replicate app Nat.sub] in Hcb. replace (S k - 0)%nat with (S k) in Hcb by lia.
    cbn [replicate app] in Hcb. injection Hcb as -> Hbs.
    destruct (Z.ltb_spec (received + 1) expected); [|lia].
    rewrite (IH rest expected (received + 1) (applyBlock store f) ctx').
    + rewrite Hrest. reflexivity.
    + cbn in Hk. lia.
    + exact Hvalid.
    + rewrite Hrest. cbn. rewrite Nat.sub_0_r. exact Hbs.
    + lia.
Qed.

(** What a run of whole-block updates leaves at a key. *)
Lemma applied_blocks (frames : list Frame) (store : gmap (Z * Z) Block) (key : Z * Z) :
  foldl applyBlock store frames !! key =
  match received_block frames key with
  | Some b => Some b
  | None => store !! key
  end.
Proof.
  induction frames as [|f frames IH] using rev_ind; [reflexivity|].
  rewrite foldl_app. cbn [foldl]. unfold applyBlock at 1. rewrite lookup_insert, IH.
  unfold received_block. rewrite reverse_app. cbn. unfold frame_key.
  destruct (decide ((kind_code (fr_kind f), fr_address f) = key)) as [Heq|Hne];
    [reflexivity|].
  destruct (list_find _ (reverse frames)) as [[n g]|]; reflexivity.
Qed.

(** C7: if the first [k] frames are sound, the callback agrees to go on
    after the first [k - 1] units and returns [false] after the [k]-th,
    the transaction ends in [Cancelled], not in an error; the store is
    the one it started with, with the first [k] blocks put in whole, and
    every other key is as it was before. *)
Theorem readFromDevice_cancelled (k : nat) (unitsTotal : Z) (frames : list Frame)
    (store : gmap (Z * Z) Block) (ctx : C) :
  (0 < k <= length frames)%nat ->
  Z.of_nat k <= unitsTotal ->
  Forall (λ f, frame_valid checksum f = true) (take k frames) ->
  (invocations k unitsTotal 0 ctx).1 = replicate (k - 1) true ++ [false] ->
  let r := readFromDevice progressCallback checksum unitsTotal frames store ctx in
  r.1.1 = inr Cancelled /\
  r.1.2 = foldl applyBlock store (take k frames) /\
  forall key,
    r.1.2 !! key =
    match received_block (take k frames) key with
    | Some b => Some b
    | None => store !! key
    end.
Proof.
  intros Hk Hroom Hvalid Hcb r. subst r. unfold readFromDevice.
  rewrite (awaitBlocks_cancelled k frames unitsTotal 0 store ctx Hk Hvalid Hcb)
    by lia.
  cbn [fst snd]. repeat split. intros key. apply applied_blocks.
Qed.

End ReadTransactionFacts.

(** Three frames arrive, the callback gives up after the second. *)
Lemma readFromDevice_cancelled_witness :
  let r := ReadTransaction.readFromDevice (Sample.cancel_after 2) Sample.checksum
             6180 Sample.frames ∅ 0%nat in
  ((0 < 2 <= length Sample.frames)%nat /\
   Z.of_nat 2 <= 6180 /\
   Forall (λ f, ReadTransaction.frame_valid Sample.checksum f = true)
          (take 2 Sample.frames) /\
   (ReadTransaction.invocations (Sample.cancel_after 2) 2 6180 0 0%nat).1 =
     replicate (2 - 1) true ++ [false]) /\
  r.1.1 = inr ReadTransaction.Cancelled /\
  r.1.2 !! (0, 66) = Some [1; 2; 3] /\
  r.1.2 !! (2, 65) = Some [4; 5] /\
  r.1.2 !! (4, 65) = None.
Proof.
  intros r.
  assert (H1 : (0 < 2 <= length Sample.frames)%nat) by (cbn; lia).
  assert (H2 : Z.of_nat 2 <= 6180) by lia.
  assert (H3 : Forall (λ f, ReadTransaction.frame_valid Sample.checksum f = true)
                      (take 2 Sample.frames))
    by (repeat constructor).
  assert (H4 : (ReadTransaction.invocations (Sample.cancel_after 2) 2 6180 0 0%nat).1 =
               replicate (2 - 1) true ++ [false]) by reflexivity.
  split; [auto|].
  destruct (readFromDevice_cancelled (Sample.cancel_after 2) Sample.checksum
              2 6180 Sample.frames ∅ 0%nat H1 H2 H3 H4) as (Hc & _ & Hk).
  split; [exact Hc|].
  split; [|split]; rewrite Hk; reflexivity.
Defined.

(** * Further properties *)

(** ** Reading a cartridge file, continued *)

Ltac unfold_cartridge_outcome := unfold cartridge_outcome.

Section ReadCartridgeMore.

Variable Mk1Cartridge : list Z -> Exception + StoreData.
Variable Dx10Cartridge : list Z -> Z -> Exception + StoreData.

Abbreviation readCartridgeFile := (readCartridgeFile Mk1Cartridge Dx10Cartridge).
Abbreviation cartridge_outcome := (cartridge_outcome Mk1Cartridge Dx10Cartridge).

(** Every way the call can end, with the world it leaves. *)
Lemma readCartridgeFile_cases {L} (l : L) (w : World) (filePath cartName : string) :
  let r := readCartridgeFile filePath cartName l w in
  r.1.2 = l /\
  r.1.1 = cartridge_outcome (files w !! filePath) /\
  ((r.2 = w /\ exists e, r.1.1 = Throws e) \/
   (exists f e attempts,
      files w !! filePath = Some f /\
      cartridge_rejected w f e attempts (r.1.1, r.2)) \/
   (exists f d attempts,
      files w !! filePath = Some f /\
      cartridge_loaded w cartName f d attempts (r.1.1, r.2))).
Proof.
  intros r. subst r. unfold_cartridge_outcome.
  destruct (files w !! filePath) as [f|] eqn:Hf.
  2:{ run_rcf. rewrite Hf. cbn. eauto 10. }
  destruct (decide (file_length f = 8192 \/ file_length f = 16384)) as [Hsize|Hsize].
  2:{ rewrite (readCartridgeFile_size_rejected_run Mk1Cartridge Dx10Cartridge l w
                 filePath cartName f) by tauto.
      destruct (Z.eqb_spec (file_length f) 8192); [tauto|].
      destruct (Z.eqb_spec (file_length f) 16384); [tauto|]. cbn. eauto 10. }
  rewrite (size_check_passes _ Hsize).
  destruct (file_stream_ok f) eqn:Hok.
  2:{ run_rcf. rewrite Hf, (size_check_passes _ Hsize), Hok. cbn. eauto 10. }
  cbn [negb].
  destruct (Z.eqb_spec (Z.of_nat (length (delivered f))) (file_length f)) as [Hfull|Hshort].
  - destruct (readCartridgeFile_full_read Mk1Cartridge Dx10Cartridge l w filePath cartName f
                Hf Hsize Hok Hfull) as [Hl Hm].
    split; [exact Hl|]. cbn [negb].
    destruct (Mk1Cartridge _) as [e1|d1].
    + destruct (isDataFormat e1).
      * destruct (Dx10Cartridge _ _) as [e2|d2].
        -- split; [destruct (isDataFormat e2); apply Hm|]. right; left. eauto 10.
        -- split; [apply Hm|]. right; right. eauto 10.
      * split; [apply Hm|]. right; left. eauto 10.
    + split; [apply Hm|]. right; right. eauto 10.
  - destruct (readCartridgeFile_short_read Mk1Cartridge Dx10Cartridge l w filePath cartName f
                Hf Hsize Hok Hshort) as [Hl Hm].
    split; [exact Hl|]. cbn [negb]. split; [apply Hm|]. right; left. eauto 10.
Qed.

(** What the call never touches: files, MIDI objects, dialogs and shown
    messages; and addresses are only ever used upwards. *)
Lemma readCartridgeFile_frame {L} (l : L) (w : World) (filePath cartName : string) :
  let r := readCartridgeFile filePath cartName l w in
  files r.2 = files w /\ midis r.2 = midis w /\ dialogs r.2 = dialogs w /\
  messages r.2 = messages w /\ (next w <= next r.2)%nat.
Proof.
  cbn zeta. run_rcf.
  destruct (files w !! filePath) as [f|]; cbn; [|auto 10].
  destruct (negb (file_length f =? 8192) && negb (file_length f =? 16384)); cbn; [auto 10|].
  destruct (file_stream_ok f); cbn; [|auto 10].
  rewrite lookup_insert_eq. cbn.
  destruct (Z.of_nat (length (take (Z.to_nat (file_length f)) (file_bytes f))) =? file_length f);
    cbn; [|auto 10].
  rewrite lookup_insert_eq. cbn.
  destruct (Mk1Cartridge _) as [e1|d1]; cbn.
  - destruct (isDataFormat e1); cbn; [|auto 10].
    rewrite lookup_insert_eq. cbn.
    destruct (Dx10Cartridge _ _) as [e2|d2]; cbn.
    + destruct (isDataFormat e2); cbn; auto 10.
    + erewrite (append_instruments_run _ _ (S (next w)));
        [ | reflexivity | cbn; apply lookup_insert_eq ].
      cbn. repeat split; lia.
  - erewrite (append_instruments_run _ _ (S (next w)));
      [ | reflexivity | cbn; apply lookup_insert_eq ].
    cbn. repeat split; lia.
Qed.

(** X1: how a call ends is decided by the file alone, by the checks in
    the order of the source (existence, length, stream, complete read,
    Mk1 constructor, Dx10 constructor); heap, tree and collection have no
    say, and the files themselves are never changed. *)
Theorem readCartridgeFile_outcome {L} (l : L) (w : World) (filePath cartName : string) :
  let r := readCartridgeFile filePath cartName l w in
  r.1.1 = cartridge_outcome (files w !! filePath) /\
  files r.2 = files w.
Proof.
  intros r. split.
  - apply (readCartridgeFile_cases l w filePath cartName).
  - apply (readCartridgeFile_frame l w filePath cartName).
Qed.

(** X2: when the stream delivers fewer bytes than the file is long, the
    call throws "Could not read whole cartridge data" without trying a
    constructor, and the buffer it had allocated is deleted again. *)
Theorem readCartridgeFile_incomplete_read {L} (l : L) (w : World)
    (filePath cartName : string) (f : File) :
  files w !! filePath = Some f ->
  file_length f = 8192 \/ file_length f = 16384 ->
  file_stream_ok f = true ->
  (length (file_bytes f) < Z.to_nat (file_length f))%nat ->
  let r := readCartridgeFile filePath cartName l w in
  r.1.1 = Throws (DataFormatException "Could not read whole cartridge data") /\
  trace r.2 = trace w ++
    [EvNewBuffer (next w) (file_length f); EvDeleteBuffer (next w)] /\
  buffers r.2 = delete (next w) (buffers w) /\
  stores r.2 = stores w /\
  m_instrumentStores r.2 = m_instrumentStores w /\
  m_instTree r.2 = m_instTree w.
Proof.
  intros Hf Hsize Hok Hshort r.
  assert (Hne : Z.of_nat (length (delivered f)) <> file_length f).
  { unfold delivered. rewrite length_take. lia. }
  destruct (readCartridgeFile_short_read Mk1Cartridge Dx10Cartridge l w filePath cartName f
              Hf Hsize Hok Hne) as (_ & H1 & H2 & H3 & H4 & H5 & H6).
  cbn in *. subst r. auto 10.
Qed.

(** X3: a cartridge loaded under a name the collection already has does
    not replace that entry: the collection is unchanged, while the new
    store object is live and shown in the tree; if no entry pointed at
    the fresh address before, no entry points at the new store. *)
Theorem readCartridgeFile_name_taken {L} (l : L) (w : World)
    (filePath cartName : string) (old : InstStore) :
  m_instrumentStores w !! cartName = Some old ->
  (readCartridgeFile filePath cartName l w).1.1 = Returns tt ->
  (forall n i, m_instrumentStores w !! n = Some i -> m_store i <> Some (S (next w))) ->
  let r := readCartridgeFile filePath cartName l w in
  let a := S (next w) in
  m_instrumentStores r.2 = m_instrumentStores w /\
  is_Some (stores r.2 !! a) /\
  m_instTree r.2 !! length (m_instTree w) =
    Some (mkTreeItem m_cartridges cartName (mkInstStore (Some a) None None 0 0) 0) /\
  forall n i, m_instrumentStores r.2 !! n = Some i -> m_store i <> Some a.
Proof.
  intros Hold Hret Hfresh r a. subst r a.
  destruct (readCartridgeFile_cases l w filePath cartName) as (_ & _ & Hcases).
  cbn zeta in Hcases.
  destruct Hcases as [Hsame | [(f & e & att & _ & Hrej & _) | (f & d & att & _ & Hload)]].
  - destruct Hsame as (_ & e & He). rewrite Hret in He. discriminate He.
  - cbn in Hrej. rewrite Hret in Hrej. discriminate Hrej.
  - destruct Hload as (_ & Hs & _ & Hc & Ht & _). cbn in *.
    unfold map_insert_new in Hc. rewrite Hold in Hc.
    rewrite Hc, Hs, Ht. repeat split.
    + rewrite lookup_insert_eq. eauto.
    + rewrite lookup_app_r by lia. rewrite Nat.sub_diag. reflexivity.
    + exact Hfresh.
Qed.

End ReadCartridgeMore.

(** The sample file that is 8192 bytes long and delivers three. *)
Lemma readCartridgeFile_incomplete_read_witness :
  let f := mkFile 8192 true [1; 0; 0] in
  let r := readCartridgeFile Sample.Mk1Cartridge Sample.Dx10Cartridge
             "cut.bin" "C" tt Sample.world0 in
  (files Sample.world0 !! "cut.bin" = Some f /\
   (file_length f = 8192 \/ file_length f = 16384) /\
   file_stream_ok f = true /\
   (length (file_bytes f) < Z.to_nat (file_length f))%nat) /\
  r.1.1 = Throws (DataFormatException "Could not read whole cartridge data") /\
  trace r.2 = [EvNewBuffer 0%nat 8192; EvDeleteBuffer 0%nat] /\
  stores r.2 = ∅ /\ m_instrumentStores r.2 = ∅.
Proof.
  intros f r.
  assert (H1 : files Sample.world0 !! "cut.bin" = Some f) by (vm_compute; reflexivity).
  assert (H2 : file_length f = 8192 \/ file_length f = 16384) by (left; reflexivity).
  assert (H3 : file_stream_ok f = true) by reflexivity.
  assert (H4 : (length (file_bytes f) < Z.to_nat (file_length f))%nat) by (cbn; lia).
  split; [auto|].
  destruct (readCartridgeFile_incomplete_read Sample.Mk1Cartridge Sample.Dx10Cartridge
              tt Sample.world0 "cut.bin" "C" f H1 H2 H3 H4) as (R1 & R2 & _ & R4 & R5 & _).
  auto.
Defined.

(** The first sample cartridge, loaded a second time under its name. *)
Lemma readCartridgeFile_name_taken_witness :
  let old := mkInstStore (Some 1%nat) None None 0 0 in
  let r := readCartridgeFile Sample.Mk1Cartridge Sample.Dx10Cartridge
             "mk1.bin" "mk1.bin" tt Studio.shelf in
  (m_instrumentStores Studio.shelf !! "mk1.bin" = Some old /\
   r.1.1 = Returns tt /\
   map_Forall (λ _ i, m_store i <> Some 3%nat) (m_instrumentStores Studio.shelf)) /\
  m_instrumentStores r.2 !! "mk1.bin" = Some old /\
  is_Some (stores r.2 !! 3%nat).
Proof.
  intros old r.
  assert (H1 : m_instrumentStores Studio.shelf !! "mk1.bin" = Some old)
    by (vm_compute; reflexivity).
  assert (H2 : r.1.1 = Returns tt) by (vm_compute; reflexivity).
  assert (H3 : map_Forall (λ _ i, m_store i <> Some 3%nat)
                 (m_instrumentStores Studio.shelf)).
  { apply map_Forall_to_list. vm_compute. repeat constructor. discriminate. }
  split; [auto|].
  destruct (readCartridgeFile_name_taken Sample.Mk1Cartridge Sample.Dx10Cartridge
              tt Studio.shelf "mk1.bin" "mk1.bin" old H1 H2 H3) as (R1 & R2 & _).
  cbn zeta in R1. fold r in R1. rewrite R1. auto.
Defined.

(** ** Sequencing *)

Lemma bind_returns {L A B} (m : M L A) (k : A -> M L B) (l l' : L) (w w' : World) (a : A) :
  m l w = (Returns a, l', w') -> bind m k l w = k a l' w'.
Proof. intros H. unfold bind. rewrite H. reflexivity. Qed.


(** ** Device setup, continued *)

Ltac unfold_device_valid := unfold device_valid.
Ltac unfold_device_valid_in H := unfold device_valid in H.

Ltac unfold_createDevices := unfold createDevices.

Ltac unfold_createDevices_one :=
  unfold createDevices_one, createDevices_try, createDevices_catch, new_Dx10Device,
    setup_failure, device_message.

(** A round in which both MIDI constructors went through. *)
Ltac run_createDevices_one Hmi Hmo :=
  unfold_createDevices_one; rewrite Hmi, Hmo; run.

Section CreateDevicesMore.

Variable Dx10Device : list Z -> Z -> Exception + StoreData.
Variable inPorts outPorts : list string.
Variable RtMidiIn_ok RtMidiOut_ok : string -> bool.

Abbreviation createDevices_one :=
  (createDevices_one Dx10Device inPorts outPorts RtMidiIn_ok RtMidiOut_ok).
Abbreviation createDevices :=
  (createDevices Dx10Device inPorts outPorts RtMidiIn_ok RtMidiOut_ok).
Abbreviation device_valid := (device_valid inPorts outPorts).
Abbreviation setup_failure := (setup_failure inPorts outPorts).

Lemma device_valid_true (g : DeviceGroup) :
  device_valid g = true ->
  exists i o c t,
    find_port inPorts (cfg_InPort g) = Some i /\
    find_port outPorts (cfg_OutPort g) = Some o /\
    cfg_Channel g = Some c /\ 1 <= c <= 16 /\
    cfg_Type g = Some t /\ 1 <= t <= 2.
Proof.
  unfold_device_valid. unfold channel_in_range, type_in_range. intros H.
  apply andb_prop in H as [H Ht]. apply andb_prop in H as [H Hc].
  apply andb_prop in H as [Hi Ho].
  apply bool_decide_eq_true in Hi as [i Hi]. apply bool_decide_eq_true in Ho as [o Ho].
  destruct (cfg_Channel g) as [c|]; [|discriminate].
  destruct (cfg_Type g) as [t|]; [|discriminate].
  apply andb_prop in Hc as [Hc1 Hc2]. apply andb_prop in Ht as [Ht1 Ht2].
  apply Z.leb_le in Hc1, Hc2, Ht1, Ht2. exists i, o, c, t. auto 10.
Qed.

(** A round for a group that fails a check, the constructor having
    returned. *)
Lemma createDevices_one_rejected {L} (l : L) (w : World) (name : string)
    (g : DeviceGroup) (d : StoreData) :
  RtMidiIn_ok name = true -> RtMidiOut_ok name = true ->
  Dx10Device (replicate (Z.to_nat 6180) 0) 6180 = inr d ->
  device_valid g = false ->
  let n := next w in
  let r := createDevices_one name g l w in
  r.1 = (Returns tt, l) /\
  m_instrumentStores r.2 = m_instrumentStores w /\
  m_instTree r.2 = m_instTree w /\
  stores r.2 = delete (S (S (S n))) (stores w) /\
  buffers r.2 = delete (S (S n)) (buffers w) /\
  midis r.2 = delete n (delete (S n) (midis w)) /\
  messages r.2 = messages w ++ [device_message name (setup_failure g)] /\
  next r.2 = S (S (S (S n))).
Proof.
  intros Hmi Hmo Hd Hbad. unfold_device_valid_in Hbad.
  run_createDevices_one Hmi Hmo. rewrite lookup_insert_eq. cbn. rewrite Hd. cbn.
  destruct (find_port inPorts _) as [i|]; cbn.
  - rewrite lookup_insert_ne by lia. rewrite lookup_insert_eq. cbn.
    destruct (find_port outPorts _) as [o|]; cbn.
    + rewrite lookup_insert_ne by lia. rewrite lookup_insert_eq. cbn.
      rewrite channel_check. destruct (channel_in_range g); cbn.
      * rewrite type_check.
        rewrite !bool_decide_eq_true_2 in Hbad by eauto. cbn in Hbad. rewrite Hbad. cbn.
        rewrite lookup_insert_eq. cbn.
        repeat split; try reflexivity; heap_eq.
      * rewrite lookup_insert_eq. cbn.
        repeat split; try reflexivity; heap_eq.
    + rewrite lookup_insert_eq. cbn.
      repeat split; try reflexivity; heap_eq.
  - rewrite lookup_insert_eq. cbn.
    repeat split; try reflexivity; heap_eq.
Qed.

(** A round for a group that passes every check. *)
Lemma createDevices_one_valid_run {L} (l : L) (w : World) (name : string)
    (g : DeviceGroup) (d : StoreData) (i o : nat) (c t : Z) :
  RtMidiIn_ok name = true -> RtMidiOut_ok name = true ->
  Dx10Device (replicate (Z.to_nat 6180) 0) 6180 = inr d ->
  find_port inPorts (cfg_InPort g) = Some i ->
  find_port outPorts (cfg_OutPort g) = Some o ->
  cfg_Channel g = Some c -> 1 <= c <= 16 ->
  cfg_Type g = Some t -> 1 <= t <= 2 ->
  let n := next w in
  let ist := mkInstStore (Some (S (S (S n)))) (Some n) (Some (S n)) c t in
  let r := createDevices_one name g l w in
  r.1 = (Returns tt, l) /\
  m_instrumentStores r.2 = map_insert_new name ist (m_instrumentStores w) /\
  m_instTree r.2 =
    m_instTree w ++
    mkTreeItem m_devices name ist 0 ::
    map (λ j, mkTreeItem (Item (length (m_instTree w))) (instName j.1 j.2) ist j.1) (icbs d) /\
  stores r.2 = <[S (S (S n)) := mkInstrumentStore d (S (S n))]> (stores w) /\
  buffers r.2 = <[S (S n) := replicate (Z.to_nat 6180) 0]> (buffers w) /\
  midis r.2 = <[S n := Some o]> (<[n := Some i]> (midis w)) /\
  messages r.2 = messages w /\
  next r.2 = S (S (S (S n))).
Proof.
  intros Hmi Hmo Hd Hi Ho Hc Hcr Ht Htr.
  assert (Hcok : channel_in_range g = true).
  { unfold channel_in_range. rewrite Hc. apply andb_true_intro; split; apply Z.leb_le; lia. }
  assert (Htok : type_in_range g = true).
  { unfold type_in_range. rewrite Ht. apply andb_true_intro; split; apply Z.leb_le; lia. }
  run_createDevices_one Hmi Hmo.
  rewrite lookup_insert_eq. cbn. rewrite Hd. cbn. rewrite Hi. cbn.
  rewrite lookup_insert_ne by lia. rewrite lookup_insert_eq. cbn. rewrite Ho. cbn.
  rewrite lookup_insert_ne by lia. rewrite lookup_insert_eq. cbn.
  rewrite channel_check, Hcok. cbn. rewrite type_check, Htok. cbn.
  erewrite (append_instruments_run _ _ (S (S (S (next w)))));
    [ | reflexivity | cbn; apply lookup_insert_eq ].
  cbn. rewrite Hc, Ht. cbn. rewrite !uint8_small by lia. rewrite <- !app_assoc.
  repeat split; try reflexivity. heap_eq.
Qed.

(** X4: when the constructors return, a group with both ports present
    and both numbers in range is set up in full: its two MIDI objects have the found ports open, its
    store stands behind a fresh 6180-byte buffer, the tree shows it
    under the devices node, and the collection has it, with the
    configured channel and type, unless the name was taken. *)
Theorem createDevices_one_registers {L} (l : L) (w : World) (name : string)
    (g : DeviceGroup) (d : StoreData) (i o : nat) (c t : Z) :
  RtMidiIn_ok name = true -> RtMidiOut_ok name = true ->
  Dx10Device (replicate (Z.to_nat 6180) 0) 6180 = inr d ->
  find_port inPorts (cfg_InPort g) = Some i ->
  find_port outPorts (cfg_OutPort g) = Some o ->
  cfg_Channel g = Some c -> 1 <= c <= 16 ->
  cfg_Type g = Some t -> 1 <= t <= 2 ->
  let n := next w in
  let ist := mkInstStore (Some (S (S (S n)))) (Some n) (Some (S n)) c t in
  let r := createDevices_one name g l w in
  r.1 = (Returns tt, l) /\
  m_instrumentStores r.2 = map_insert_new name ist (m_instrumentStores w) /\
  m_instTree r.2 =
    m_instTree w ++
    mkTreeItem m_devices name ist 0 ::
    map (λ j, mkTreeItem (Item (length (m_instTree w))) (instName j.1 j.2) ist j.1) (icbs d) /\
  stores r.2 = <[S (S (S n)) := mkInstrumentStore d (S (S n))]> (stores w) /\
  buffers r.2 = <[S (S n) := replicate (Z.to_nat 6180) 0]> (buffers w) /\
  midis r.2 = <[S n := Some o]> (<[n := Some i]> (midis w)) /\
  messages r.2 = messages w /\
  next r.2 = S (S (S (S n))).
Proof. apply createDevices_one_valid_run. Qed.

(** X5: when the [Dx10Device] constructor, called after the two MIDI
    constructors returned, throws an exception of the program's own
    family, the round reports it and deletes the two MIDI objects, but
    the 6180-byte buffer allocated for the constructor call stays
    allocated: no pointer to it is left to delete it through. *)
Theorem createDevices_one_constructor_throws {L} (l : L) (w : World) (name : string)
    (g : DeviceGroup) (e : Exception) :
  RtMidiIn_ok name = true -> RtMidiOut_ok name = true ->
  Dx10Device (replicate (Z.to_nat 6180) 0) 6180 = inl e ->
  isException e = true ->
  let n := next w in
  let r := createDevices_one name g l w in
  r.1 = (Returns tt, l) /\
  messages r.2 = messages w ++ [device_message name (what e)] /\
  midis r.2 = delete n (delete (S n) (midis w)) /\
  buffers r.2 = <[S (S n) := replicate (Z.to_nat 6180) 0]> (buffers w) /\
  stores r.2 = stores w /\
  m_instrumentStores r.2 = m_instrumentStores w /\
  m_instTree r.2 = m_instTree w.
Proof.
  intros Hmi Hmo Hd He.
  run_createDevices_one Hmi Hmo. rewrite lookup_insert_eq. cbn. rewrite Hd. cbn. rewrite He. cbn.
  repeat split; try reflexivity. heap_eq.
Qed.

(** A round never touches the files. *)
Lemma createDevices_one_files {L} (l : L) (w : World) (name : string) (g : DeviceGroup) :
  files (createDevices_one name g l w).2 = files w.
Proof.
  unfold_createDevices_one.
  destruct (RtMidiIn_ok name); [|reflexivity].
  destruct (RtMidiOut_ok name); [|reflexivity].
  run. rewrite lookup_insert_eq. cbn.
  destruct (Dx10Device _ _) as [e|d]; cbn.
  { destruct (isException e); cbn; reflexivity. }
  destruct (find_port inPorts _) as [i|]; cbn.
  - rewrite lookup_insert_ne by lia. rewrite lookup_insert_eq. cbn.
    destruct (find_port outPorts _) as [o|]; cbn.
    + rewrite lookup_insert_ne by lia. rewrite lookup_insert_eq. cbn.
      rewrite channel_check. destruct (channel_in_range g); cbn.
      * rewrite type_check. destruct (type_in_range g); cbn.
        -- erewrite (append_instruments_run _ _ (S (S (S (next w)))));
             [ | reflexivity | cbn; apply lookup_insert_eq ].
           reflexivity.
        -- rewrite lookup_insert_eq. reflexivity.
      * rewrite lookup_insert_eq. reflexivity.
    + rewrite lookup_insert_eq. reflexivity.
  - rewrite lookup_insert_eq. reflexivity.
Qed.

Lemma dom_map_insert_new (k : string) (v : InstStore) (m : gmap string InstStore) :
  dom (map_insert_new k v m) = {[k]} ∪ dom m.
Proof.
  unfold map_insert_new. destruct (m !! k) as [x|] eqn:Hk.
  - apply (elem_of_dom_2 m) in Hk. apply set_eq. intros y.
    rewrite elem_of_union, elem_of_singleton. split; [auto|]. intros [-> | Hy]; assumption.
  - apply dom_insert_L.
Qed.

(** The whole loop, every constructor returning. *)
Lemma createDevices_loop {L} (d : StoreData)
    (groups : list (string * DeviceGroup)) (l : L) (w : World) :
  Forall (λ ng, RtMidiIn_ok ng.1 = true /\ RtMidiOut_ok ng.1 = true) groups ->
  Dx10Device (replicate (Z.to_nat 6180) 0) 6180 = inr d ->
  let r := createDevices groups l w in
  r.1 = (Returns tt, l) /\
  files r.2 = files w /\
  dom (m_instrumentStores r.2) =
    dom (m_instrumentStores w) ∪
    list_to_set (map fst (List.filter (λ ng, device_valid ng.2) groups)) /\
  messages r.2 =
    messages w ++
    map (λ ng, device_message ng.1 (setup_failure ng.2))
        (List.filter (λ ng, negb (device_valid ng.2)) groups).
Proof.
  intros Hmidi Hd. cbn zeta. unfold_createDevices. revert w.
  induction groups as [|[name g] groups IH]; intros w.
  - cbn. rewrite app_nil_r. split; [reflexivity|]. split; [reflexivity|].
    split; [|reflexivity]. symmetry. apply (right_id_L ∅ (∪)).
  - apply Forall_cons in Hmidi as [[Hmi Hmo] Hmidi]. cbn [fst] in Hmi, Hmo.
    specialize (IH Hmidi).
    cbn [for_each List.filter fst snd].
    destruct (device_valid g) eqn:Hv.
    + destruct (device_valid_true g Hv) as (i & o & c & t & Hi & Ho & Hc & Hcr & Ht & Htr).
      destruct (createDevices_one_valid_run l w name g d i o c t Hmi Hmo Hd Hi Ho Hc Hcr Ht Htr)
        as (Hr & Hcoll & _ & _ & _ & _ & Hmsg & _).
      pose proof (createDevices_one_files l w name g) as Hfiles.
      destruct (createDevices_one name g l w) as [[out l1] w1] eqn:Hone.
      cbn in Hr, Hcoll, Hmsg, Hfiles. injection Hr as Ho' Hl'. subst out l1.
      rewrite !(bind_returns _ _ _ _ _ _ _ Hone).
      destruct (IH w1) as (IHr & IHf & IHdom & IHmsg).
      split; [exact IHr|]. rewrite IHf, IHdom, IHmsg, Hcoll, Hmsg, dom_map_insert_new.
      split; [exact Hfiles|]. cbn. split; [|reflexivity].
      apply set_eq. intros y. rewrite !elem_of_union. tauto.
    + destruct (createDevices_one_rejected l w name g d Hmi Hmo Hd Hv)
        as (Hr & Hcoll & _ & _ & _ & _ & Hmsg & _).
      pose proof (createDevices_one_files l w name g) as Hfiles.
      destruct (createDevices_one name g l w) as [[out l1] w1] eqn:Hone.
      cbn in Hr, Hcoll, Hmsg, Hfiles. injection Hr as Ho' Hl'. subst out l1.
      rewrite !(bind_returns _ _ _ _ _ _ _ Hone).
      destruct (IH w1) as (IHr & IHf & IHdom & IHmsg).
      split; [exact IHr|]. rewrite IHf, IHdom, IHmsg, Hcoll, Hmsg.
      split; [exact Hfiles|]. cbn. rewrite <- app_assoc. split; reflexivity.
Qed.

(** X6: provided the MIDI constructors return for every configured
    group and the device constructor returns, [createDevices] goes
    through every group and returns: a group that fails a check never
    stops the loop.  Afterwards the collection has, besides what it had,
    exactly the names of the groups that pass all checks, and there is
    one message, in order, for each group that does not. *)
Theorem createDevices_accounts_for_groups {L} (d : StoreData)
    (groups : list (string * DeviceGroup)) (l : L) (w : World) :
  Forall (λ ng, RtMidiIn_ok ng.1 = true /\ RtMidiOut_ok ng.1 = true) groups ->
  Dx10Device (replicate (Z.to_nat 6180) 0) 6180 = inr d ->
  let r := createDevices groups l w in
  r.1 = (Returns tt, l) /\
  dom (m_instrumentStores r.2) =
    dom (m_instrumentStores w) ∪
    list_to_set (map fst (List.filter (λ ng, device_valid ng.2) groups)) /\
  messages r.2 =
    messages w ++
    map (λ ng, device_message ng.1 (setup_failure ng.2))
        (List.filter (λ ng, negb (device_valid ng.2)) groups).
Proof.
  intros Hmidi Hd.
  destruct (createDevices_loop d groups l w Hmidi Hd) as (H1 & _ & H2 & H3). auto.
Qed.

(** A round in which a MIDI constructor throws: the handler does not
    catch [RtMidiError], so the exception leaves the round. *)
Lemma createDevices_one_midi_throws {L} (l : L) (w : World) (name : string)
    (g : DeviceGroup) :
  RtMidiIn_ok name && RtMidiOut_ok name = false ->
  createDevices_one name g l w =
  (Throws RtMidiError, l,
   if RtMidiIn_ok name
   then log (EvNewMidi (next w)) (set_next S (set_midis <[next w := None]> w))
   else w).
Proof.
  intros Hbad. unfold_createDevices_one.
  destruct (RtMidiIn_ok name); [|reflexivity].
  destruct (RtMidiOut_ok name); [discriminate Hbad|reflexivity].
Qed.


End CreateDevicesMore.

(** The sample group on the second input and the first output port. *)
Lemma createDevices_one_registers_witness :
  let r := createDevices_one Sample.Dx10Device Studio.inPorts Studio.outPorts
             Sample.midi_ok Sample.midi_ok "DX10" Studio.dx10 tt Sample.world0 in
  (Sample.midi_ok "DX10" = true /\
   Sample.Dx10Device (replicate (Z.to_nat 6180) 0) 6180 = inr (mkStoreData [] ∅ ∅ ∅ ∅) /\
   find_port Studio.inPorts (cfg_InPort Studio.dx10) = Some 1%nat /\
   find_port Studio.outPorts (cfg_OutPort Studio.dx10) = Some 0%nat /\
   cfg_Channel Studio.dx10 = Some 3 /\ 1 <= 3 <= 16 /\
   cfg_Type Studio.dx10 = Some 2 /\ 1 <= 2 <= 2) /\
  m_instrumentStores r.2 =
    {[ "DX10"%string := mkInstStore (Some 3%nat) (Some 0%nat) (Some 1%nat) 3 2 ]} /\
  midis r.2 = <[1%nat := Some 0%nat]> (<[0%nat := Some 1%nat]> ∅) /\
  messages r.2 = [].
Proof.
  intros r.
  assert (H0 : Sample.midi_ok "DX10" = true) by reflexivity.
  assert (H1 : Sample.Dx10Device (replicate (Z.to_nat 6180) 0) 6180 =
               inr (mkStoreData [] ∅ ∅ ∅ ∅)) by reflexivity.
  assert (H2 : find_port Studio.inPorts (cfg_InPort Studio.dx10) = Some 1%nat)
    by (vm_compute; reflexivity).
  assert (H3 : find_port Studio.outPorts (cfg_OutPort Studio.dx10) = Some 0%nat)
    by (vm_compute; reflexivity).
  assert (H4 : cfg_Channel Studio.dx10 = Some 3) by reflexivity.
  assert (H5 : 1 <= 3 <= 16) by lia.
  assert (H6 : cfg_Type Studio.dx10 = Some 2) by reflexivity.
  assert (H7 : 1 <= 2 <= 2) by lia.
  split; [auto 10|].
  destruct (createDevices_one_registers Sample.Dx10Device Studio.inPorts Studio.outPorts
              Sample.midi_ok Sample.midi_ok tt Sample.world0 "DX10" Studio.dx10 _
              1%nat 0%nat 3 2 H0 H0 H1 H2 H3 H4 H5 H6 H7)
    as (_ & R2 & _ & _ & _ & R6 & R7 & _).
  auto.
Defined.

(** The same group with a device constructor that throws. *)
Lemma createDevices_one_constructor_throws_witness :
  let e := ConfigurationException "No device data" in
  let r := createDevices_one Studio.Dx10Device_refuses Studio.inPorts Studio.outPorts
             Sample.midi_ok Sample.midi_ok "DX10" Studio.dx10 tt Sample.world0 in
  (Sample.midi_ok "DX10" = true /\
   Studio.Dx10Device_refuses (replicate (Z.to_nat 6180) 0) 6180 = inl e /\
   isException e = true) /\
  messages r.2 = ["Device 'DX10' could not be created, reason: No device data"%string] /\
  buffers r.2 = {[ 2%nat := replicate (Z.to_nat 6180) 0 ]} /\
  m_instrumentStores r.2 = ∅.
Proof.
  intros e r.
  assert (H0 : Sample.midi_ok "DX10" = true) by reflexivity.
  assert (H1 : Studio.Dx10Device_refuses (replicate (Z.to_nat 6180) 0) 6180 = inl e)
    by reflexivity.
  assert (H2 : isException e = true) by reflexivity.
  split; [auto|].
  destruct (createDevices_one_constructor_throws Studio.Dx10Device_refuses
              Studio.inPorts Studio.outPorts Sample.midi_ok Sample.midi_ok tt
              Sample.world0 "DX10" Studio.dx10 e H0 H0 H1 H2)
    as (_ & R2 & _ & R4 & _ & R6 & _).
  auto.
Defined.

(** Three groups, two of which fail a check. *)
Lemma createDevices_accounts_for_groups_witness :
  let groups := [("A"%string, Studio.unplugged); ("B"%string, Studio.dx10);
                 ("C"%string, Studio.channel_17)] in
  let r := createDevices Sample.Dx10Device Studio.inPorts Studio.outPorts
             Sample.midi_ok Sample.midi_ok groups tt Sample.world0 in
  (Forall (λ ng, Sample.midi_ok ng.1 = true /\ Sample.midi_ok ng.1 = true) groups /\
   Sample.Dx10Device (replicate (Z.to_nat 6180) 0) 6180 = inr (mkStoreData [] ∅ ∅ ∅ ∅)) /\
  r.1 = (Returns tt, tt) /\
  dom (m_instrumentStores r.2) = {[ "B"%string ]} /\
  messages r.2 =
    ["Device 'A' could not be created, reason: MIDI input port not found"%string;
     "Device 'C' could not be created, reason: Invalid value for MIDI channel"%string].
Proof.
  intros groups r.
  assert (H0 : Forall (λ ng, Sample.midi_ok ng.1 = true /\ Sample.midi_ok ng.1 = true) groups)
    by (repeat constructor).
  assert (H1 : Sample.Dx10Device (replicate (Z.to_nat 6180) 0) 6180 =
               inr (mkStoreData [] ∅ ∅ ∅ ∅)) by reflexivity.
  split; [auto|].
  destruct (createDevices_accounts_for_groups Sample.Dx10Device Studio.inPorts
              Studio.outPorts Sample.midi_ok Sample.midi_ok _ groups tt Sample.world0 H0 H1)
    as (R1 & R2 & R3).
  split; [exact R1|]. split.
  - etrans; [exact R2|]. vm_compute. reflexivity.
  - etrans; [exact R3|]. vm_compute. reflexivity.
Defined.


(** ** The write transaction, continued *)

Section WriteDeviceMore.

Variable store : InstStore.
Variable a : addr.
Variable s : InstrumentStore.
Hypothesis store_at : m_store store = Some a.

Lemma sent_write_trace :
  sent (write_trace a s store) =
  let offset := icb_offset 0 (icbs (contents s)) in
  let type := m_type store in
  map (λ i, MsgIcb type i.1 i.2) (icbs (contents s)) ++
  block_messages s KVcf type (map (vcf_address offset) (seqZ 0 10)) ++
  block_messages s KAmpl type (map (block_address offset) (seqZ 0 20)) ++
  block_messages s KFreq type (map (block_address offset) (seqZ 0 20)) ++
  block_messages s KWave type (map (block_address offset) (seqZ 0 20)).
Proof.
  unfold write_trace. rewrite !sent_app, sent_icbs.
  rewrite !(sent_probes store a s). reflexivity.
Qed.

Lemma elem_of_block_messages (kind kind' : BlockKind) (type type' address : Z)
    (b : Block) (addresses : list Z) :
  MsgBlock kind' type' address b ∈ block_messages s kind type addresses ->
  kind' = kind /\ type' = type /\ address ∈ addresses /\ get_block s kind address = Some b.
Proof.
  unfold block_messages. rewrite list_elem_of_omap. intros (x & Hx & Hm).
  destruct (get_block s kind x) as [b'|] eqn:Hb; [|discriminate].
  cbn in Hm. injection Hm as <- <- <- <-. auto.
Qed.



(** X8: no amplitude, frequency or waveform block is written for the
    address [10 + offset] (as an 8-bit value), whatever the store holds
    there: the three loops step over it. *)
Theorem writeDevice_leaves_out_block {L} (l : L) (w : World) (kind : BlockKind) :
  stores w !! a = Some s ->
  kind <> KVcf ->
  let offset := (writeDevice_icbs store 0 w).1.2 in
  exists evs,
    writeDevice store l w = (Returns tt, l, add_trace evs w) /\
    forall type b', MsgBlock kind type (Cxx.uint8 (10 + offset)) b' ∉ sent evs.
Proof.
  intros Hs Hk offset. subst offset.
  rewrite (writeDevice_icbs_run store a s store_at 0 w Hs). cbn [fst snd].
  exists (write_trace a s store).
  split; [apply (writeDevice_run store a s store_at l w Hs)|].
  intros type b' Hin. rewrite sent_write_trace in Hin. cbn zeta in Hin.
  pose proof (block_addresses_skip (icb_offset 0 (icbs (contents s)))) as Hskip.
  rewrite !elem_of_app in Hin.
  destruct Hin as [Hin | [Hin | [Hin | [Hin | Hin]]]].
  - apply list_elem_of_In, in_map_iff in Hin as (i & Hi & _). discriminate Hi.
  - apply elem_of_block_messages in Hin as (-> & _). contradiction.
  - apply elem_of_block_messages in Hin as (_ & _ & Ha & _). contradiction.
  - apply elem_of_block_messages in Hin as (_ & _ & Ha & _). contradiction.
  - apply elem_of_block_messages in Hin as (_ & _ & Ha & _). contradiction.
Qed.

(** X9: for a store whose first ICB in iteration order sits at a slot
    [k] from 2 to 236, the offset is [k - 1]: the filter loop asks for
    the addresses [k - 1] to [k + 8], the other three loops for those
    and for [k + 10] to [k + 19]. *)
Theorem writeDevice_first_slot {L} (l : L) (w : World)
    (k : Z) (icb : Icb) (rest : list (Z * Icb)) :
  stores w !! a = Some s ->
  icbs (contents s) = (k, icb) :: rest ->
  2 <= k <= 236 ->
  exists evs,
    writeDevice store l w = (Returns tt, l, add_trace evs w) /\
    probed KVcf evs = map (λ i, k - 1 + i) (seqZ 0 10) /\
    forall kind, kind <> KVcf ->
      probed kind evs =
        map (λ i, k - 1 + i) (seqZ 0 10) ++ map (λ i, k + i) (seqZ 10 10).
Proof.
  intros Hs Hicbs Hk. exists (write_trace a s store).
  split; [apply (writeDevice_run store a s store_at l w Hs)|].
  assert (Hoff : icb_offset 0 (icbs (contents s)) = k - 1).
  { rewrite Hicbs. apply icb_offset_first. lia. }
  split.
  - rewrite (probed_write_trace store a s KVcf). cbn zeta. rewrite Hoff.
    rewrite vcf_addresses_plain by lia.
    apply map_ext. intros i. lia.
  - intros kind Hkind. rewrite (probed_write_trace store a s kind). cbn zeta. rewrite Hoff.
    destruct kind; [contradiction|..];
      rewrite block_addresses_plain by lia;
      (f_equal; apply map_ext; intros i; lia).
Qed.

End WriteDeviceMore.


(** With the offset 65 of the sample store, the address stepped over
    is 75. *)
Lemma writeDevice_leaves_out_block_witness :
  let w := Sample.stored Sample.bank in
  let s := mkInstrumentStore Sample.bank 0%nat in
  (m_store Sample.device = Some 1%nat /\ stores w !! 1%nat = Some s /\ KAmpl <> KVcf) /\
  exists evs,
    writeDevice Sample.device tt w = (Returns tt, tt, add_trace evs w) /\
    forall type b', MsgBlock KAmpl type 75 b' ∉ sent evs.
Proof.
  intros w s.
  assert (H1 : m_store Sample.device = Some 1%nat) by reflexivity.
  assert (H2 : stores w !! 1%nat = Some s) by (vm_compute; reflexivity).
  assert (H3 : KAmpl <> KVcf) by discriminate.
  split; [auto|].
  exact (writeDevice_leaves_out_block Sample.device 1%nat s H1 tt w KAmpl H2 H3).
Defined.

(** The first ICB of the sample store sits at slot 66. *)
Lemma writeDevice_first_slot_witness :
  let w := Sample.stored Sample.bank in
  let s := mkInstrumentStore Sample.bank 0%nat in
  (m_store Sample.device = Some 1%nat /\ stores w !! 1%nat = Some s /\
   icbs (contents s) = [(66, Sample.piano); (67, Sample.organ)] /\ 2 <= 66 <= 236) /\
  exists evs,
    writeDevice Sample.device tt w = (Returns tt, tt, add_trace evs w) /\
    probed KVcf evs = [65; 66; 67; 68; 69; 70; 71; 72; 73; 74].
Proof.
  intros w s.
  assert (H1 : m_store Sample.device = Some 1%nat) by reflexivity.
  assert (H2 : stores w !! 1%nat = Some s) by (vm_compute; reflexivity).
  assert (H3 : icbs (contents s) = [(66, Sample.piano); (67, Sample.organ)]) by reflexivity.
  assert (H4 : 2 <= 66 <= 236) by lia.
  split; [auto|].
  destruct (writeDevice_first_slot Sample.device 1%nat s H1 tt w 66 _ _ H2 H3 H4)
    as (evs & R1 & R2 & _).
  exists evs. split; [exact R1|]. exact R2.
Defined.

(** ** Destroying the main frame *)

Lemma removed_nil {V} (m : gmap addr V) : removed [] m m.
Proof. intros a. rewrite decide_False; [reflexivity|]. apply not_elem_of_nil. Qed.

Lemma removed_app {V} (ks1 ks2 : list addr) (m1 m2 m3 : gmap addr V) :
  removed ks1 m1 m2 -> removed ks2 m2 m3 -> removed (ks1 ++ ks2) m1 m3.
Proof.
  intros H1 H2 a. rewrite H2, H1.
  destruct (decide (a ∈ ks1)), (decide (a ∈ ks2)), (decide (a ∈ ks1 ++ ks2)) as [|Hn];
    try reflexivity; exfalso; try (apply Hn; apply elem_of_app; auto);
    match goal with H : _ ∈ _ ++ _ |- _ => apply elem_of_app in H as [|]; auto end.
Qed.

Lemma removed_one {V} (k : addr) (m : gmap addr V) : removed [k] m (delete k m).
Proof.
  intros a. rewrite lookup_delete.
  destruct (decide (k = a)) as [->|Hne].
  - rewrite decide_True; [reflexivity|]. apply list_elem_of_singleton. reflexivity.
  - rewrite decide_False; [reflexivity|]. rewrite list_elem_of_singleton. congruence.
Qed.

(** One round of the destructor's loop, for an entry whose objects are
    live and distinct. *)
Lemma destroy_entry_run {L} (i : string * InstStore) (l : L) (w : World) :
  Forall (λ a, is_Some (stores w !! a)) (entry_stores i.2) ->
  Forall (λ b, is_Some (buffers w !! b)) (entry_buffers w i.2) ->
  NoDup (entry_midis i.2) ->
  Forall (λ m, is_Some (midis w !! m)) (entry_midis i.2) ->
  exists w',
    destroy_entry i l w = (Returns tt, l, w') /\
    removed (entry_stores i.2) (stores w) (stores w') /\
    removed (entry_buffers w i.2) (buffers w) (buffers w') /\
    removed (entry_midis i.2) (midis w) (midis w') /\
    m_instrumentStores w' = m_instrumentStores w /\
    next w' = next w.
Proof.
  destruct i as [name [st mi mo ch ty]].
  unfold entry_stores, entry_buffers, entry_midis, destroy_entry. cbn [snd m_store m_midiIn m_midiOut m_type].
  intros Hs Hb Hnd Hm.
  assert (Hstore : exists w1,
    (match st with
     | Some st0 =>
         let* buffer := store_getBuffer st0 in
         delete_live_store st0 ;; delete_live_array buffer
     | None => ret tt
     end) l w = (Returns tt, l, w1) /\
    removed (option_list st) (stores w) (stores w1) /\
    removed (match st with
             | Some a => match stores w !! a with Some s => [getBuffer s] | None => [] end
             | None => []
             end) (buffers w) (buffers w1) /\
    midis w1 = midis w /\ m_instrumentStores w1 = m_instrumentStores w /\ next w1 = next w).
  { destruct st as [a|]; cbn in *.
    - apply Forall_cons in Hs as [[s Hs] _]. rewrite Hs in Hb |- *.
      apply Forall_cons in Hb as [[bytes Hb] _].
      unfold delete_live_store, delete_live_array. run. rewrite Hs. cbn. rewrite Hs. cbn.
      rewrite Hb. cbn. eexists. split; [reflexivity|]. cbn.
      split; [apply removed_one|]. split; [apply removed_one|]. auto.
    - exists w. split; [reflexivity|]. split; [apply removed_nil|].
      split; [apply removed_nil|]. auto. }
  destruct Hstore as (w1 & Hrun & Hrs & Hrb & Hmid & Hcoll & Hnext).
  rewrite (bind_returns _ _ _ _ _ _ _ Hrun).
  destruct (ty =? 0); cbn [negb].
  - exists w1. split; [reflexivity|]. rewrite Hmid. repeat split; auto; try apply removed_nil.
  - rewrite <- Hmid in Hm |- *. clear Hrun Hmid.
    unfold RtMidi_closePort, delete_live_midi.
    destruct mi as [m1|], mo as [m2|]; cbn in Hm, Hnd |- *.
    + apply Forall_cons in Hm as [[p1 H1] Hm]. apply Forall_cons in Hm as [[p2 H2] _].
      apply NoDup_cons in Hnd as [Hne _]. rewrite list_elem_of_singleton in Hne.
      run. rewrite H1. cbn. rewrite lookup_insert_eq. cbn.
      rewrite lookup_delete_ne, lookup_insert_ne, H2 by congruence. cbn.
      rewrite lookup_insert_eq. cbn.
      eexists. split; [reflexivity|]. cbn. repeat split; auto.
      rewrite !delete_insert_eq.
      apply (removed_app [m1] [m2] _ (delete m1 (midis w1))); apply removed_one.
    + apply Forall_cons in Hm as [[p1 H1] _].
      run. rewrite H1. cbn. rewrite lookup_insert_eq. cbn.
      eexists. split; [reflexivity|]. cbn. repeat split; auto.
      rewrite delete_insert_eq. apply removed_one.
    + apply Forall_cons in Hm as [[p2 H2] _].
      run. rewrite H2. cbn. rewrite lookup_insert_eq. cbn.
      eexists. split; [reflexivity|]. cbn. repeat split; auto.
      rewrite delete_insert_eq. apply removed_one.
    + run. exists w1. split; [reflexivity|]. repeat split; auto; try apply removed_nil.
Qed.

Lemma removed_keeps {V} (ks : list addr) (m m' : gmap addr V) (a : addr) :
  removed ks m m' -> a ∉ ks -> m' !! a = m !! a.
Proof. intros H Ha. rewrite H. rewrite decide_False by exact Ha. reflexivity. Qed.

Lemma entry_buffers_agree (w w1 : World) (xs : list InstStore) :
  (forall a, a ∈ flat_map entry_stores xs -> stores w1 !! a = stores w !! a) ->
  flat_map (entry_buffers w1) xs = flat_map (entry_buffers w) xs.
Proof.
  induction xs as [|x xs IH]; intros H; [reflexivity|].
  cbn [flat_map]. rewrite IH.
  - f_equal. unfold entry_buffers. destruct (m_store x) as [a|] eqn:Hx; [|reflexivity].
    rewrite H; [reflexivity|]. cbn [flat_map]. apply elem_of_app. left.
    unfold entry_stores. rewrite Hx. cbn. apply list_elem_of_singleton. reflexivity.
  - intros a Ha. apply H. cbn [flat_map]. apply elem_of_app. right. exact Ha.
Qed.

Lemma Forall_live_removed {V} (ks rest : list addr) (m m' : gmap addr V) :
  removed ks m m' ->
  NoDup (ks ++ rest) ->
  Forall (λ a, is_Some (m !! a)) rest ->
  Forall (λ a, is_Some (m' !! a)) rest.
Proof.
  intros Hr Hnd Hlive. apply NoDup_app in Hnd as (_ & Hdisj & _).
  rewrite Forall_forall in Hlive |- *. intros a Ha.
  rewrite (removed_keeps ks m m' a Hr); [auto|].
  intros Hin. exact (Hdisj a Hin Ha).
Qed.

(** The destructor's loop over entries that own live, distinct objects. *)
Lemma destroy_loop {L} (es : list (string * InstStore)) (l : L) :
  forall w : World,
  owned w es.*2 ->
  exists w',
    for_each es destroy_entry l w = (Returns tt, l, w') /\
    removed (flat_map entry_stores es.*2) (stores w) (stores w') /\
    removed (flat_map (entry_buffers w) es.*2) (buffers w) (buffers w') /\
    removed (flat_map entry_midis es.*2) (midis w) (midis w') /\
    m_instrumentStores w' = m_instrumentStores w /\
    next w' = next w.
Proof.
  induction es as [|e es IH]; intros w Hown.
  - exists w. cbn. repeat split; auto; apply removed_nil.
  - destruct Hown as (Hs1 & Hs2 & Hb1 & Hb2 & Hm1 & Hm2).
    cbn [fmap list_fmap flat_map] in *.
    apply Forall_app in Hs2 as [Hs2e Hs2r]. apply Forall_app in Hb2 as [Hb2e Hb2r].
    apply Forall_app in Hm2 as [Hm2e Hm2r].
    destruct (destroy_entry_run e l w Hs2e Hb2e) as (w1 & Hrun & Hrs & Hrb & Hrm & Hc1 & Hn1);
      [apply NoDup_app in Hm1 as (? & _); assumption | assumption |].
    assert (Hagree : flat_map (entry_buffers w1) es.*2 = flat_map (entry_buffers w) es.*2).
    { apply entry_buffers_agree. intros a Ha.
      apply (removed_keeps _ _ _ _ Hrs). apply NoDup_app in Hs1 as (_ & Hdisj & _).
      intros Hin. exact (Hdisj a Hin Ha). }
    destruct (IH w1) as (w' & Hloop & Hrs' & Hrb' & Hrm' & Hc' & Hn').
    { unfold owned. rewrite Hagree.
      split; [apply NoDup_app in Hs1 as (_ & _ & ?); assumption|].
      split; [apply (Forall_live_removed _ _ _ _ Hrs Hs1 Hs2r)|].
      split; [apply NoDup_app in Hb1 as (_ & _ & ?); assumption|].
      split; [apply (Forall_live_removed _ _ _ _ Hrb Hb1 Hb2r)|].
      split; [apply NoDup_app in Hm1 as (_ & _ & ?); assumption|].
      apply (Forall_live_removed _ _ _ _ Hrm Hm1 Hm2r). }
    exists w'. cbn [for_each]. rewrite (bind_returns _ _ _ _ _ _ _ Hrun).
    split; [exact Hloop|]. rewrite Hagree in Hrb'.
    split; [exact (removed_app _ _ _ _ _ Hrs Hrs')|].
    split; [exact (removed_app _ _ _ _ _ Hrb Hrb')|].
    split; [exact (removed_app _ _ _ _ _ Hrm Hrm')|].
    split; congruence.
Qed.

Lemma in_key_order_Permutation {V} (m : gmap string V) :
  in_key_order m ≡ₚ map_to_list m.
Proof. apply merge_sort_Permutation. Qed.

Lemma elem_of_in_key_order {V} (m : gmap string V) (k : string) (v : V) :
  (k, v) ∈ in_key_order m <-> m !! k = Some v.
Proof. rewrite in_key_order_Permutation. apply elem_of_map_to_list. Qed.

Lemma in_key_order_keys {V} (m : gmap string V) (k : string) :
  k ∈ (in_key_order m).*1 <-> is_Some (m !! k).
Proof.
  rewrite list_elem_of_fmap. split.
  - intros ([k' v] & -> & Hin). apply elem_of_in_key_order in Hin. eauto.
  - intros [v Hv]. exists (k, v). split; [reflexivity|]. apply elem_of_in_key_order. exact Hv.
Qed.

Lemma owned_Permutation (w : World) (xs ys : list InstStore) :
  xs ≡ₚ ys -> owned w xs -> owned w ys.
Proof.
  intros Hp (H1 & H2 & H3 & H4 & H5 & H6).
  pose proof (Permutation_flat_map entry_stores Hp) as P1.
  pose proof (Permutation_flat_map (entry_buffers w) Hp) as P2.
  pose proof (Permutation_flat_map entry_midis Hp) as P3.
  unfold owned. rewrite <- P1, <- P2, <- P3. auto 10.
Qed.

(** X10: in a tidy world, where the live stores, buffers and MIDI
    objects are exactly those the collection's entries refer to, each
    once, the destructor deletes every one of them, dereferences no dead
    pointer and deletes nothing twice: it returns with all three heaps
    empty. *)
Theorem destroy_MainFrame_frees_everything {L} (l : L) (w : World) :
  tidy w ->
  exists w',
    destroy_MainFrame l w = (Returns tt, l, w') /\
    stores w' = ∅ /\ buffers w' = ∅ /\ midis w' = ∅.
Proof.
  intros (_ & Hown & Hs & Hb & Hm). unfold entries_of in *.
  assert (Hp : (in_key_order (m_instrumentStores w)).*2 ≡ₚ
               (map_to_list (m_instrumentStores w)).*2).
  { apply fmap_Permutation, in_key_order_Permutation. }
  destruct (destroy_loop (in_key_order (m_instrumentStores w)) l w) as
    (w' & Hrun & Hrs & Hrb & Hrm & _).
  { apply (owned_Permutation w _ _ (symmetry Hp)). exact Hown. }
  exists w'. split; [exact Hrun|].
  pose proof (Permutation_flat_map entry_stores Hp) as P1.
  pose proof (Permutation_flat_map (entry_buffers w) Hp) as P2.
  pose proof (Permutation_flat_map entry_midis Hp) as P3.
  repeat split; apply map_eq; intros a; rewrite lookup_empty.
  - rewrite Hrs. case_decide as Hin; [reflexivity|].
    destruct (stores w !! a) eqn:Ha; [|reflexivity].
    exfalso. apply Hin. rewrite P1. apply Hs. eauto.
  - rewrite Hrb. case_decide as Hin; [reflexivity|].
    destruct (buffers w !! a) eqn:Ha; [|reflexivity].
    exfalso. apply Hin. rewrite P2. apply Hb. eauto.
  - rewrite Hrm. case_decide as Hin; [reflexivity|].
    destruct (midis w !! a) eqn:Ha; [|reflexivity].
    exfalso. apply Hin. rewrite P3. apply Hm. eauto.
Qed.

(** ** Keeping the heap tidy *)

Lemma added_nil {V} (m : gmap addr V) : added [] m m.
Proof.
  split; [|reflexivity]. intros a Ha. apply elem_of_nil in Ha. contradiction.
Qed.

Lemma nothing_else_Permutation (w : World) (xs ys : list InstStore) :
  xs ≡ₚ ys -> nothing_else w xs -> nothing_else w ys.
Proof.
  intros Hp (H1 & H2 & H3).
  pose proof (Permutation_flat_map entry_stores Hp) as P1.
  pose proof (Permutation_flat_map (entry_buffers w) Hp) as P2.
  pose proof (Permutation_flat_map entry_midis Hp) as P3.
  unfold nothing_else. split; [|split]; intros a Ha.
  - rewrite <- P1. auto.
  - rewrite <- P2. auto.
  - rewrite <- P3. auto.
Qed.

Lemma NoDup_added {V} (ks rest : list addr) (m m' : gmap addr V) :
  added ks m m' -> NoDup ks -> NoDup rest ->
  Forall (λ a, is_Some (m !! a)) rest ->
  NoDup (ks ++ rest) /\ Forall (λ a, is_Some (m' !! a)) (ks ++ rest).
Proof.
  intros [Hnew Hold] Hk Hr Hlive. rewrite Forall_forall in Hlive.
  assert (Hdisj : forall a, a ∈ ks -> a ∉ rest).
  { intros a Ha Hin. destruct (Hnew a Ha) as [Hnone _].
    destruct (Hlive a Hin) as [x Hx]. congruence. }
  split.
  - apply NoDup_app. auto.
  - apply Forall_app. split; apply Forall_forall; intros a Ha.
    + apply Hnew. exact Ha.
    + rewrite Hold; [auto|]. intros Hin. exact (Hdisj a Hin Ha).
Qed.

(** A new entry whose objects are all freshly made keeps ownership in
    order. *)
Lemma owned_add (w w' : World) (x : InstStore) (es : list InstStore) :
  owned w es ->
  added (entry_stores x) (stores w) (stores w') ->
  added (entry_buffers w' x) (buffers w) (buffers w') ->
  added (entry_midis x) (midis w) (midis w') ->
  NoDup (entry_stores x) -> NoDup (entry_buffers w' x) -> NoDup (entry_midis x) ->
  owned w' (x :: es).
Proof.
  intros (H1 & H2 & H3 & H4 & H5 & H6) As Ab Am Ns Nb Nm.
  assert (Hagree : flat_map (entry_buffers w') es = flat_map (entry_buffers w) es).
  { apply entry_buffers_agree. intros a Ha. apply As. intros Hin.
    destruct As as [Hnew _]. destruct (Hnew a Hin) as [Hnone _].
    rewrite Forall_forall in H2. destruct (H2 a Ha) as [v Hv]. congruence. }
  unfold owned. cbn [flat_map]. rewrite Hagree.
  destruct (NoDup_added _ _ _ _ As Ns H1 H2).
  destruct (NoDup_added _ _ _ _ Ab Nb H3 H4).
  destruct (NoDup_added _ _ _ _ Am Nm H5 H6).
  auto 10.
Qed.

Lemma nothing_else_add (w w' : World) (x : InstStore) (es : list InstStore) :
  owned w es ->
  nothing_else w es ->
  added (entry_stores x) (stores w) (stores w') ->
  added (entry_buffers w' x) (buffers w) (buffers w') ->
  added (entry_midis x) (midis w) (midis w') ->
  nothing_else w' (x :: es).
Proof.
  intros (_ & H2 & _) (N1 & N2 & N3) As Ab Am.
  assert (Hagree : flat_map (entry_buffers w') es = flat_map (entry_buffers w) es).
  { apply entry_buffers_agree. intros a Ha. apply As. intros Hin.
    destruct As as [Hnew _]. destruct (Hnew a Hin) as [Hnone _].
    rewrite Forall_forall in H2. destruct (H2 a Ha) as [v Hv]. congruence. }
  unfold nothing_else. cbn [flat_map]. rewrite Hagree.
  split; [|split]; intros a Ha; apply elem_of_app.
  - destruct (decide (a ∈ entry_stores x)); [auto|].
    right. apply N1. destruct As as [_ Hold]. rewrite <- Hold; assumption.
  - destruct (decide (a ∈ entry_buffers w' x)); [auto|].
    right. apply N2. destruct Ab as [_ Hold]. rewrite <- Hold; assumption.
  - destruct (decide (a ∈ entry_midis x)); [auto|].
    right. apply N3. destruct Am as [_ Hold]. rewrite <- Hold; assumption.
Qed.

(** Ownership only looks at the three heaps. *)
Lemma owned_ext (w w' : World) (es : list InstStore) :
  stores w' = stores w -> buffers w' = buffers w -> midis w' = midis w ->
  owned w es -> owned w' es.
Proof.
  intros Hs Hb Hm. unfold owned.
  assert (Hagree : flat_map (entry_buffers w') es = flat_map (entry_buffers w) es).
  { apply entry_buffers_agree. intros a _. rewrite Hs. reflexivity. }
  rewrite Hagree, Hs, Hb, Hm. auto.
Qed.

Lemma nothing_else_ext (w w' : World) (es : list InstStore) :
  stores w' = stores w -> buffers w' = buffers w -> midis w' = midis w ->
  nothing_else w es -> nothing_else w' es.
Proof.
  intros Hs Hb Hm. unfold nothing_else.
  assert (Hagree : flat_map (entry_buffers w') es = flat_map (entry_buffers w) es).
  { apply entry_buffers_agree. intros a _. rewrite Hs. reflexivity. }
  rewrite Hagree, Hs, Hb, Hm. auto.
Qed.

(** A step that leaves heaps and collection alone and only moves [next]
    up keeps the world tidy. *)
Lemma tidy_ext (w w' : World) :
  stores w' = stores w -> buffers w' = buffers w -> midis w' = midis w ->
  m_instrumentStores w' = m_instrumentStores w ->
  (next w <= next w')%nat ->
  tidy w -> tidy w'.
Proof.
  intros Hs Hb Hm Hc Hn (Hf & Ho & Hne). unfold tidy, entries_of. rewrite Hc.
  split; [|split].
  - intros a Ha. rewrite Hs, Hb, Hm. apply Hf. lia.
  - exact (owned_ext w w' _ Hs Hb Hm Ho).
  - exact (nothing_else_ext w w' _ Hs Hb Hm Hne).
Qed.

(** A step that enters one new entry with freshly made objects keeps the
    world tidy. *)
Lemma tidy_add (w w' : World) (name : string) (x : InstStore) :
  tidy w ->
  m_instrumentStores w !! name = None ->
  m_instrumentStores w' = <[name := x]> (m_instrumentStores w) ->
  added (entry_stores x) (stores w) (stores w') ->
  added (entry_buffers w' x) (buffers w) (buffers w') ->
  added (entry_midis x) (midis w) (midis w') ->
  NoDup (entry_stores x) -> NoDup (entry_buffers w' x) -> NoDup (entry_midis x) ->
  (forall a, (next w' <= a)%nat ->
     (a ∉ entry_stores x) /\ (a ∉ entry_buffers w' x) /\ (a ∉ entry_midis x)) ->
  (next w <= next w')%nat ->
  tidy w'.
Proof.
  intros (Hf & Ho & Hne) Hfree Hc As Ab Am Ns Nb Nm Hbelow Hn.
  unfold tidy, entries_of in *. rewrite Hc.
  assert (Hp : x :: (map_to_list (m_instrumentStores w)).*2 ≡ₚ
               (map_to_list (<[name := x]> (m_instrumentStores w))).*2).
  { rewrite (map_to_list_insert _ _ _ Hfree). reflexivity. }
  split; [|split].
  - intros a Ha. destruct (Hbelow a Ha) as (B1 & B2 & B3).
    destruct As as [_ Hs], Ab as [_ Hb], Am as [_ Hm].
    rewrite Hs, Hb, Hm by assumption. apply Hf. lia.
  - apply (owned_Permutation w' _ _ Hp). apply (owned_add w w'); assumption.
  - apply (nothing_else_Permutation w' _ _ Hp). apply (nothing_else_add w w'); assumption.
Qed.
(** A session that has loaded and allocated nothing is tidy. *)
Lemma tidy_empty (w : World) :
  m_instrumentStores w = ∅ -> stores w = ∅ -> buffers w = ∅ -> midis w = ∅ ->
  tidy w.
Proof.
  intros Hc Hs Hb Hm. unfold tidy, entries_of, heap_fresh, owned, nothing_else.
  rewrite Hc, Hs, Hb, Hm, map_to_list_empty. cbn.
  repeat split; try apply NoDup_nil_2; try apply Forall_nil_2;
    try (intros a [x Hx]; rewrite lookup_empty in Hx; discriminate Hx);
    apply lookup_empty.
Qed.

Lemma added_insert {V} (k : addr) (v : V) (m : gmap addr V) :
  m !! k = None -> added [k] m (<[k := v]> m).
Proof.
  intros Hk. split; intros a Ha.
  - apply list_elem_of_singleton in Ha as ->. rewrite lookup_insert_eq. eauto.
  - rewrite list_elem_of_singleton in Ha. rewrite lookup_insert_ne by congruence. reflexivity.
Qed.

Section TidyCartridge.

Variable Mk1Cartridge : list Z -> Exception + StoreData.
Variable Dx10Cartridge : list Z -> Z -> Exception + StoreData.

Abbreviation readCartridgeFile := (readCartridgeFile Mk1Cartridge Dx10Cartridge).

Lemma readCartridgeFile_next {L} (l : L) (w : World) (filePath cartName : string) :
  let r := readCartridgeFile filePath cartName l w in
  r.1.1 = Returns tt -> next r.2 = S (S (next w)).
Proof.
  cbn zeta. run_rcf.
  destruct (files w !! filePath) as [f|]; cbn; [|discriminate].
  destruct (negb (file_length f =? 8192) && negb (file_length f =? 16384)); cbn;
    [discriminate|].
  destruct (file_stream_ok f); cbn; [|discriminate].
  rewrite lookup_insert_eq. cbn.
  destruct (Z.of_nat (length (take (Z.to_nat (file_length f)) (file_bytes f))) =? file_length f);
    cbn; [|discriminate].
  rewrite lookup_insert_eq. cbn.
  destruct (Mk1Cartridge _) as [e1|d1]; cbn.
  - destruct (isDataFormat e1); cbn; [|discriminate].
    rewrite lookup_insert_eq. cbn.
    destruct (Dx10Cartridge _ _) as [e2|d2]; cbn.
    + destruct (isDataFormat e2); cbn; discriminate.
    + erewrite (append_instruments_run _ _ (S (next w)));
        [ | reflexivity | cbn; apply lookup_insert_eq ].
      cbn. reflexivity.
  - erewrite (append_instruments_run _ _ (S (next w)));
      [ | reflexivity | cbn; apply lookup_insert_eq ].
    cbn. reflexivity.
Qed.

(** Loading a cartridge and the tidy heap. *)
Lemma readCartridgeFile_tidy {L} (l : L) (w : World) (filePath cartName : string) :
  tidy w ->
  let r := readCartridgeFile filePath cartName l w in
  m_instrumentStores w !! cartName = None \/ r.1.1 <> Returns tt ->
  tidy r.2.
Proof.
  intros Ht r Hname. subst r.
  destruct (readCartridgeFile_cases Mk1Cartridge Dx10Cartridge l w filePath cartName)
    as (_ & _ & Hcases).
  destruct (readCartridgeFile_frame Mk1Cartridge Dx10Cartridge l w filePath cartName)
    as (_ & Hmid & _ & _ & Hnext).
  pose proof (readCartridgeFile_next l w filePath cartName) as Hnext2.
  cbn zeta in *.
  destruct Ht as (Hf & Ho & Hne).
  destruct (Hf (next w) (le_n _)) as (Fb & _ & _).
  destruct (Hf (S (next w)) (le_S _ _ (le_n _))) as (_ & Fs & _).
  destruct Hcases as [[Hsame _] | [(f & e & att & _ & Hrej) | (f & d & att & _ & Hload)]].
  - rewrite Hsame. exact (conj Hf (conj Ho Hne)).
  - destruct Hrej as (_ & Hc & _ & Hs & Hb & _). cbn [fst snd] in *.
    apply (tidy_ext w); auto.
    + rewrite Hb. apply delete_id. exact Fb.
    + exact (conj Hf (conj Ho Hne)).
  - destruct Hload as (Hret & Hs & Hb & Hc & _). cbn [fst snd] in *.
    destruct Hname as [Hfree | Hnot]; [|contradiction].
    specialize (Hnext2 Hret).
    unfold map_insert_new in Hc. rewrite Hfree in Hc.
    assert (Hbuf : entry_buffers
              (readCartridgeFile filePath cartName l w).2
              (mkInstStore (Some (S (next w))) None None 0 0) = [next w]).
    { unfold entry_buffers. cbn. rewrite Hs, lookup_insert_eq. reflexivity. }
    apply (tidy_add w _ cartName (mkInstStore (Some (S (next w))) None None 0 0));
      try assumption.
    + exact (conj Hf (conj Ho Hne)).
    + cbn. rewrite Hs. apply added_insert. exact Fs.
    + rewrite Hbuf, Hb. apply added_insert. exact Fb.
    + cbn. rewrite Hmid. apply added_nil.
    + cbn. apply NoDup_singleton.
    + rewrite Hbuf. apply NoDup_singleton.
    + cbn. apply NoDup_nil_2.
    + intros a Ha. rewrite Hbuf. cbn. rewrite Hnext2 in Ha.
      rewrite !list_elem_of_singleton. repeat split; try lia. apply not_elem_of_nil.
Qed.

(** X11: loading a cartridge keeps the heap tidy, whether the call
    returns or throws, as long as a call that returns was given a name
    the collection did not have. *)
Theorem readCartridgeFile_keeps_tidy {L} (l : L) (w : World) (filePath cartName : string) :
  tidy w ->
  let r := readCartridgeFile filePath cartName l w in
  m_instrumentStores w !! cartName = None \/ r.1.1 <> Returns tt ->
  tidy r.2.
Proof. apply readCartridgeFile_tidy. Qed.

End TidyCartridge.

Section TidyDevices.

Variable Dx10Device : list Z -> Z -> Exception + StoreData.
Variable inPorts outPorts : list string.
Variable RtMidiIn_ok RtMidiOut_ok : string -> bool.

Abbreviation createDevices_one :=
  (createDevices_one Dx10Device inPorts outPorts RtMidiIn_ok RtMidiOut_ok).

(** A round of [createDevices] and the tidy heap. *)
Lemma createDevices_one_tidy {L} (l : L) (w : World) (name : string)
    (g : DeviceGroup) (d : StoreData) :
  tidy w ->
  RtMidiIn_ok name = false \/ RtMidiOut_ok name = true ->
  Dx10Device (replicate (Z.to_nat 6180) 0) 6180 = inr d ->
  m_instrumentStores w !! name = None \/ device_valid inPorts outPorts g = false ->
  tidy (createDevices_one name g l w).2.
Proof.
  intros Ht Hmidi Hd Hname.
  destruct (RtMidiIn_ok name) eqn:Hmi.
  2:{ rewrite (createDevices_one_midi_throws Dx10Device inPorts outPorts RtMidiIn_ok
                 RtMidiOut_ok l w name g) by (rewrite Hmi; reflexivity).
      rewrite Hmi. exact Ht. }
  assert (Hmo : RtMidiOut_ok name = true) by (destruct Hmidi; [discriminate|assumption]).
  pose proof Ht as (Hf & Ho & Hne).
  destruct (Hf (next w) (le_n _)) as (_ & _ & Fm0).
  destruct (Hf (S (next w)) ltac:(lia)) as (_ & _ & Fm1).
  destruct (Hf (S (S (next w))) ltac:(lia)) as (Fb & _ & _).
  destruct (Hf (S (S (S (next w)))) ltac:(lia)) as (_ & Fs & _).
  destruct (device_valid inPorts outPorts g) eqn:Hv.
  - destruct Hname as [Hfree|]; [|discriminate].
    destruct (device_valid_true inPorts outPorts g Hv)
      as (i & o & c & t & Hi & Ho' & Hc & Hcr & Htt & Htr).
    destruct (createDevices_one_valid_run Dx10Device inPorts outPorts RtMidiIn_ok
                RtMidiOut_ok l w name g d i o c t Hmi Hmo Hd Hi Ho' Hc Hcr Htt Htr) as (_ & Hcoll & _ & Hs & Hb & Hm & _ & Hn).
    cbn zeta in *. unfold map_insert_new in Hcoll. rewrite Hfree in Hcoll.
    set (ist := mkInstStore (Some (S (S (S (next w))))) (Some (next w)) (Some (S (next w))) c t)
      in *.
    assert (Hbuf : entry_buffers (createDevices_one name g l w).2 ist = [S (S (next w))]).
    { unfold entry_buffers. cbn. rewrite Hs, lookup_insert_eq. reflexivity. }
    assert (Hmid : entry_midis ist = [next w; S (next w)]).
    { unfold entry_midis. cbn. destruct (Z.eqb_spec t 0); [lia|reflexivity]. }
    apply (tidy_add w _ name ist); try assumption.
    + cbn. rewrite Hs. apply added_insert. exact Fs.
    + rewrite Hbuf, Hb. apply added_insert. exact Fb.
    + rewrite Hmid, Hm. split; intros a Ha.
      * apply elem_of_cons in Ha as [-> | Ha];
          [|apply list_elem_of_singleton in Ha as ->].
        -- split; [exact Fm0|]. rewrite lookup_insert_ne, lookup_insert_eq by lia. eauto.
        -- split; [exact Fm1|]. rewrite lookup_insert_eq. eauto.
      * rewrite !not_elem_of_cons in Ha.
        destruct Ha as (Ha0 & Ha1 & _).
        rewrite !lookup_insert_ne by congruence. reflexivity.
    + cbn. apply NoDup_singleton.
    + rewrite Hbuf. apply NoDup_singleton.
    + rewrite Hmid. apply NoDup_cons. split; [|apply NoDup_singleton].
      rewrite list_elem_of_singleton. lia.
    + intros a Ha. rewrite Hbuf, Hmid. cbn. rewrite Hn in Ha.
      rewrite !not_elem_of_cons. repeat split; try lia; apply not_elem_of_nil.
    + lia.
  - destruct (createDevices_one_rejected Dx10Device inPorts outPorts RtMidiIn_ok
                RtMidiOut_ok l w name g d Hmi Hmo Hd Hv)
      as (_ & Hcoll & _ & Hs & Hb & Hm & _ & Hn).
    cbn zeta in *.
    apply (tidy_ext w); try assumption.
    + rewrite Hs. apply delete_id. exact Fs.
    + rewrite Hb. apply delete_id. exact Fb.
    + rewrite Hm, (delete_id _ _ Fm1). apply delete_id. exact Fm0.
    + lia.
Qed.

(** X12: a round of [createDevices] keeps the heap tidy when [new
    RtMidiOut] does not throw after [new RtMidiIn] returned, the device
    constructor returns, and the group either fails a check or has a
    name the collection did not have. *)
Theorem createDevices_one_keeps_tidy {L} (l : L) (w : World) (name : string)
    (g : DeviceGroup) (d : StoreData) :
  tidy w ->
  RtMidiIn_ok name = false \/ RtMidiOut_ok name = true ->
  Dx10Device (replicate (Z.to_nat 6180) 0) 6180 = inr d ->
  m_instrumentStores w !! name = None \/ device_valid inPorts outPorts g = false ->
  tidy (createDevices_one name g l w).2.
Proof. apply createDevices_one_tidy. Qed.

End TidyDevices.

(** The sample sessions are tidy. *)
Lemma tidy_world0 : tidy Sample.world0.
Proof. apply tidy_empty; reflexivity. Qed.

Lemma tidy_shelf : tidy Studio.shelf.
Proof.
  apply (readCartridgeFile_tidy Sample.Mk1Cartridge Sample.Dx10Cartridge tt Sample.world0
           "mk1.bin" "mk1.bin" tidy_world0).
  left. reflexivity.
Qed.

Lemma tidy_rig : tidy Studio.rig.
Proof.
  apply (createDevices_one_tidy Sample.Dx10Device Studio.inPorts Studio.outPorts
           Sample.midi_ok Sample.midi_ok tt Studio.shelf "DX10" Studio.dx10 _
           tidy_shelf (or_intror eq_refl) eq_refl).
  left. vm_compute. reflexivity.
Qed.

(** The session with a cartridge and a device. *)
Lemma destroy_MainFrame_frees_everything_witness :
  tidy Studio.rig /\
  exists w',
    destroy_MainFrame tt Studio.rig = (Returns tt, tt, w') /\
    stores w' = ∅ /\ buffers w' = ∅ /\ midis w' = ∅.
Proof.
  split; [exact tidy_rig|].
  exact (destroy_MainFrame_frees_everything tt Studio.rig tidy_rig).
Defined.

Lemma readCartridgeFile_keeps_tidy_witness :
  let r := readCartridgeFile Sample.Mk1Cartridge Sample.Dx10Cartridge
             "dx10.bin" "B" tt Studio.rig in
  (tidy Studio.rig /\
   (m_instrumentStores Studio.rig !! "B" = None \/ r.1.1 <> Returns tt)) /\
  tidy r.2.
Proof.
  intros r.
  assert (H2 : m_instrumentStores Studio.rig !! "B" = None \/ r.1.1 <> Returns tt)
    by (left; vm_compute; reflexivity).
  split; [exact (conj tidy_rig H2)|].
  exact (readCartridgeFile_keeps_tidy Sample.Mk1Cartridge Sample.Dx10Cartridge tt
           Studio.rig "dx10.bin" "B" tidy_rig H2).
Defined.

Lemma createDevices_one_keeps_tidy_witness :
  let d := mkStoreData [] ∅ ∅ ∅ ∅ in
  (tidy Studio.shelf /\
   (Sample.midi_ok "DX10" = false \/ Sample.midi_ok "DX10" = true) /\
   Sample.Dx10Device (replicate (Z.to_nat 6180) 0) 6180 = inr d /\
   (m_instrumentStores Studio.shelf !! "DX10" = None \/
    device_valid Studio.inPorts Studio.outPorts Studio.dx10 = false)) /\
  tidy (createDevices_one Sample.Dx10Device Studio.inPorts Studio.outPorts
          Sample.midi_ok Sample.midi_ok "DX10" Studio.dx10 tt Studio.shelf).2.
Proof.
  intros d.
  assert (H1 : Sample.midi_ok "DX10" = false \/ Sample.midi_ok "DX10" = true)
    by (right; reflexivity).
  assert (H2 : Sample.Dx10Device (replicate (Z.to_nat 6180) 0) 6180 = inr d) by reflexivity.
  assert (H3 : m_instrumentStores Studio.shelf !! "DX10" = None \/
               device_valid Studio.inPorts Studio.outPorts Studio.dx10 = false)
    by (left; vm_compute; reflexivity).
  split; [exact (conj tidy_shelf (conj H1 (conj H2 H3)))|].
  exact (createDevices_one_keeps_tidy Sample.Dx10Device Studio.inPorts Studio.outPorts
           Sample.midi_ok Sample.midi_ok tt Studio.shelf "DX10" Studio.dx10 d
           tidy_shelf H1 H2 H3).
Defined.

(** ** Opening a file and applying the configuration *)

Ltac unfold_onFileOpen := unfold onFileOpen.
Ltac unfold_load_cartridges := unfold load_cartridges.
Ltac unfold_applyConfiguration := unfold applyConfiguration.
Ltac unfold_cartridge_verdict :=
  unfold cartridge_tame, cartridge_loads, cartridge_failure in *.

Section ConfigurationFacts.

Variable Mk1Cartridge : list Z -> Exception + StoreData.
Variable Dx10Cartridge : list Z -> Z -> Exception + StoreData.
Variable Dx10Device : list Z -> Z -> Exception + StoreData.
Variable inPorts outPorts : list string.
Variable RtMidiIn_ok RtMidiOut_ok : string -> bool.

Abbreviation readCartridgeFile := (readCartridgeFile Mk1Cartridge Dx10Cartridge).
Abbreviation cartridge_outcome := (cartridge_outcome Mk1Cartridge Dx10Cartridge).
Abbreviation cartridge_loads := (cartridge_loads Mk1Cartridge Dx10Cartridge).
Abbreviation cartridge_failure := (cartridge_failure Mk1Cartridge Dx10Cartridge).
Abbreviation cartridge_tame := (cartridge_tame Mk1Cartridge Dx10Cartridge).
Abbreviation load_cartridges := (load_cartridges Mk1Cartridge Dx10Cartridge).
Abbreviation applyConfiguration :=
  (applyConfiguration Mk1Cartridge Dx10Cartridge Dx10Device inPorts outPorts
     RtMidiIn_ok RtMidiOut_ok).

(** A call that throws leaves the collection as it was. *)
Lemma readCartridgeFile_throws_collection {L} (l : L) (w : World)
    (filePath cartName : string) (e : Exception) :
  (readCartridgeFile filePath cartName l w).1.1 = Throws e ->
  m_instrumentStores (readCartridgeFile filePath cartName l w).2 = m_instrumentStores w.
Proof.
  intros He.
  destruct (readCartridgeFile_cases Mk1Cartridge Dx10Cartridge l w filePath cartName)
    as (_ & _ & Hcases). cbn zeta in Hcases.
  destruct Hcases as [[Hsame _] | [(f & e' & att & _ & Hrej) | (f & d & att & _ & Hload)]].
  - rewrite Hsame. reflexivity.
  - apply Hrej.
  - destruct Hload as (Hret & _). cbn in Hret. rewrite He in Hret. discriminate Hret.
Qed.

(** A call that returns enters the name unless it was taken. *)
Lemma readCartridgeFile_returns_collection {L} (l : L) (w : World)
    (filePath cartName : string) :
  (readCartridgeFile filePath cartName l w).1.1 = Returns tt ->
  dom (m_instrumentStores (readCartridgeFile filePath cartName l w).2) =
  {[cartName]} ∪ dom (m_instrumentStores w).
Proof.
  intros He.
  destruct (readCartridgeFile_cases Mk1Cartridge Dx10Cartridge l w filePath cartName)
    as (_ & _ & Hcases). cbn zeta in Hcases.
  destruct Hcases as [[_ [e Hthrow]] | [(f & e' & att & _ & Hrej) | (f & d & att & _ & Hload)]].
  - rewrite He in Hthrow. discriminate Hthrow.
  - destruct Hrej as (Hthrow & _). cbn in Hthrow. rewrite He in Hthrow. discriminate Hthrow.
  - destruct Hload as (_ & _ & _ & Hc & _). cbn in Hc. rewrite Hc.
    apply dom_map_insert_new.
Qed.

(** How a file loads is read off the files alone. *)
Lemma cartridge_loads_files (w w1 : World) (path : string) :
  files w1 = files w -> cartridge_loads w1 path = cartridge_loads w path.
Proof. intros H. unfold_cartridge_verdict. rewrite H. reflexivity. Qed.

Lemma cartridge_failure_files (w w1 : World) (path : string) :
  files w1 = files w -> cartridge_failure w1 path = cartridge_failure w path.
Proof. intros H. unfold_cartridge_verdict. rewrite H. reflexivity. Qed.

Lemma cartridge_tame_files (w w1 : World) (path : string) :
  files w1 = files w -> cartridge_tame w1 path <-> cartridge_tame w path.
Proof. intros H. unfold_cartridge_verdict. rewrite H. reflexivity. Qed.

Lemma cartridge_outcome_defined (file : option File) :
  cartridge_outcome file <> Undefined.
Proof.
  unfold_cartridge_outcome. destruct file as [f|]; [|discriminate].
  destruct (negb (file_length f =? 8192) && negb (file_length f =? 16384)); [discriminate|].
  destruct (negb (file_stream_ok f)); [discriminate|].
  destruct (negb (Z.of_nat (length (delivered f)) =? file_length f)); [discriminate|].
  destruct (Mk1Cartridge _) as [e1|]; [|discriminate].
  destruct (isDataFormat e1); [|discriminate].
  destruct (Dx10Cartridge _ _) as [e2|]; [|discriminate].
  destruct (isDataFormat e2); discriminate.
Qed.

(** One round of the loop over the cartridge entries. *)
Lemma load_one {L} (l : L) (w : World) (name path : string) :
  cartridge_tame w path ->
  let r := try_catch (readCartridgeFile path name) isException
             (fun e => show_message (cartridge_message path (what e))) l w in
  r.1 = (Returns tt, l) /\
  files r.2 = files w /\
  dom (m_instrumentStores r.2) =
    (if cartridge_loads w path then {[name]} ∪ dom (m_instrumentStores w)
     else dom (m_instrumentStores w)) /\
  messages r.2 =
    messages w ++
    (if cartridge_loads w path then []
     else [cartridge_message path (cartridge_failure w path)]).
Proof.
  intros Htame r. subst r.
  destruct (readCartridgeFile_cases Mk1Cartridge Dx10Cartridge l w path name)
    as (Hl & Hout & _).
  destruct (readCartridgeFile_frame Mk1Cartridge Dx10Cartridge l w path name)
    as (Hfiles & _ & _ & Hmsg & _).
  pose proof (readCartridgeFile_throws_collection l w path name) as Hthrow.
  pose proof (readCartridgeFile_returns_collection l w path name) as Hret.
  cbn zeta in *.
  unfold_cartridge_verdict.
  pose proof (cartridge_outcome_defined (files w !! path)) as Hdef.
  rewrite <- Hout in *. unfold try_catch.
  destruct (readCartridgeFile path name l w) as [[out l1] w1].
  cbn [fst snd] in *. subst l1.
  destruct out as [[]|e|]; cbn.
  - rewrite Hmsg, app_nil_r, Hret by reflexivity. auto.
  - rewrite Htame. cbn. rewrite Hmsg, (Hthrow e eq_refl). auto.
  - contradiction.
Qed.

(** The whole loop over the cartridge entries. *)
Lemma load_cartridges_loop {L} (entries : list (string * string)) (l : L) :
  forall w : World,
  Forall (λ np, cartridge_tame w np.2) entries ->
  let r := load_cartridges entries l w in
  r.1 = (Returns tt, l) /\
  files r.2 = files w /\
  dom (m_instrumentStores r.2) =
    dom (m_instrumentStores w) ∪
    list_to_set (map fst (List.filter (λ np, cartridge_loads w np.2) entries)) /\
  messages r.2 =
    messages w ++
    map (λ np, cartridge_message np.2 (cartridge_failure w np.2))
        (List.filter (λ np, negb (cartridge_loads w np.2)) entries).
Proof.
  cbn zeta. unfold_load_cartridges.
  induction entries as [|[name path] entries IH]; intros w Htame.
  - cbn. rewrite app_nil_r. split; [reflexivity|]. split; [reflexivity|].
    split; [|reflexivity]. symmetry. apply (right_id_L ∅ (∪)).
  - apply Forall_cons in Htame as [Ht Htame]. cbn [fst snd] in Ht.
    cbn [for_each List.filter fst snd].
    destruct (load_one l w name path Ht) as (Hr & Hf & Hdom & Hmsg). cbn zeta in *.
    destruct (try_catch (readCartridgeFile path name) isException _ l w)
      as [[out l1] w1] eqn:Hone.
    cbn [fst snd] in *. injection Hr as Ho Hl. subst out l1.
    rewrite !(bind_returns _ _ _ _ _ _ _ Hone).
    destruct (IH w1) as (IHr & IHf & IHdom & IHmsg).
    { eapply Forall_impl; [exact Htame|]. intros np Hnp. cbn beta in *.
      apply (cartridge_tame_files w w1 _ Hf). exact Hnp. }
    split; [exact IHr|]. split; [congruence|].
    rewrite IHdom, IHmsg, Hdom, Hmsg.
    assert (Hext1 : List.filter (λ np : string * string, cartridge_loads w1 np.2) entries =
                    List.filter (λ np : string * string, cartridge_loads w np.2) entries).
    { apply filter_ext. intros np. apply cartridge_loads_files. exact Hf. }
    assert (Hext2 : List.filter (λ np : string * string, negb (cartridge_loads w1 np.2)) entries =
                    List.filter (λ np : string * string, negb (cartridge_loads w np.2)) entries).
    { apply filter_ext. intros np. f_equal. apply cartridge_loads_files. exact Hf. }
    assert (Hext3 : forall xs : list (string * string),
              map (λ np, cartridge_message np.2 (cartridge_failure w1 np.2)) xs =
              map (λ np, cartridge_message np.2 (cartridge_failure w np.2)) xs).
    { intros xs. apply map_ext. intros np. f_equal. apply cartridge_failure_files. exact Hf. }
    rewrite Hext1, Hext2, Hext3.
    destruct (cartridge_loads w path); cbn.
    + rewrite app_nil_r. split; [|reflexivity].
      apply set_eq. intros y. rewrite !elem_of_union. tauto.
    + rewrite <- app_assoc. split; reflexivity.
Qed.

(** What [applyConfiguration] does as a whole. *)
Lemma applyConfiguration_run (d : StoreData) (m : Members) (w : World) :
  Forall (λ ng, RtMidiIn_ok ng.1 = true /\ RtMidiOut_ok ng.1 = true)
    (in_key_order (config_Devices m)) ->
  Dx10Device (replicate (Z.to_nat 6180) 0) 6180 = inr d ->
  Forall (λ np, cartridge_tame w np.2) (in_key_order (config_Cartridges m)) ->
  let r := applyConfiguration m w in
  let devices := in_key_order (config_Devices m) in
  let cartridges := in_key_order (config_Cartridges m) in
  r.1 = (Returns tt, m) /\
  dom (m_instrumentStores r.2) =
    dom (m_instrumentStores w) ∪
    list_to_set (map fst (List.filter (λ ng, device_valid inPorts outPorts ng.2) devices)) ∪
    list_to_set (map fst (List.filter (λ np, cartridge_loads w np.2) cartridges)) /\
  messages r.2 =
    messages w ++
    map (λ ng, device_message ng.1 (setup_failure inPorts outPorts ng.2))
        (List.filter (λ ng, negb (device_valid inPorts outPorts ng.2)) devices) ++
    map (λ np, cartridge_message np.2 (cartridge_failure w np.2))
        (List.filter (λ np, negb (cartridge_loads w np.2)) cartridges).
Proof.
  intros Hmidi Hd Htame. cbn zeta.
  destruct (createDevices_loop Dx10Device inPorts outPorts RtMidiIn_ok RtMidiOut_ok d
              (in_key_order (config_Devices m)) m w Hmidi Hd) as (Hr & Hf & Hdom & Hmsg).
  cbn zeta in *.
  destruct (createDevices Dx10Device inPorts outPorts RtMidiIn_ok RtMidiOut_ok _ m w)
    as [[out l1] w1] eqn:Hdev.
  cbn [fst snd] in *. injection Hr as Ho Hl. subst out l1.
  assert (Hrun : applyConfiguration m w =
                 load_cartridges (in_key_order (config_Cartridges m)) m w1).
  { unfold_applyConfiguration. unfold bind, local. rewrite Hdev. reflexivity. }
  rewrite Hrun.
  destruct (load_cartridges_loop (in_key_order (config_Cartridges m)) m w1)
    as (Lr & _ & Ldom & Lmsg).
  { eapply Forall_impl; [exact Htame|]. intros np Hnp. cbn beta in *.
    apply (cartridge_tame_files w w1 _ Hf). exact Hnp. }
  cbn zeta in *. split; [exact Lr|].
  rewrite Ldom, Lmsg, Hdom, Hmsg, <- app_assoc.
  assert (Hext1 : forall xs : list (string * string),
            List.filter (λ np, cartridge_loads w1 np.2) xs =
            List.filter (λ np, cartridge_loads w np.2) xs).
  { intros xs. apply filter_ext. intros np. apply cartridge_loads_files. exact Hf. }
  assert (Hext2 : forall xs : list (string * string),
            List.filter (λ np, negb (cartridge_loads w1 np.2)) xs =
            List.filter (λ np, negb (cartridge_loads w np.2)) xs).
  { intros xs. apply filter_ext. intros np. f_equal. apply cartridge_loads_files. exact Hf. }
  assert (Hext3 : forall xs : list (string * string),
            map (λ np, cartridge_message np.2 (cartridge_failure w1 np.2)) xs =
            map (λ np, cartridge_message np.2 (cartridge_failure w np.2)) xs).
  { intros xs. apply map_ext. intros np. f_equal. apply cartridge_failure_files. exact Hf. }
  rewrite Hext1, Hext2, Hext3. split; reflexivity.
Qed.

(** X14: provided the MIDI constructors return for every device group,
    the device constructor returns and no cartridge constructor throws
    anything foreign, [applyConfiguration] returns
    after going through every device group and every cartridge entry:
    the collection gains exactly the names of the groups that pass all
    checks and of the cartridges that load, and there is one message for
    each device and each cartridge that fails, devices first, each kind
    in key order. *)
Theorem applyConfiguration_accounts_for_all (d : StoreData) (m : Members) (w : World) :
  Forall (λ ng, RtMidiIn_ok ng.1 = true /\ RtMidiOut_ok ng.1 = true)
    (in_key_order (config_Devices m)) ->
  Dx10Device (replicate (Z.to_nat 6180) 0) 6180 = inr d ->
  Forall (λ np, cartridge_tame w np.2) (in_key_order (config_Cartridges m)) ->
  let r := applyConfiguration m w in
  let devices := in_key_order (config_Devices m) in
  let cartridges := in_key_order (config_Cartridges m) in
  r.1 = (Returns tt, m) /\
  dom (m_instrumentStores r.2) =
    dom (m_instrumentStores w) ∪
    list_to_set (map fst (List.filter (λ ng, device_valid inPorts outPorts ng.2) devices)) ∪
    list_to_set (map fst (List.filter (λ np, cartridge_loads w np.2) cartridges)) /\
  messages r.2 =
    messages w ++
    map (λ ng, device_message ng.1 (setup_failure inPorts outPorts ng.2))
        (List.filter (λ ng, negb (device_valid inPorts outPorts ng.2)) devices) ++
    map (λ np, cartridge_message np.2 (cartridge_failure w np.2))
        (List.filter (λ np, negb (cartridge_loads w np.2)) cartridges).
Proof. apply applyConfiguration_run. Qed.

(** A file the call accepts has store data. *)
Lemma cartridge_outcome_data (file : option File) :
  cartridge_outcome file = Returns tt ->
  exists f d, file = Some f /\ cartridge_data Mk1Cartridge Dx10Cartridge f = Some d.
Proof.
  unfold_cartridge_outcome. unfold cartridge_data.
  destruct file as [f|]; [|discriminate]. cbv zeta.
  destruct (negb (file_length f =? 8192) && negb (file_length f =? 16384)); [discriminate|].
  destruct (negb (file_stream_ok f)); [discriminate|].
  destruct (negb (Z.of_nat (length (delivered f)) =? file_length f)); [discriminate|].
  destruct (Mk1Cartridge (delivered f)) as [e1|d1] eqn:H1;
    [|intros _; exists f, d1; rewrite H1; split; reflexivity].
  destruct (isDataFormat e1) eqn:He1; [|discriminate].
  destruct (Dx10Cartridge (delivered f) (file_length f)) as [e2|d2] eqn:H2;
    [|intros _; exists f, d2; rewrite H1, He1, H2; split; reflexivity].
  destruct (isDataFormat e2); discriminate.
Qed.

(** A call on such a file builds a store with that data. *)
Lemma readCartridgeFile_loads {L} (l : L) (w : World) (path name : string)
    (f : File) (d : StoreData) :
  files w !! path = Some f ->
  cartridge_outcome (Some f) = Returns tt ->
  cartridge_data Mk1Cartridge Dx10Cartridge f = Some d ->
  exists attempts,
    cartridge_loaded w name f d attempts
      ((readCartridgeFile path name l w).1.1, (readCartridgeFile path name l w).2).
Proof.
  intros Hf Hout Hdata. revert Hout. unfold_cartridge_outcome. cbv zeta.
  destruct (Z.eqb_spec (file_length f) 8192) as [H8|H8];
    destruct (Z.eqb_spec (file_length f) 16384) as [H16|H16]; cbn [negb andb];
    try discriminate.
  all: destruct (file_stream_ok f) eqn:Hok; cbn [negb]; try discriminate.
  all: destruct (Z.eqb_spec (Z.of_nat (length (delivered f))) (file_length f))
         as [Hfull|Hfull]; cbn [negb]; try discriminate.
  all: intros _.
  all: assert (Hsize : file_length f = 8192 \/ file_length f = 16384) by tauto.
  all: destruct (readCartridgeFile_full_read Mk1Cartridge Dx10Cartridge l w path name f
                   Hf Hsize Hok Hfull) as [_ Hm]; cbn zeta in Hm.
  all: unfold cartridge_data in Hdata.
  all: destruct (Mk1Cartridge (delivered f)) as [e1|d1];
         [|injection Hdata as <-; eauto].
  all: destruct (isDataFormat e1); [|discriminate].
  all: destruct (Dx10Cartridge (delivered f) (file_length f)) as [e2|d2];
         [discriminate|injection Hdata as <-; eauto].
Qed.

(** What one round of the loop leaves of the collection and the stores:
    entries stay, and so do the store objects at addresses handed out
    before. *)
Lemma load_one_frame {L} (l : L) (w : World) (name path : string) :
  let r := try_catch (readCartridgeFile path name) isException
             (fun e => show_message (cartridge_message path (what e))) l w in
  (forall k v, m_instrumentStores w !! k = Some v -> m_instrumentStores r.2 !! k = Some v) /\
  (forall k, k <> name -> m_instrumentStores w !! k = None ->
             m_instrumentStores r.2 !! k = None) /\
  (forall a, (a < next w)%nat -> stores r.2 !! a = stores w !! a) /\
  (next w <= next r.2)%nat.
Proof.
  cbn zeta.
  destruct (readCartridgeFile_cases Mk1Cartridge Dx10Cartridge l w path name)
    as (_ & _ & Hcases).
  destruct (readCartridgeFile_frame Mk1Cartridge Dx10Cartridge l w path name)
    as (_ & _ & _ & _ & Hnext).
  cbn zeta in *. unfold try_catch.
  destruct (readCartridgeFile path name l w) as [[out l1] w1]. cbn [fst snd] in *.
  assert (Hkeep :
    (forall k v, m_instrumentStores w !! k = Some v -> m_instrumentStores w1 !! k = Some v) /\
    (forall k, k <> name -> m_instrumentStores w !! k = None ->
               m_instrumentStores w1 !! k = None) /\
    (forall a, (a < next w)%nat -> stores w1 !! a = stores w !! a) /\
    (next w <= next w1)%nat).
  { destruct Hcases as [[-> _] | [(f & e & att & _ & Hrej) | (f & d' & att & _ & Hload)]].
    - auto.
    - destruct Hrej as (_ & Hc1 & _ & Hs1 & _). cbn [fst snd] in *. rewrite Hc1, Hs1. auto.
    - destruct Hload as (_ & Hs1 & _ & Hc1 & _). cbn [fst snd] in *. rewrite Hc1, Hs1.
      unfold map_insert_new. repeat split; try assumption.
      + intros k v Hk. destruct (m_instrumentStores w !! name) eqn:E; [exact Hk|].
        rewrite lookup_insert_ne; [exact Hk|]. intros ->. rewrite Hk in E. discriminate E.
      + intros k Hne Hk. destruct (m_instrumentStores w !! name) eqn:E; [exact Hk|].
        rewrite lookup_insert_ne by congruence. exact Hk.
      + intros a Ha. rewrite lookup_insert_ne by lia. reflexivity. }
  destruct out as [[]|e|]; [exact Hkeep| |exact Hkeep].
  destruct (isException e); exact Hkeep.
Qed.

(** A round of the loop keeps a cartridge the collection has. *)
Lemma load_one_keeps {L} (l : L) (w : World) (name path name0 : string) (d : StoreData) :
  has_cartridge w name0 d ->
  has_cartridge
    (try_catch (readCartridgeFile path name) isException
       (fun e => show_message (cartridge_message path (what e))) l w).2 name0 d.
Proof.
  intros (a & b & Hc & Hs & Ha).
  destruct (load_one_frame l w name path) as (Hcoll & _ & Hst & Hnext). cbn zeta in *.
  exists a, b. split; [apply Hcoll; exact Hc|]. split; [rewrite Hst by exact Ha; exact Hs|].
  lia.
Qed.

(** So does the whole loop. *)
Lemma load_cartridges_keeps {L} (entries : list (string * string)) (l : L)
    (name0 : string) (d : StoreData) :
  forall w : World,
  Forall (λ np, cartridge_tame w np.2) entries ->
  has_cartridge w name0 d ->
  (load_cartridges entries l w).1.1 = Returns tt /\
  has_cartridge (load_cartridges entries l w).2 name0 d.
Proof.
  unfold_load_cartridges.
  induction entries as [|[name path] entries IH]; intros w Htame Hhas.
  - cbn. auto.
  - apply Forall_cons in Htame as [Ht Htame]. cbn [fst snd] in Ht.
    cbn [for_each fst snd].
    destruct (load_one l w name path Ht) as (Hr & Hf & _). cbn zeta in *.
    pose proof (load_one_keeps l w name path name0 d Hhas) as Hkeep.
    destruct (try_catch (readCartridgeFile path name) isException _ l w)
      as [[out l1] w1] eqn:Hone.
    cbn [fst snd] in *. injection Hr as Ho Hl. subst out l1.
    rewrite !(bind_returns _ _ _ _ _ _ _ Hone).
    apply IH; [|exact Hkeep].
    eapply Forall_impl; [exact Htame|]. intros np Hnp. cbn beta in *.
    apply (cartridge_tame_files w w1 _ Hf). exact Hnp.
Qed.

(** The loop enters a cartridge that loads under a name the collection
    does not have. *)
Lemma load_cartridges_enters {L} (entries : list (string * string)) (l : L)
    (name path : string) (f : File) (d : StoreData) :
  forall w : World,
  Forall (λ np, cartridge_tame w np.2) entries ->
  (name, path) ∈ entries ->
  (forall p, (name, p) ∈ entries -> p = path) ->
  files w !! path = Some f ->
  cartridge_data Mk1Cartridge Dx10Cartridge f = Some d ->
  cartridge_outcome (files w !! path) = Returns tt ->
  m_instrumentStores w !! name = None ->
  (load_cartridges entries l w).1.1 = Returns tt /\
  has_cartridge (load_cartridges entries l w).2 name d.
Proof.
  induction entries as [|[n p] entries IH]; intros w Htame Hin Huniq Hf Hdata Hout Hfree.
  - apply elem_of_nil in Hin. contradiction.
  - apply Forall_cons in Htame as [Ht Htame]. cbn [fst snd] in Ht.
    assert (Hstep : load_cartridges ((n, p) :: entries) l w =
              bind (try_catch (readCartridgeFile p n) isException
                      (fun e => show_message (cartridge_message p (what e))))
                   (fun _ => load_cartridges entries) l w).
    { unfold_load_cartridges. reflexivity. }
    rewrite Hstep. clear Hstep.
    destruct (load_one l w n p Ht) as (Hr & Hfiles & _). cbn zeta in *.
    destruct (load_one_frame l w n p) as (_ & Habsent & _). cbn zeta in *.
    assert (Htame1 : forall w1, files w1 = files w ->
              Forall (λ np, cartridge_tame w1 np.2) entries).
    { intros w1 Hw1. eapply Forall_impl; [exact Htame|]. intros np Hnp. cbn beta in *.
      apply (cartridge_tame_files w w1 _ Hw1). exact Hnp. }
    destruct (decide (n = name)) as [->|Hne].
    + assert (p = path) as -> by (apply Huniq; left).
      assert (Hhas : has_cartridge
                (try_catch (readCartridgeFile path name) isException
                   (fun e => show_message (cartridge_message path (what e))) l w).2 name d).
      { rewrite Hf in Hout.
        destruct (readCartridgeFile_loads l w path name f d Hf Hout Hdata) as (att & Hload).
        pose proof (readCartridgeFile_next Mk1Cartridge Dx10Cartridge l w path name) as Hnext.
        cbn zeta in *. unfold try_catch.
        destruct (readCartridgeFile path name l w) as [[out l1] w1].
        destruct Hload as (Hret & Hs & _ & Hc & _). cbn [fst snd] in *. subst out.
        specialize (Hnext eq_refl).
        exists (S (next w)), (next w). cbn [fst snd]. rewrite Hc, Hs, Hnext.
        unfold map_insert_new. rewrite Hfree. rewrite !lookup_insert_eq.
        split; [reflexivity|]. split; [reflexivity|]. lia. }
      destruct (try_catch (readCartridgeFile path name) isException _ l w)
        as [[out l1] w1] eqn:Hone.
      cbn [fst snd] in *. injection Hr as Ho Hl. subst out l1.
      rewrite !(bind_returns _ _ _ _ _ _ _ Hone).
      apply load_cartridges_keeps; [apply Htame1; exact Hfiles | exact Hhas].
    + specialize (Habsent name (not_eq_sym Hne) Hfree).
      destruct (try_catch (readCartridgeFile p n) isException _ l w)
        as [[out l1] w1] eqn:Hone.
      cbn [fst snd] in *. injection Hr as Ho Hl. subst out l1.
      rewrite !(bind_returns _ _ _ _ _ _ _ Hone).
      apply IH.
      * apply Htame1. exact Hfiles.
      * apply elem_of_cons in Hin as [Heq|Hin]; [congruence|exact Hin].
      * intros p0 Hp0. apply Huniq. right. exact Hp0.
      * rewrite Hfiles. exact Hf.
      * exact Hdata.
      * rewrite Hfiles. exact Hout.
      * exact Habsent.
Qed.

Section FileOpen.

Variable GetFullName : string -> string.

Abbreviation onFileOpen := (onFileOpen Mk1Cartridge Dx10Cartridge GetFullName).

(** Every way [onFileOpen] can go. *)
Lemma onFileOpen_cases (dlg : option string) (m : Members) (w : World) :
  let r := onFileOpen dlg m w in
  match dlg with
  | None => r = (Returns tt, m, w)
  | Some path =>
      match cartridge_outcome (files w !! path) with
      | Returns _ =>
          r = (Returns tt,
               set_config_Cartridges <[GetFullName path := path]> m,
               (readCartridgeFile path (GetFullName path) m w).2)
      | Throws e =>
          r.1.2 = m /\
          m_instrumentStores r.2 = m_instrumentStores w /\
          if isException e
          then r.1.1 = Returns tt /\ messages r.2 = messages w ++ [what e]
          else r.1.1 = Throws e /\ messages r.2 = messages w
      | Undefined => True
      end
  end.
Proof.
  intros r. subst r. destruct dlg as [path|]; [|reflexivity].
  destruct (readCartridgeFile_cases Mk1Cartridge Dx10Cartridge m w path (GetFullName path))
    as (Hl & Hout & _).
  destruct (readCartridgeFile_frame Mk1Cartridge Dx10Cartridge m w path (GetFullName path))
    as (_ & _ & _ & Hmsg & _).
  cbn zeta in *. rewrite <- Hout.
  unfold_onFileOpen. unfold try_catch, bind.
  destruct (readCartridgeFile path (GetFullName path) m w) as [[out l1] w1] eqn:Hrun.
  cbn [fst snd] in *. subst l1.
  destruct out as [[]|e|]; [reflexivity| |exact I].
  pose proof (readCartridgeFile_throws_collection m w path (GetFullName path) e) as Hc.
  rewrite Hrun in Hc. cbn [fst snd] in Hc. specialize (Hc eq_refl).
  destruct (isException e); cbn; rewrite ?Hmsg; auto.
Qed.

(** X13: [onFileOpen] writes a cartridge into the configuration exactly
    when it was loaded.  A cancelled dialog changes nothing; a cartridge
    that loads is recorded under its file name; one that fails with an
    exception of the program's family gives one message with the
    reason, and configuration and collection stay as they were. *)
Theorem onFileOpen_records_loaded (dlg : option string) (m : Members) (w : World) :
  let r := onFileOpen dlg m w in
  match dlg with
  | None => r = (Returns tt, m, w)
  | Some path =>
      match cartridge_outcome (files w !! path) with
      | Returns _ =>
          r = (Returns tt,
               set_config_Cartridges <[GetFullName path := path]> m,
               (readCartridgeFile path (GetFullName path) m w).2)
      | Throws e =>
          r.1.2 = m /\
          m_instrumentStores r.2 = m_instrumentStores w /\
          if isException e
          then r.1.1 = Returns tt /\ messages r.2 = messages w ++ [what e]
          else r.1.1 = Throws e /\ messages r.2 = messages w
      | Undefined => True
      end
  end.
Proof. apply onFileOpen_cases. Qed.

(** X15: what [onFileOpen] writes, [applyConfiguration] reads back.  A
    cartridge that was opened and loaded is recorded under its file
    name; a later session over the same files, whose collection does
    not have that name and whose configuration has no device group of
    that name, has the cartridge again after [applyConfiguration]: an
    entry under the same name, without MIDI objects and of type 0,
    whose live store holds the data the first session built from the
    file. *)
Theorem onFileOpen_then_applyConfiguration (d0 : StoreData) (m : Members) (w w2 : World)
    (path : string) :
  let name := GetFullName path in
  cartridge_outcome (files w !! path) = Returns tt ->
  files w2 = files w ->
  m_instrumentStores w2 !! name = None ->
  config_Devices m !! name = None ->
  Forall (λ ng, RtMidiIn_ok ng.1 = true /\ RtMidiOut_ok ng.1 = true)
    (in_key_order (config_Devices m)) ->
  Dx10Device (replicate (Z.to_nat 6180) 0) 6180 = inr d0 ->
  let r1 := onFileOpen (Some path) m w in
  let m1 := r1.1.2 in
  Forall (λ np, cartridge_tame w2 np.2) (in_key_order (config_Cartridges m1)) ->
  let r2 := applyConfiguration m1 w2 in
  exists f d,
    files w !! path = Some f /\
    cartridge_data Mk1Cartridge Dx10Cartridge f = Some d /\
    stores r1.2 !! S (next w) = Some (mkInstrumentStore d (next w)) /\
    config_Cartridges m1 !! name = Some path /\
    r2.1.1 = Returns tt /\
    has_cartridge r2.2 name d.
Proof.
  intros name Hout Hfiles Hfree Hnodev Hmidi Hd r1 m1 Htame r2.
  subst r1 m1 r2.
  pose proof (onFileOpen_cases (Some path) m w) as Hopen. cbv beta iota zeta in Hopen.
  rewrite Hout in Hopen. subst name. rewrite Hopen in Htame |- *. cbn [fst snd] in *.
  set (name := GetFullName path) in *.
  destruct (cartridge_outcome_data (files w !! path) Hout) as (f & d & Hf & Hdata).
  exists f, d. split; [exact Hf|]. split; [exact Hdata|].
  split.
  { rewrite Hf in Hout.
    destruct (readCartridgeFile_loads m w path name f d Hf Hout Hdata) as (att & Hload).
    destruct Hload as (_ & Hs & _). cbn [fst snd] in Hs. rewrite Hs. apply lookup_insert_eq. }
  split; [apply lookup_insert_eq|].
  set (m1 := set_config_Cartridges <[name := path]> m) in *.
  destruct (createDevices_loop Dx10Device inPorts outPorts RtMidiIn_ok RtMidiOut_ok d0
              (in_key_order (config_Devices m1)) m1 w2 Hmidi Hd) as (Hr & Hf2 & Hdom & _).
  cbn zeta in *.
  destruct (createDevices Dx10Device inPorts outPorts RtMidiIn_ok RtMidiOut_ok _ m1 w2)
    as [[out l1] w3] eqn:Hdev.
  cbn [fst snd] in *. injection Hr as -> ->.
  assert (Hrun : applyConfiguration m1 w2 =
                 load_cartridges (in_key_order (config_Cartridges m1)) m1 w3).
  { unfold_applyConfiguration. unfold bind, local. rewrite Hdev. reflexivity. }
  rewrite Hrun.
  assert (Hfree3 : m_instrumentStores w3 !! name = None).
  { apply not_elem_of_dom. rewrite Hdom. rewrite elem_of_union. intros [Hin | Hin].
    - apply elem_of_dom in Hin as [x Hx]. rewrite Hfree in Hx. discriminate Hx.
    - apply elem_of_list_to_set, list_elem_of_In, in_map_iff in Hin as ([n g] & Hn & Hin).
      cbn in Hn. subst n. apply filter_In in Hin as [Hin _].
      apply list_elem_of_In, elem_of_in_key_order in Hin.
      cbn in Hin. rewrite Hnodev in Hin. discriminate Hin. }
  apply (load_cartridges_enters (in_key_order (config_Cartridges m1)) m1 name path f d w3).
  - eapply Forall_impl; [exact Htame|]. intros np Hnp. cbn beta in *.
    apply (cartridge_tame_files w2 w3 _ Hf2). exact Hnp.
  - apply elem_of_in_key_order. apply lookup_insert_eq.
  - intros p Hp. apply elem_of_in_key_order in Hp. cbn in Hp.
    rewrite lookup_insert_eq in Hp. congruence.
  - rewrite Hf2, Hfiles. exact Hf.
  - exact Hdata.
  - rewrite Hf2, Hfiles. exact Hout.
  - exact Hfree3.
Qed.

End FileOpen.

End ConfigurationFacts.

(** The sample configuration: one device that passes, one with channel
    17, one cartridge that loads and one that fits neither layout. *)
Lemma applyConfiguration_accounts_for_all_witness :
  let r := applyConfiguration Sample.Mk1Cartridge Sample.Dx10Cartridge Sample.Dx10Device
             Studio.inPorts Studio.outPorts Sample.midi_ok Sample.midi_ok
             Studio.config Sample.world0 in
  (Forall (λ ng, Sample.midi_ok ng.1 = true /\ Sample.midi_ok ng.1 = true)
     (in_key_order (config_Devices Studio.config)) /\
   Sample.Dx10Device (replicate (Z.to_nat 6180) 0) 6180 = inr (mkStoreData [] ∅ ∅ ∅ ∅) /\
   Forall (λ np, cartridge_tame Sample.Mk1Cartridge Sample.Dx10Cartridge Sample.world0 np.2)
     (in_key_order (config_Cartridges Studio.config))) /\
  r.1 = (Returns tt, Studio.config) /\
  dom (m_instrumentStores r.2) = {[ "DX10"%string; "mk1.bin"%string ]} /\
  messages r.2 =
    ["Device 'Spare' could not be created, reason: Invalid value for MIDI channel"%string;
     "Cartridge file 'zero.bin' could not be read, reason: Unknown cartridge format"%string].
Proof.
  intros r.
  assert (H0 : Forall (λ ng, Sample.midi_ok ng.1 = true /\ Sample.midi_ok ng.1 = true)
                 (in_key_order (config_Devices Studio.config))).
  { apply Forall_forall. intros ng _. split; reflexivity. }
  assert (H1 : Sample.Dx10Device (replicate (Z.to_nat 6180) 0) 6180 =
               inr (mkStoreData [] ∅ ∅ ∅ ∅)) by reflexivity.
  assert (H2 : Forall (λ np, cartridge_tame Sample.Mk1Cartridge Sample.Dx10Cartridge
                               Sample.world0 np.2)
                 (in_key_order (config_Cartridges Studio.config))).
  { vm_compute. repeat constructor. }
  split; [auto|].
  destruct (applyConfiguration_accounts_for_all Sample.Mk1Cartridge Sample.Dx10Cartridge
              Sample.Dx10Device Studio.inPorts Studio.outPorts Sample.midi_ok Sample.midi_ok
              _ Studio.config Sample.world0 H0 H1 H2) as (R1 & R2 & R3).
  split; [exact R1|]. split.
  - etrans; [exact R2|]. vm_compute. reflexivity.
  - etrans; [exact R3|]. vm_compute. reflexivity.
Defined.

(** The second sample cartridge, opened in the session with the first
    cartridge and read back in an empty one with the sample devices. *)
Lemma onFileOpen_then_applyConfiguration_witness :
  let m := mkMembers ∅ (config_Devices Studio.config) in
  let r1 := onFileOpen Sample.Mk1Cartridge Sample.Dx10Cartridge Studio.GetFullName
              (Some "dx10.bin"%string) m Studio.shelf in
  let r2 := applyConfiguration Sample.Mk1Cartridge Sample.Dx10Cartridge Sample.Dx10Device
              Studio.inPorts Studio.outPorts Sample.midi_ok Sample.midi_ok
              r1.1.2 Sample.world0 in
  (cartridge_outcome Sample.Mk1Cartridge Sample.Dx10Cartridge
     (files Studio.shelf !! "dx10.bin") = Returns tt /\
   files Sample.world0 = files Studio.shelf /\
   m_instrumentStores Sample.world0 !! "dx10.bin" = None /\
   config_Devices m !! "dx10.bin" = None /\
   Forall (λ ng, Sample.midi_ok ng.1 = true /\ Sample.midi_ok ng.1 = true)
     (in_key_order (config_Devices m)) /\
   Sample.Dx10Device (replicate (Z.to_nat 6180) 0) 6180 = inr (mkStoreData [] ∅ ∅ ∅ ∅) /\
   Forall (λ np, cartridge_tame Sample.Mk1Cartridge Sample.Dx10Cartridge Sample.world0 np.2)
     (in_key_order (config_Cartridges r1.1.2))) /\
  stores r1.2 !! 3%nat = Some (mkInstrumentStore Sample.bank 2%nat) /\
  r2.1.1 = Returns tt /\
  has_cartridge r2.2 "dx10.bin" Sample.bank.
Proof.
  intros m r1 r2.
  assert (H1 : cartridge_outcome Sample.Mk1Cartridge Sample.Dx10Cartridge
                 (files Studio.shelf !! "dx10.bin") = Returns tt)
    by (vm_compute; reflexivity).
  assert (H2 : files Sample.world0 = files Studio.shelf) by (vm_compute; reflexivity).
  assert (H3 : m_instrumentStores Sample.world0 !! "dx10.bin" = None) by reflexivity.
  assert (H4 : config_Devices m !! "dx10.bin" = None) by (vm_compute; reflexivity).
  assert (H5 : Forall (λ ng, Sample.midi_ok ng.1 = true /\ Sample.midi_ok ng.1 = true)
                 (in_key_order (config_Devices m))).
  { apply Forall_forall. intros ng _. split; reflexivity. }
  assert (H6 : Sample.Dx10Device (replicate (Z.to_nat 6180) 0) 6180 =
               inr (mkStoreData [] ∅ ∅ ∅ ∅)) by reflexivity.
  assert (H7 : Forall (λ np, cartridge_tame Sample.Mk1Cartridge Sample.Dx10Cartridge
                               Sample.world0 np.2)
                 (in_key_order (config_Cartridges r1.1.2))).
  { vm_compute. repeat constructor. }
  split; [auto 10|].
  destruct (onFileOpen_then_applyConfiguration Sample.Mk1Cartridge Sample.Dx10Cartridge
              Sample.Dx10Device Studio.inPorts Studio.outPorts Sample.midi_ok Sample.midi_ok
              Studio.GetFullName _ m Studio.shelf Sample.world0 "dx10.bin"
              H1 H2 H3 H4 H5 H6 H7) as (f & d & Hf & Hd & R1 & _ & R2 & R3).
  assert (Hfd : f = Sample.image 3 16384 /\ d = Sample.bank).
  { assert (E : files Studio.shelf !! "dx10.bin" = Some (Sample.image 3 16384))
      by (vm_compute; reflexivity).
    rewrite E in Hf. injection Hf as <-. split; [reflexivity|].
    assert (E2 : cartridge_data Sample.Mk1Cartridge Sample.Dx10Cartridge
                   (Sample.image 3 16384) = Some Sample.bank) by (vm_compute; reflexivity).
    rewrite E2 in Hd. injection Hd as <-. reflexivity. }
  destruct Hfd as [-> ->].
  split; [exact R1|]. split; [exact R2 | exact R3].
Defined.

(** ** Renaming a store *)

(** The scan vetoes exactly when the new label is a key. *)
Lemma rename_scan_veto (entries : list (string * InstStore)) (store : ptr)
    (newLabel oldLabel : string) :
  (rename_scan entries store newLabel oldLabel).2 = true <-> newLabel ∈ entries.*1.
Proof.
  revert oldLabel. induction entries as [|i entries IH]; intros oldLabel; cbn.
  - split; [discriminate|]. intros H. apply elem_of_nil in H. contradiction.
  - rewrite elem_of_cons. destruct (decide (i.1 = newLabel)) as [Heq|Hne]; cbn.
    + split; auto.
    + rewrite IH. split; [auto|]. intros [Heq|Hin]; [congruence|exact Hin].
Qed.

(** Without a match for the store pointer the old label stays. *)
Lemma rename_scan_no_match (entries : list (string * InstStore)) (store : ptr)
    (newLabel oldLabel : string) :
  Forall (λ i, m_store i.2 <> store) entries ->
  (rename_scan entries store newLabel oldLabel).1 = oldLabel.
Proof.
  revert oldLabel. induction entries as [|i entries IH]; intros oldLabel Hall; [reflexivity|].
  apply Forall_cons in Hall as [Hi Hall]. cbn.
  destruct (decide (m_store i.2 = store)) as [|_]; [contradiction|].
  destruct (decide (i.1 = newLabel)); [reflexivity|]. apply IH. exact Hall.
Qed.

(** When the new label is no key and one name only goes with the store
    pointer, the scan finds that name. *)
Lemma rename_scan_old (entries : list (string * InstStore)) (store : ptr)
    (newLabel oldLabel old : string) :
  newLabel ∉ entries.*1 ->
  (forall i, i ∈ entries -> m_store i.2 = store -> i.1 = old) ->
  Exists (λ i, m_store i.2 = store) entries ->
  (rename_scan entries store newLabel oldLabel).1 = old.
Proof.
  revert oldLabel. induction entries as [|i entries IH]; intros oldLabel Hnew Huniq Hex.
  - apply Exists_nil in Hex. contradiction.
  - cbn in Hnew |- *. apply not_elem_of_cons in Hnew as [Hne Hnew].
    destruct (decide (i.1 = newLabel)) as [|_]; [congruence|].
    destruct (decide (Exists (λ i, m_store i.2 = store) entries)) as [Hrest|Hrest].
    + apply IH; [exact Hnew| |exact Hrest].
      intros j Hj. apply Huniq. apply elem_of_cons. auto.
    + apply not_Exists_Forall in Hrest; [|intros j; apply _].
      rewrite rename_scan_no_match.
      2:{ eapply Forall_impl; [exact Hrest|]. intros j Hj. exact Hj. }
      apply Exists_cons in Hex as [Hi|Hex].
      * destruct (decide (m_store i.2 = store)) as [_|]; [|contradiction].
        apply Huniq; [apply elem_of_cons; auto|exact Hi].
      * exfalso. rewrite Forall_forall in Hrest. apply Exists_exists in Hex as (j & Hj & Hm).
        exact (Hrest j Hj Hm).
Qed.

Section RenameFacts.

(** A store node of the tree, for a store the collection has under one
    name only, and an edit that was not cancelled. *)
Variable w : World.
Variable m : Members.
Variable n : nat.
Variable item : TreeItem.
Variable a : addr.
Variable oldLabel newLabel : string.

Hypothesis item_at : m_instTree w !! n = Some item.
Hypothesis item_is_store : ti_icb item = 0.
Hypothesis item_store : m_store (ti_store item) = Some a.
Hypothesis named :
  exists ist, m_instrumentStores w !! oldLabel = Some ist /\ m_store ist = Some a.
Hypothesis named_once :
  forall k ist, m_instrumentStores w !! k = Some ist -> m_store ist = Some a -> k = oldLabel.

Lemma rename_scan_result :
  let scan := rename_scan (in_key_order (m_instrumentStores w)) (Some a) newLabel EmptyString in
  scan.2 = bool_decide (is_Some (m_instrumentStores w !! newLabel)) /\
  (m_instrumentStores w !! newLabel = None -> scan.1 = oldLabel).
Proof.
  cbn zeta. split.
  - destruct (bool_decide_reflect (is_Some (m_instrumentStores w !! newLabel))) as [Hin|Hout].
    + apply rename_scan_veto, in_key_order_keys. exact Hin.
    + apply not_true_is_false. rewrite rename_scan_veto, in_key_order_keys. exact Hout.
  - intros Hnew. apply rename_scan_old.
    + rewrite in_key_order_keys, Hnew. intros [x Hx]. discriminate Hx.
    + intros [k ist] Hin Hp. apply elem_of_in_key_order in Hin. exact (named_once k ist Hin Hp).
    + destruct named as (ist & Hk & Hp). apply Exists_exists. exists (oldLabel, ist).
      split; [apply elem_of_in_key_order; exact Hk|exact Hp].
Qed.

Lemma set_config_Cartridges_same : set_config_Cartridges (λ _, config_Cartridges m) m = m.
Proof. destruct m. reflexivity. Qed.

(** What the handler does for such a node. *)
Lemma onInstRename_run :
  onInstRename (mkTreeEvent (Item n) newLabel false) m w =
  if bool_decide (is_Some (m_instrumentStores w !! newLabel))
  then (Returns true, m, set_messages (λ ms, ms ++ [rename_refused]) w)
  else
    let renamed := RenameEntry oldLabel newLabel (config_Cartridges m) in
    if renamed.1
    then (Returns false, set_config_Cartridges (λ _, renamed.2) m,
          set_instrumentStores
            (λ stores, map_insert_new newLabel (ti_store item) (delete oldLabel stores)) w)
    else (Returns true, set_config_Cartridges (λ _, renamed.2) m,
          set_messages (λ ms, ms ++ [rename_refused]) w).
Proof.
  destruct rename_scan_result as [Hveto Hold]. cbn zeta in *.
  unfold onInstRename, GetItemData. run. rewrite item_at. cbn.
  rewrite item_store, item_is_store. cbn. rewrite Hveto.
  destruct (bool_decide_reflect (is_Some (m_instrumentStores w !! newLabel))) as [Hin|Hout];
    cbn; [reflexivity|].
  rewrite Hold.
  2:{ destruct (m_instrumentStores w !! newLabel) eqn:E; [|reflexivity].
      exfalso. apply Hout. eauto. }
  destruct (RenameEntry oldLabel newLabel (config_Cartridges m)) as [[|] cfg]; reflexivity.
Qed.

(** X16: a rename is refused when the collection already has the new
    label, or [/Cartridges] has no entry under the old name (as for every
    device), or has one under the new label.  The event is vetoed, the
    message is shown, and collection, configuration and heap are as
    before. *)
Theorem onInstRename_refused :
  is_Some (m_instrumentStores w !! newLabel) \/
  config_Cartridges m !! oldLabel = None \/
  is_Some (config_Cartridges m !! newLabel) ->
  onInstRename (mkTreeEvent (Item n) newLabel false) m w =
  (Returns true, m, set_messages (λ ms, ms ++ [rename_refused]) w).
Proof.
  intros Hwhy. rewrite onInstRename_run.
  destruct (bool_decide_reflect (is_Some (m_instrumentStores w !! newLabel))) as [Hin|Hout];
    [reflexivity|].
  assert (Hr : RenameEntry oldLabel newLabel (config_Cartridges m) =
               (false, config_Cartridges m)).
  { unfold RenameEntry. destruct Hwhy as [Hin | [Hnone | [x Hx]]].
    - contradiction.
    - rewrite Hnone. reflexivity.
    - rewrite Hx. destruct (config_Cartridges m !! oldLabel); reflexivity. }
  rewrite Hr. cbn. rewrite set_config_Cartridges_same. reflexivity.
Qed.

(** X17: a rename to a label that neither the collection nor
    [/Cartridges] has, of a cartridge [/Cartridges] knows, goes through:
    the store moves from the old to the new name in the collection, its
    path moves with it in the configuration, the collection keeps its
    size, and nothing else changes. *)
Theorem onInstRename_moves_entry (path : string) :
  m_instrumentStores w !! newLabel = None ->
  config_Cartridges m !! oldLabel = Some path ->
  config_Cartridges m !! newLabel = None ->
  let r := onInstRename (mkTreeEvent (Item n) newLabel false) m w in
  r.1.1 = Returns false /\
  m_instrumentStores r.2 =
    <[newLabel := ti_store item]> (delete oldLabel (m_instrumentStores w)) /\
  config_Cartridges r.1.2 = <[newLabel := path]> (delete oldLabel (config_Cartridges m)) /\
  config_Devices r.1.2 = config_Devices m /\
  size (m_instrumentStores r.2) = size (m_instrumentStores w) /\
  messages r.2 = messages w /\
  stores r.2 = stores w /\ buffers r.2 = buffers w /\ midis r.2 = midis w /\
  m_instTree r.2 = m_instTree w.
Proof.
  intros Hnew Hold Hcfg r. subst r. rewrite onInstRename_run.
  rewrite bool_decide_eq_false_2 by (rewrite Hnew; intros [x Hx]; discriminate Hx).
  unfold RenameEntry. rewrite Hold, Hcfg. cbn.
  assert (Hfree : delete oldLabel (m_instrumentStores w) !! newLabel = None).
  { rewrite lookup_delete. case_decide; [reflexivity|exact Hnew]. }
  unfold map_insert_new. rewrite Hfree.
  repeat split.
  destruct named as (ist & Hk & _).
  assert (Hsome : is_Some (m_instrumentStores w !! oldLabel)) by eauto.
  cbn. rewrite (map_size_insert_None _ _ _ Hfree), (map_size_delete_Some _ _ Hsome).
  pose proof (map_size_ne_0_lookup_2 _ _ Hsome). lia.
Qed.

End RenameFacts.

(** The device of the sample session is not in [/Cartridges]. *)
Lemma onInstRename_refused_witness :
  let ist := mkInstStore (Some 5%nat) (Some 2%nat) (Some 3%nat) 3 2 in
  let item := mkTreeItem m_devices "DX10" ist 0 in
  (m_instTree Studio.rig !! 3%nat = Some item /\
   ti_icb item = 0 /\
   m_store (ti_store item) = Some 5%nat /\
   (exists i, m_instrumentStores Studio.rig !! "DX10" = Some i /\ m_store i = Some 5%nat) /\
   map_Forall (λ k i, m_store i = Some 5%nat -> k = "DX10"%string)
     (m_instrumentStores Studio.rig) /\
   config_Cartridges Studio.config !! "DX10" = None) /\
  onInstRename (mkTreeEvent (Item 3) "Synth" false) Studio.config Studio.rig =
  (Returns true, Studio.config,
   set_messages (λ ms, ms ++ [rename_refused]) Studio.rig).
Proof.
  intros ist item.
  assert (H1 : m_instTree Studio.rig !! 3%nat = Some item) by (vm_compute; reflexivity).
  assert (H2 : ti_icb item = 0) by reflexivity.
  assert (H3 : m_store (ti_store item) = Some 5%nat) by reflexivity.
  assert (H4 : exists i, m_instrumentStores Studio.rig !! "DX10" = Some i /\
                         m_store i = Some 5%nat)
    by (exists ist; split; vm_compute; reflexivity).
  assert (H5 : map_Forall (λ k i, m_store i = Some 5%nat -> k = "DX10"%string)
                 (m_instrumentStores Studio.rig)).
  { apply map_Forall_to_list. vm_compute. repeat constructor. discriminate. }
  assert (H6 : config_Cartridges Studio.config !! "DX10" = None)
    by (vm_compute; reflexivity).
  split; [auto 10|].
  exact (onInstRename_refused Studio.rig Studio.config 3%nat item 5%nat "DX10" "Synth"
           H1 H2 H3 H4 H5 (or_intror (or_introl H6))).
Defined.

(** The cartridge of the sample session gets a new name. *)
Lemma onInstRename_moves_entry_witness :
  let ist := mkInstStore (Some 1%nat) None None 0 0 in
  let item := mkTreeItem m_cartridges "mk1.bin" ist 0 in
  let r := onInstRename (mkTreeEvent (Item 0) "Favourites" false) Studio.config Studio.rig in
  (m_instTree Studio.rig !! 0%nat = Some item /\
   ti_icb item = 0 /\
   m_store (ti_store item) = Some 1%nat /\
   (exists i, m_instrumentStores Studio.rig !! "mk1.bin" = Some i /\ m_store i = Some 1%nat) /\
   map_Forall (λ k i, m_store i = Some 1%nat -> k = "mk1.bin"%string)
     (m_instrumentStores Studio.rig) /\
   m_instrumentStores Studio.rig !! "Favourites" = None /\
   config_Cartridges Studio.config !! "mk1.bin" = Some "mk1.bin"%string /\
   config_Cartridges Studio.config !! "Favourites" = None) /\
  r.1.1 = Returns false /\
  m_instrumentStores r.2 !! "Favourites" = Some ist /\
  m_instrumentStores r.2 !! "mk1.bin" = None /\
  config_Cartridges r.1.2 !! "Favourites" = Some "mk1.bin"%string.
Proof.
  intros ist item r.
  assert (H1 : m_instTree Studio.rig !! 0%nat = Some item) by (vm_compute; reflexivity).
  assert (H2 : ti_icb item = 0) by reflexivity.
  assert (H3 : m_store (ti_store item) = Some 1%nat) by reflexivity.
  assert (H4 : exists i, m_instrumentStores Studio.rig !! "mk1.bin" = Some i /\
                         m_store i = Some 1%nat)
    by (exists ist; split; vm_compute; reflexivity).
  assert (H5 : map_Forall (λ k i, m_store i = Some 1%nat -> k = "mk1.bin"%string)
                 (m_instrumentStores Studio.rig)).
  { apply map_Forall_to_list. vm_compute. repeat constructor. discriminate. }
  assert (H6 : m_instrumentStores Studio.rig !! "Favourites" = None)
    by (vm_compute; reflexivity).
  assert (H7 : config_Cartridges Studio.config !! "mk1.bin" = Some "mk1.bin"%string)
    by (vm_compute; reflexivity).
  assert (H8 : config_Cartridges Studio.config !! "Favourites" = None)
    by (vm_compute; reflexivity).
  split; [auto 10|].
  destruct (onInstRename_moves_entry Studio.rig Studio.config 0%nat item 1%nat
              "mk1.bin" "Favourites" H1 H2 H3 H4 H5 "mk1.bin" H6 H7 H8)
    as (R1 & R2 & R3 & _).
  cbn zeta in *. fold r in R1, R2, R3. rewrite R2, R3.
  split; [exact R1|]. split; [apply lookup_insert_eq|].
  split; [|apply lookup_insert_eq].
  rewrite lookup_insert_ne by discriminate. apply lookup_delete_eq.
Defined.

(** ** Adding a device *)

Ltac unfold_addDevice_refusal := unfold addDevice_refusal.
Ltac unfold_addDevice_refusal_in H := unfold addDevice_refusal in H.

Ltac run_ad :=
  unfold addDevice, addDevice_init, addDevice_try, addDevice_catch,
    delete_and_clear_midiIn, delete_and_clear_midiOut, new_Dx10Device,
    call_member, locals, assign_local, assign_member;
  run.

(** Heap equalities that need an address to be unused. *)
Ltac fresh_heap_eq :=
  apply map_eq; intros ?k;
  repeat first [rewrite lookup_delete | rewrite lookup_insert];
  repeat case_decide; subst;
  first [reflexivity | lia | congruence | symmetry; assumption].

(** The search of [createDevices] finds a port by the name
    [getPortName] gave for it. *)
Lemma find_port_getPortName (ports : list string) (idx : nat) :
  (idx < length ports)%nat -> NoDup ports ->
  find_port ports (getPortName ports idx) = Some idx.
Proof.
  intros Hlt Hnd. unfold find_port, getPortName.
  destruct (lookup_lt_is_Some_2 ports idx Hlt) as [x Hx]. rewrite Hx. cbn.
  destruct (list_find (λ n, n = x) ports) as [[i y]|] eqn:Hfind.
  - apply list_find_Some in Hfind as (Hi & -> & _). cbn.
    f_equal. exact (NoDup_lookup ports i idx x Hnd Hi Hx).
  - apply list_find_None in Hfind. rewrite Forall_forall in Hfind.
    exfalso. apply (Hfind x); [|reflexivity].
    eapply list_elem_of_lookup_2. exact Hx.
Qed.

Section AddDeviceFacts.

Variable Dx10Device : list Z -> Z -> Exception + StoreData.
Variable inPorts outPorts : list string.
Variable RtMidiIn_ok RtMidiOut_ok : bool.
Variable config_Write_elsewhere : string -> DeviceGroup -> Members -> Members.

Abbreviation addDevice :=
  (addDevice Dx10Device inPorts outPorts RtMidiIn_ok RtMidiOut_ok config_Write_elsewhere).
Abbreviation addDevice_refusal := (addDevice_refusal inPorts outPorts RtMidiIn_ok RtMidiOut_ok).

Lemma addDevice_refused_run (m : Members) (w : World) (dlg : option DeviceDialog)
    (msgs : list string) :
  heap_fresh w ->
  addDevice_refusal w dlg = Some msgs ->
  let r := addDevice dlg m w in
  r.1 = (Returns tt, m) /\
  m_instrumentStores r.2 = m_instrumentStores w /\
  m_instTree r.2 = m_instTree w /\
  stores r.2 = stores w /\
  buffers r.2 = buffers w /\
  midis r.2 = midis w /\
  files r.2 = files w /\
  messages r.2 = messages w ++ msgs /\
  (next w <= next r.2)%nat.
Proof.
  intros Hf.
  destruct (Hf (next w) (le_n _)) as (_ & _ & Fm0).
  destruct (Hf (S (next w)) ltac:(lia)) as (_ & _ & Fm1).
  unfold_addDevice_refusal. cbn zeta. run_ad.
  destruct RtMidiIn_ok, RtMidiOut_ok; cbn.
  - destruct ((length outPorts =? 0)%nat || (length inPorts =? 0)%nat); cbn.
    + intros [= <-]. repeat split; try reflexivity; try lia. fresh_heap_eq.
    + destruct dlg as [d|]; cbn.
      * destruct (bool_decide (is_Some (m_instrumentStores w !! getName_dlg d))) eqn:Hn; cbn;
          [|discriminate].
        intros [= <-]. repeat split; try reflexivity; try lia. fresh_heap_eq.
      * intros [= <-]. rewrite app_nil_r. repeat split; try reflexivity; try lia. fresh_heap_eq.
  - rewrite bool_decide_eq_true_2 by reflexivity. cbn.
    intros [= <-]. repeat split; try reflexivity; try lia. fresh_heap_eq.
  - rewrite bool_decide_eq_true_2 by reflexivity. cbn.
    intros [= <-]. repeat split; first [reflexivity | lia].
  - rewrite bool_decide_eq_true_2 by reflexivity. cbn.
    intros [= <-]. repeat split; first [reflexivity | lia].
Qed.

(** A call that goes all the way. *)
Lemma addDevice_added_run (m : Members) (w : World) (d : DeviceDialog) (sd : StoreData) :
  RtMidiIn_ok = true -> RtMidiOut_ok = true ->
  inPorts <> [] -> outPorts <> [] ->
  m_instrumentStores w !! getName_dlg d = None ->
  Dx10Device (replicate (Z.to_nat 6180) 0) 6180 = inr sd ->
  let n := next w in
  let ist := mkInstStore (Some (S (S (S n)))) (Some n) (Some (S n))
               (Cxx.uint8 (getChannel d)) (Cxx.uint8 (getType d)) in
  let g := mkDeviceGroup (getPortName inPorts (getInPort d))
             (getPortName outPorts (getOutPort d))
             (Some (Cxx.uint8 (getChannel d))) (Some (Cxx.uint8 (getType d))) in
  let r := addDevice (Some d) m w in
  r.1 = (Returns tt, config_Write_device config_Write_elsewhere (getName_dlg d) g m) /\
  m_instrumentStores r.2 = <[getName_dlg d := ist]> (m_instrumentStores w) /\
  m_instTree r.2 =
    m_instTree w ++
    mkTreeItem m_devices (getName_dlg d) ist 0 ::
    map (λ j, mkTreeItem (Item (length (m_instTree w))) (instName j.1 j.2) ist j.1) (icbs sd) /\
  stores r.2 = <[S (S (S n)) := mkInstrumentStore sd (S (S n))]> (stores w) /\
  buffers r.2 = <[S (S n) := replicate (Z.to_nat 6180) 0]> (buffers w) /\
  midis r.2 = <[S n := Some (getOutPort d)]> (<[n := Some (getInPort d)]> (midis w)) /\
  files r.2 = files w /\
  messages r.2 = messages w /\
  next r.2 = S (S (S (S n))).
Proof.
  intros -> -> Hi Ho Hfree Hd. cbn zeta. run_ad.
  destruct outPorts as [|op ops]; [contradiction|].
  destruct inPorts as [|ip ips]; [contradiction|]. cbn.
  rewrite Hfree. cbn.
  rewrite lookup_insert_ne by lia. rewrite lookup_insert_eq. cbn.
  rewrite lookup_insert_ne by lia. rewrite lookup_insert_eq. cbn.
  rewrite lookup_insert_eq. cbn. rewrite Hd. cbn.
  erewrite (append_instruments_run _ _ (S (S (S (next w)))));
    [ | reflexivity | cbn; apply lookup_insert_eq ].
  cbn. unfold map_insert_new. rewrite Hfree. rewrite <- !app_assoc.
  repeat split; try reflexivity. heap_eq.
Qed.

(** X18: a call that does not get as far as building the device (the
    MIDI system failed, it has no ports, the dialog was cancelled, or
    the name is in use) returns with the configuration, the collection,
    the tree and the heap as they were: the MIDI objects made at the
    start are deleted again.  It shows the message of the reason, none
    after a cancelled dialog. *)
Theorem addDevice_refused_leaves_nothing (m : Members) (w : World)
    (dlg : option DeviceDialog) (msgs : list string) :
  heap_fresh w ->
  addDevice_refusal w dlg = Some msgs ->
  let r := addDevice dlg m w in
  r.1 = (Returns tt, m) /\
  m_instrumentStores r.2 = m_instrumentStores w /\
  m_instTree r.2 = m_instTree w /\
  stores r.2 = stores w /\
  buffers r.2 = buffers w /\
  midis r.2 = midis w /\
  files r.2 = files w /\
  messages r.2 = messages w ++ msgs /\
  (next w <= next r.2)%nat.
Proof. apply addDevice_refused_run. Qed.

(** X19: with MIDI available, ports on both sides, a name not in use
    and a constructor that returns, the device is added: the two MIDI
    objects made at the start are handed to the entry with the chosen
    ports open, the store stands behind a fresh 6180-byte buffer and the
    tree shows the device and its instruments.  When the name is the
    name of a group (one path component, neither empty nor "." nor
    ".."), the configuration gets a group of that name in [/Devices]
    with the names of the two ports, the channel and the type.  Nothing
    is checked about the channel and the type; they are kept as 8-bit
    values. *)
Theorem addDevice_registers (m : Members) (w : World) (d : DeviceDialog) (sd : StoreData) :
  RtMidiIn_ok = true -> RtMidiOut_ok = true ->
  inPorts <> [] -> outPorts <> [] ->
  m_instrumentStores w !! getName_dlg d = None ->
  Dx10Device (replicate (Z.to_nat 6180) 0) 6180 = inr sd ->
  let n := next w in
  let ist := mkInstStore (Some (S (S (S n)))) (Some n) (Some (S n))
               (Cxx.uint8 (getChannel d)) (Cxx.uint8 (getType d)) in
  let g := mkDeviceGroup (getPortName inPorts (getInPort d))
             (getPortName outPorts (getOutPort d))
             (Some (Cxx.uint8 (getChannel d))) (Some (Cxx.uint8 (getType d))) in
  let r := addDevice (Some d) m w in
  r.1.1 = Returns tt /\
  (group_name (getName_dlg d) = true ->
   r.1.2 = set_config_Devices <[getName_dlg d := g]> m) /\
  m_instrumentStores r.2 = <[getName_dlg d := ist]> (m_instrumentStores w) /\
  m_instTree r.2 =
    m_instTree w ++
    mkTreeItem m_devices (getName_dlg d) ist 0 ::
    map (λ j, mkTreeItem (Item (length (m_instTree w))) (instName j.1 j.2) ist j.1) (icbs sd) /\
  stores r.2 = <[S (S (S n)) := mkInstrumentStore sd (S (S n))]> (stores w) /\
  buffers r.2 = <[S (S n) := replicate (Z.to_nat 6180) 0]> (buffers w) /\
  midis r.2 = <[S n := Some (getOutPort d)]> (<[n := Some (getInPort d)]> (midis w)) /\
  files r.2 = files w /\
  messages r.2 = messages w /\
  next r.2 = S (S (S (S n))).
Proof.
  intros Hin Hout Hi Ho Hfree Hd.
  destruct (addDevice_added_run m w d sd Hin Hout Hi Ho Hfree Hd) as (Hr & Hrest).
  cbn zeta in *. rewrite Hr. cbn [fst snd].
  split; [reflexivity|]. split; [|exact Hrest].
  intros Hgroup. unfold config_Write_device. rewrite Hgroup. reflexivity.
Qed.

(** X20: when the [Dx10Device] constructor throws, nothing is added and
    the 6180-byte buffer made for it stays allocated.  A
    [ConfigurationException] is caught: the two MIDI objects are deleted
    and the message is shown.  Any other exception leaves the function,
    and the two MIDI objects stay allocated with their ports open. *)
Theorem addDevice_constructor_throws (m : Members) (w : World) (d : DeviceDialog)
    (e : Exception) :
  RtMidiIn_ok = true -> RtMidiOut_ok = true ->
  inPorts <> [] -> outPorts <> [] ->
  m_instrumentStores w !! getName_dlg d = None ->
  Dx10Device (replicate (Z.to_nat 6180) 0) 6180 = inl e ->
  let n := next w in
  let r := addDevice (Some d) m w in
  r.1 = (if isConfiguration e then Returns tt else Throws e, m) /\
  m_instrumentStores r.2 = m_instrumentStores w /\
  m_instTree r.2 = m_instTree w /\
  stores r.2 = stores w /\
  buffers r.2 = <[S (S n) := replicate (Z.to_nat 6180) 0]> (buffers w) /\
  midis r.2 =
    (if isConfiguration e then delete n (delete (S n) (midis w))
     else <[S n := Some (getOutPort d)]> (<[n := Some (getInPort d)]> (midis w))) /\
  messages r.2 =
    (if isConfiguration e then messages w ++ [("Could not add device: " +:+ what e)%string]
     else messages w).
Proof.
  intros -> -> Hi Ho Hfree Hd. cbn zeta. run_ad.
  destruct outPorts as [|op ops]; [contradiction|].
  destruct inPorts as [|ip ips]; [contradiction|]. cbn.
  rewrite Hfree. cbn.
  rewrite lookup_insert_ne by lia. rewrite lookup_insert_eq. cbn.
  rewrite lookup_insert_ne by lia. rewrite lookup_insert_eq. cbn.
  rewrite lookup_insert_eq. cbn. rewrite Hd. cbn.
  destruct (isConfiguration e); cbn; repeat split; try reflexivity; heap_eq.
Qed.

(** X21: what [addDevice] writes, [createDevices] reads back.  For a
    device added under the name of a group (one path component, neither
    empty nor "." nor ".."), with existing ports, a channel from 1 to 16
    and a type of 1 or 2, the group left in the configuration passes
    every check of [createDevices] in a later session with the same
    ports, no two of them with the same name, in which the MIDI
    constructors return: the device is set up again under its name with
    the same ports, channel and type, and no message is shown. *)
Theorem addDevice_then_createDevices {L} (m : Members) (w : World) (d : DeviceDialog)
    (sd : StoreData) (midiIn_ok midiOut_ok : string -> bool) (l : L) (w2 : World) :
  RtMidiIn_ok = true -> RtMidiOut_ok = true ->
  group_name (getName_dlg d) = true ->
  (getInPort d < length inPorts)%nat -> (getOutPort d < length outPorts)%nat ->
  NoDup inPorts -> NoDup outPorts ->
  1 <= getChannel d <= 16 -> 1 <= getType d <= 2 ->
  m_instrumentStores w !! getName_dlg d = None ->
  Dx10Device (replicate (Z.to_nat 6180) 0) 6180 = inr sd ->
  midiIn_ok (getName_dlg d) = true -> midiOut_ok (getName_dlg d) = true ->
  m_instrumentStores w2 !! getName_dlg d = None ->
  let m' := (addDevice (Some d) m w).1.2 in
  let n := next w2 in
  exists g, config_Devices m' !! getName_dlg d = Some g /\
    let r := createDevices_one Dx10Device inPorts outPorts midiIn_ok midiOut_ok
               (getName_dlg d) g l w2 in
    r.1 = (Returns tt, l) /\
    m_instrumentStores r.2 !! getName_dlg d =
      Some (mkInstStore (Some (S (S (S n)))) (Some n) (Some (S n))
              (getChannel d) (getType d)) /\
    midis r.2 !! n = Some (Some (getInPort d)) /\
    midis r.2 !! S n = Some (Some (getOutPort d)) /\
    messages r.2 = messages w2.
Proof.
  intros Hin Hout Hgroup Hi Ho Ni No Hc Ht Hfree Hd Hmi Hmo Hfree2.
  assert (Hi' : inPorts <> []) by (destruct inPorts; [cbn in Hi; lia | discriminate]).
  assert (Ho' : outPorts <> []) by (destruct outPorts; [cbn in Ho; lia | discriminate]).
  destruct (addDevice_added_run m w d sd Hin Hout Hi' Ho' Hfree Hd) as (Hr & _).
  cbn zeta in *. rewrite Hr. cbn [fst snd]. unfold config_Write_device. rewrite Hgroup.
  cbn [config_Devices set_config_Devices].
  rewrite !uint8_small by lia.
  eexists. split; [apply lookup_insert_eq|].
  destruct (createDevices_one_valid_run Dx10Device inPorts outPorts midiIn_ok midiOut_ok
              l w2 (getName_dlg d)
              (mkDeviceGroup (getPortName inPorts (getInPort d))
                 (getPortName outPorts (getOutPort d))
                 (Some (getChannel d)) (Some (getType d)))
              sd (getInPort d) (getOutPort d) (getChannel d) (getType d) Hmi Hmo Hd
              (find_port_getPortName inPorts _ Hi Ni)
              (find_port_getPortName outPorts _ Ho No)
              eq_refl Hc eq_refl Ht)
    as (Hr2 & Hcoll & _ & _ & _ & Hm & Hmsg & _).
  cbn zeta in *. rewrite Hr2, Hcoll, Hm, Hmsg.
  unfold map_insert_new. rewrite Hfree2.
  repeat split.
  - apply lookup_insert_eq.
  - rewrite lookup_insert_ne by lia. apply lookup_insert_eq.
  - apply lookup_insert_eq.
Qed.

(** [addDevice] and the tidy heap. *)
Lemma addDevice_tidy (m : Members) (w : World) (dlg : option DeviceDialog)
    (sd : StoreData) :
  tidy w ->
  Dx10Device (replicate (Z.to_nat 6180) 0) 6180 = inr sd ->
  (forall d, dlg = Some d -> Cxx.uint8 (getType d) <> 0) ->
  tidy (addDevice dlg m w).2.
Proof.
  intros Ht Hd Hty.
  pose proof Ht as (Hf & Ho & Hne).
  destruct (addDevice_refusal w dlg) as [msgs|] eqn:Href.
  - destruct (addDevice_refused_run m w dlg msgs Hf Href)
      as (_ & Hc & _ & Hs & Hb & Hm & _ & _ & Hn).
    cbn zeta in *. apply (tidy_ext w); assumption.
  - assert (Hin : RtMidiIn_ok = true).
    { unfold_addDevice_refusal_in Href. destruct RtMidiIn_ok; [reflexivity | discriminate]. }
    assert (Hout : RtMidiOut_ok = true).
    { unfold_addDevice_refusal_in Href. rewrite Hin in Href.
      destruct RtMidiOut_ok; [reflexivity | discriminate]. }
    unfold_addDevice_refusal_in Href. rewrite Hin, Hout in Href. cbn in Href.
    destruct (length outPorts =? 0)%nat eqn:Hol; [discriminate|].
    destruct (length inPorts =? 0)%nat eqn:Hil; [discriminate|]. cbn in Href.
    destruct dlg as [d|]; [|discriminate].
    destruct (bool_decide (is_Some (m_instrumentStores w !! getName_dlg d))) eqn:Hnm;
      [discriminate|].
    apply bool_decide_eq_false in Hnm.
    assert (Hfree : m_instrumentStores w !! getName_dlg d = None).
    { destruct (m_instrumentStores w !! getName_dlg d); [exfalso; eauto | reflexivity]. }
    assert (Hi' : inPorts <> []) by (intros E; rewrite E in Hil; discriminate).
    assert (Ho' : outPorts <> []) by (intros E; rewrite E in Hol; discriminate).
    destruct (Hf (next w) (le_n _)) as (_ & _ & Fm0).
    destruct (Hf (S (next w)) ltac:(lia)) as (_ & _ & Fm1).
    destruct (Hf (S (S (next w))) ltac:(lia)) as (Fb & _ & _).
    destruct (Hf (S (S (S (next w)))) ltac:(lia)) as (_ & Fs & _).
    destruct (addDevice_added_run m w d sd Hin Hout Hi' Ho' Hfree Hd)
      as (_ & Hcoll & _ & Hs & Hb & Hm & _ & _ & Hn).
    cbn zeta in *.
    set (ist := mkInstStore (Some (S (S (S (next w))))) (Some (next w)) (Some (S (next w)))
                  (Cxx.uint8 (getChannel d)) (Cxx.uint8 (getType d))) in *.
    set (w' := (addDevice (Some d) m w).2) in *.
    assert (Hbuf : entry_buffers w' ist = [S (S (next w))]).
    { unfold entry_buffers. cbn. rewrite Hs, lookup_insert_eq. reflexivity. }
    assert (Hmid : entry_midis ist = [next w; S (next w)]).
    { unfold entry_midis. cbn.
      destruct (Z.eqb_spec (Cxx.uint8 (getType d)) 0) as [E|]; [|reflexivity].
      exfalso. exact (Hty d eq_refl E). }
    apply (tidy_add w _ (getName_dlg d) ist); try assumption.
    + cbn. rewrite Hs. apply added_insert. exact Fs.
    + rewrite Hbuf, Hb. apply added_insert. exact Fb.
    + rewrite Hmid, Hm. split; intros a Ha.
      * apply elem_of_cons in Ha as [-> | Ha];
          [|apply list_elem_of_singleton in Ha as ->].
        -- split; [exact Fm0|]. rewrite lookup_insert_ne, lookup_insert_eq by lia. eauto.
        -- split; [exact Fm1|]. rewrite lookup_insert_eq. eauto.
      * rewrite !not_elem_of_cons in Ha.
        destruct Ha as (Ha0 & Ha1 & _).
        rewrite !lookup_insert_ne by congruence. reflexivity.
    + cbn. apply NoDup_singleton.
    + rewrite Hbuf. apply NoDup_singleton.
    + rewrite Hmid. apply NoDup_cons. split; [|apply NoDup_singleton].
      rewrite list_elem_of_singleton. lia.
    + intros a Ha. rewrite Hbuf, Hmid. cbn. rewrite Hn in Ha.
      rewrite !not_elem_of_cons. repeat split; try lia; apply not_elem_of_nil.
    + lia.
Qed.

(** X22: [addDevice] keeps the heap tidy when the device constructor
    returns and the type of an added device is not 0 as an 8-bit value
    (the destructor deletes the MIDI objects of such entries only). *)
Theorem addDevice_keeps_tidy (m : Members) (w : World) (dlg : option DeviceDialog)
    (sd : StoreData) :
  tidy w ->
  Dx10Device (replicate (Z.to_nat 6180) 0) 6180 = inr sd ->
  (forall d, dlg = Some d -> Cxx.uint8 (getType d) <> 0) ->
  tidy (addDevice dlg m w).2.
Proof. apply addDevice_tidy. Qed.

End AddDeviceFacts.

(** A device with the name of the loaded cartridge. *)
Lemma addDevice_refused_leaves_nothing_witness :
  let msgs := ["Could not add device: Device or cartridge with this name already exists"%string] in
  let r := addDevice Sample.Dx10Device Studio.inPorts Studio.outPorts true true
             Studio.write_dropped
             (Some (Studio.dialog "mk1.bin")) Studio.config Studio.shelf in
  (heap_fresh Studio.shelf /\
   addDevice_refusal Studio.inPorts Studio.outPorts true true Studio.shelf
     (Some (Studio.dialog "mk1.bin")) = Some msgs) /\
  r.1 = (Returns tt, Studio.config) /\
  m_instrumentStores r.2 = m_instrumentStores Studio.shelf /\
  midis r.2 = ∅ /\
  messages r.2 = msgs.
Proof.
  intros msgs r.
  assert (H1 : heap_fresh Studio.shelf) by exact (proj1 tidy_shelf).
  assert (H2 : addDevice_refusal Studio.inPorts Studio.outPorts true true Studio.shelf
                 (Some (Studio.dialog "mk1.bin")) = Some msgs) by (vm_compute; reflexivity).
  split; [auto|].
  destruct (addDevice_refused_leaves_nothing Sample.Dx10Device Studio.inPorts
              Studio.outPorts true true Studio.write_dropped Studio.config Studio.shelf
              _ msgs H1 H2)
    as (R1 & R2 & _ & _ & _ & R6 & _ & R8 & _).
  auto.
Defined.

(** The sample dialog leaves the sample group in the configuration. *)
Lemma addDevice_registers_witness :
  let r := addDevice Sample.Dx10Device Studio.inPorts Studio.outPorts true true
             Studio.write_dropped (Some (Studio.dialog "DX10")) (mkMembers ∅ ∅)
             Studio.shelf in
  (Studio.inPorts <> [] /\ Studio.outPorts <> [] /\
   m_instrumentStores Studio.shelf !! "DX10" = None /\
   Sample.Dx10Device (replicate (Z.to_nat 6180) 0) 6180 = inr (mkStoreData [] ∅ ∅ ∅ ∅) /\
   group_name "DX10" = true) /\
  r.1 = (Returns tt, mkMembers ∅ {[ "DX10"%string := Studio.dx10 ]}) /\
  m_instrumentStores r.2 !! "DX10" =
    Some (mkInstStore (Some 5%nat) (Some 2%nat) (Some 3%nat) 3 2) /\
  midis r.2 = <[3%nat := Some 0%nat]> (<[2%nat := Some 1%nat]> ∅) /\
  messages r.2 = [].
Proof.
  intros r.
  assert (H1 : Studio.inPorts <> []) by discriminate.
  assert (H2 : Studio.outPorts <> []) by discriminate.
  assert (H3 : m_instrumentStores Studio.shelf !! "DX10" = None) by (vm_compute; reflexivity).
  assert (H4 : Sample.Dx10Device (replicate (Z.to_nat 6180) 0) 6180 =
               inr (mkStoreData [] ∅ ∅ ∅ ∅)) by reflexivity.
  assert (H5 : group_name "DX10" = true) by (vm_compute; reflexivity).
  split; [auto 10|].
  destruct (addDevice_registers Sample.Dx10Device Studio.inPorts Studio.outPorts true true
              Studio.write_dropped (mkMembers ∅ ∅) Studio.shelf (Studio.dialog "DX10") _
              eq_refl eq_refl H1 H2 H3 H4)
    as (R0 & R1 & R2 & _ & _ & _ & R6 & _ & R8 & _).
  cbn zeta in *. fold r in R0, R1, R2, R6, R8. specialize (R1 H5).
  split.
  { destruct r as [[out m'] w']. cbn [fst snd] in *. rewrite R0, R1. reflexivity. }
  split; [rewrite R2; apply lookup_insert_eq|].
  split; [exact R6 | exact R8].
Defined.

(** The same dialog with a constructor that throws. *)
Lemma addDevice_constructor_throws_witness :
  let e := ConfigurationException "No device data" in
  let r := addDevice Studio.Dx10Device_refuses Studio.inPorts Studio.outPorts true true
             Studio.write_dropped
             (Some (Studio.dialog "DX10")) (mkMembers ∅ ∅) Sample.world0 in
  (Studio.inPorts <> [] /\ Studio.outPorts <> [] /\
   m_instrumentStores Sample.world0 !! "DX10" = None /\
   Studio.Dx10Device_refuses (replicate (Z.to_nat 6180) 0) 6180 = inl e) /\
  r.1 = (Returns tt, mkMembers ∅ ∅) /\
  buffers r.2 = {[ 2%nat := replicate (Z.to_nat 6180) 0 ]} /\
  midis r.2 = ∅ /\
  messages r.2 = ["Could not add device: No device data"%string].
Proof.
  intros e r.
  assert (H1 : Studio.inPorts <> []) by discriminate.
  assert (H2 : Studio.outPorts <> []) by discriminate.
  assert (H3 : m_instrumentStores Sample.world0 !! "DX10" = None) by reflexivity.
  assert (H4 : Studio.Dx10Device_refuses (replicate (Z.to_nat 6180) 0) 6180 = inl e)
    by reflexivity.
  split; [auto|].
  destruct (addDevice_constructor_throws Studio.Dx10Device_refuses Studio.inPorts
              Studio.outPorts true true Studio.write_dropped (mkMembers ∅ ∅) Sample.world0
              (Studio.dialog "DX10") e eq_refl eq_refl H1 H2 H3 H4)
    as (R1 & _ & _ & _ & R5 & R6 & R7).
  auto.
Defined.

(** The device of the sample dialog, set up again in a new session. *)
Lemma addDevice_then_createDevices_witness :
  let d := Studio.dialog "DX10" in
  let m' := (addDevice Sample.Dx10Device Studio.inPorts Studio.outPorts true true
               Studio.write_dropped (Some d) (mkMembers ∅ ∅) Studio.shelf).1.2 in
  (group_name (getName_dlg d) = true /\
   (getInPort d < length Studio.inPorts)%nat /\
   (getOutPort d < length Studio.outPorts)%nat /\
   NoDup Studio.inPorts /\ NoDup Studio.outPorts /\
   1 <= getChannel d <= 16 /\ 1 <= getType d <= 2 /\
   m_instrumentStores Studio.shelf !! getName_dlg d = None /\
   Sample.Dx10Device (replicate (Z.to_nat 6180) 0) 6180 = inr (mkStoreData [] ∅ ∅ ∅ ∅) /\
   Sample.midi_ok (getName_dlg d) = true /\
   m_instrumentStores Sample.world0 !! getName_dlg d = None) /\
  exists g, config_Devices m' !! "DX10" = Some g /\
    let r := createDevices_one Sample.Dx10Device Studio.inPorts Studio.outPorts
               Sample.midi_ok Sample.midi_ok "DX10" g tt Sample.world0 in
    r.1 = (Returns tt, tt) /\
    m_instrumentStores r.2 !! "DX10" =
      Some (mkInstStore (Some 3%nat) (Some 0%nat) (Some 1%nat) 3 2) /\
    midis r.2 !! 0%nat = Some (Some 1%nat) /\
    midis r.2 !! 1%nat = Some (Some 0%nat) /\
    messages r.2 = [].
Proof.
  intros d m'.
  assert (H0 : group_name (getName_dlg d) = true) by (vm_compute; reflexivity).
  assert (H1 : (getInPort d < length Studio.inPorts)%nat) by (cbn; lia).
  assert (H2 : (getOutPort d < length Studio.outPorts)%nat) by (cbn; lia).
  assert (H3 : NoDup Studio.inPorts)
    by (apply NoDup_cons; split;
        [rewrite list_elem_of_singleton; discriminate | apply NoDup_singleton]).
  assert (H4 : NoDup Studio.outPorts)
    by (apply NoDup_cons; split;
        [rewrite list_elem_of_singleton; discriminate | apply NoDup_singleton]).
  assert (H5 : 1 <= getChannel d <= 16) by (cbn; lia).
  assert (H6 : 1 <= getType d <= 2) by (cbn; lia).
  assert (H7 : m_instrumentStores Studio.shelf !! getName_dlg d = None)
    by (vm_compute; reflexivity).
  assert (H8 : Sample.Dx10Device (replicate (Z.to_nat 6180) 0) 6180 =
               inr (mkStoreData [] ∅ ∅ ∅ ∅)) by reflexivity.
  assert (H9 : Sample.midi_ok (getName_dlg d) = true) by reflexivity.
  assert (H10 : m_instrumentStores Sample.world0 !! getName_dlg d = None) by reflexivity.
  split; [auto 15|].
  exact (addDevice_then_createDevices Sample.Dx10Device Studio.inPorts Studio.outPorts
           true true Studio.write_dropped (mkMembers ∅ ∅) Studio.shelf d _
           Sample.midi_ok Sample.midi_ok tt Sample.world0
           eq_refl eq_refl H0 H1 H2 H3 H4 H5 H6 H7 H8 H9 H9 H10).
Defined.

(** The sample dialog in the session with the cartridge. *)
Lemma addDevice_keeps_tidy_witness :
  let dlg := Some (Studio.dialog "DX10") in
  (tidy Studio.shelf /\
   Sample.Dx10Device (replicate (Z.to_nat 6180) 0) 6180 = inr (mkStoreData [] ∅ ∅ ∅ ∅) /\
   (forall d, dlg = Some d -> Cxx.uint8 (getType d) <> 0)) /\
  tidy (addDevice Sample.Dx10Device Studio.inPorts Studio.outPorts true true
             Studio.write_dropped dlg
          (mkMembers ∅ ∅) Studio.shelf).2.
Proof.
  intros dlg.
  assert (H2 : Sample.Dx10Device (replicate (Z.to_nat 6180) 0) 6180 =
               inr (mkStoreData [] ∅ ∅ ∅ ∅)) by reflexivity.
  assert (H3 : forall d, dlg = Some d -> Cxx.uint8 (getType d) <> 0).
  { intros d [= <-]. vm_compute. discriminate. }
  split; [exact (conj tidy_shelf (conj H2 H3))|].
  exact (addDevice_keeps_tidy Sample.Dx10Device Studio.inPorts Studio.outPorts true true
           Studio.write_dropped (mkMembers ∅ ∅) Studio.shelf dlg _ tidy_shelf H2 H3).
Defined.
